(** * Manpower Forecasting System: curve generation and adjustment engine

    A shallow embedding of [src/app.py] (the Streamlit script) and of the
    parts of Python's [datetime] and of pandas it calls.

    Conventions of the embedding.
    - Python floats are modelled as exact rationals ([Qc], canonical
      fractions with Leibniz equality); IEEE-754 rounding error is not
      modelled.  [round(x, 2)] is rounding to the nearest multiple of 1/100
      with ties to even, taken on the exact rational.
    - A date ([datetime.date], [pandas.Timestamp] at midnight) is its
      proleptic Gregorian ordinal ([date.toordinal()]), a [Z].
    - A DataFrame is the list of its rows, a row is a record.
    - [st.stop()] and uncaught exceptions end the script run; they are the
      [Stop] outcome of the script monad, which keeps the script's state. *)

From Stdlib Require Import ZArith QArith Qcanon Qround List String Bool Lia Lqa FinFun
  OrderedTypeEx.
Import ListNotations.

Local Open Scope Z_scope.

(** ** Rational arithmetic helpers *)

Module Num.

Definition of_Z (z : Z) : Qc := Q2Qc (inject_Z z).
Definition of_nat (n : nat) : Qc := of_Z (Z.of_nat n).

Definition hundred : Qc := of_Z 100.

Definition ltb (x y : Qc) : bool :=
  match (x ?= y)%Qc with Lt => true | _ => false end.
Definition leb (x y : Qc) : bool :=
  match (x ?= y)%Qc with Gt => false | _ => true end.

(** Sum of a column, [Series.sum()]. *)
Definition sum (l : list Qc) : Qc := fold_right Qcplus 0%Qc l.

(** Nearest integer, ties to even. *)
Definition round_half_even (q : Q) : Z :=
  let f := Qfloor q in
  match Qcompare (q - inject_Z f) (1 # 2) with
  | Lt => f
  | Gt => f + 1
  | Eq => if Z.even f then f else f + 1
  end.

(** [round(x, 2)] and [Series.round(2)]. *)
Definition round2 (x : Qc) : Qc :=
  Q2Qc (inject_Z (round_half_even (x * 100)) / 100).

End Num.

(** ** Calendar: the parts of [datetime] the script uses *)

Module Calendar.

Definition date := Z.

(** [_days_before_year]: days before January 1st of [year]. *)
Definition days_before_year (year : Z) : Z :=
  let y := year - 1 in y * 365 + y / 4 - y / 100 + y / 400.

Definition DI400Y : Z := 146097.
Definition DI100Y : Z := 36524.
Definition DI4Y : Z := 1461.

(** The year component of [_ord2ymd]. *)
Definition ord2year (n : Z) : Z :=
  let n := n - 1 in
  let n400 := n / DI400Y in
  let n := n mod DI400Y in
  let year := n400 * 400 + 1 in
  let n100 := n / DI100Y in
  let n := n mod DI100Y in
  let n4 := n / DI4Y in
  let n := n mod DI4Y in
  let n1 := n / 365 in
  let year := year + n100 * 100 + n4 * 4 + n1 in
  if (n1 =? 4) || (n100 =? 4) then year - 1 else year.

(** [_ymd2ord(year, 1, 1)]. *)
Definition jan1 (year : Z) : Z := days_before_year year + 1.

(** [date.weekday()]: Monday is 0, Sunday is 6. *)
Definition weekday (d : date) : Z := (d + 6) mod 7.

(** [_isoweek1monday]: ordinal of the Monday starting ISO week 1. *)
Definition isoweek1monday (year : Z) : Z :=
  let firstday := jan1 year in
  let firstweekday := (firstday + 6) mod 7 in
  let week1monday := firstday - firstweekday in
  if 3 <? firstweekday then week1monday + 7 else week1monday.

(** [date.isocalendar()]: (ISO year, ISO week, ISO weekday). *)
Definition isocalendar (d : date) : Z * Z * Z :=
  let year := ord2year d in
  let week1monday := isoweek1monday year in
  let week := (d - week1monday) / 7 in
  let day := (d - week1monday) mod 7 in
  if week <? 0 then
    let year := year - 1 in
    let week1monday := isoweek1monday year in
    (year, (d - week1monday) / 7 + 1, (d - week1monday) mod 7 + 1)
  else if (52 <=? week) && (isoweek1monday (year + 1) <=? d) then
    (year + 1, 1, day + 1)
  else (year, week + 1, day + 1).

Definition iso_year (d : date) : Z := fst (fst (isocalendar d)).
Definition iso_week (d : date) : Z := snd (fst (isocalendar d)).

(** [pd.date_range(start, end)]: every day from [start] to [end], both
    included; empty when [end < start]. *)
Definition date_range (start_date end_date : date) : list date :=
  map (fun i => start_date + Z.of_nat i)
      (seq 0 (Z.to_nat (end_date - start_date + 1))).

(** [[d for d in dates if d.weekday() in selected_weekdays]]. *)
Definition is_working (selected_weekdays : list Z) (d : date) : bool :=
  existsb (Z.eqb (weekday d)) selected_weekdays.

Definition working_days_of (selected_weekdays : list Z) (dates : list date)
  : list date :=
  filter (is_working selected_weekdays) dates.

End Calendar.

(** ** Data model: the script's tables, one record per row *)

Import Calendar.

(** A row of [edited_df], the task input table. *)
Module Input.
Record row := {
  task_code : string;
  task_name : string;
  rate_per_manday : Qc;
  uom : string;
  trade_name : string;
  BOQ : Qc;
  Start_Date : date;
  End_Date : date
}.
End Input.

(** A row of [baseline_df]. *)
Module Baseline.
Record row := {
  task_code : string;
  task_name : string;
  trade_name : string;
  boq : Qc;
  rate : Qc;
  man_days : Qc;
  duration_days : Z;
  manpower : Qc;
  start_date : date;
  end_date : date
}.
End Baseline.

(** A row of [timeline_df], the baseline daily curve. *)
Module Timeline.
Record row := { date_ : date; trade_name : string; manpower : Qc }.
End Timeline.

(** A row of [task_progress_df].  The last two columns exist only after the
    effective-progress merge of the final report; a missing merge partner is
    pandas' NaN, here [None]. *)
Module TaskProgress.
Record row := {
  task_code : string;
  task_name : string;
  man_days : Qc;
  duration_days : Z;
  boq : Qc;
  Planned_Manpower : Qc;
  Progress : Qc;
  Adjusted_Man_Days : Qc;
  Adjusted_Manpower : Qc;
  Balance_BOQ : option Qc;
  Effective_Progress : option Qc
}.
End TaskProgress.

(** A row of [weekly_df]. *)
Module Weekly.
Record row := {
  Task : string;
  Week_Start : date;
  Week_End : date;
  Working_Days : nat;
  Progress : Qc
}.
End Weekly.

(** A row of [daily_df]. *)
Module Daily.
Record row := { Task : string; Date : date; Progress : Qc }.
End Daily.

(** A row of [adjusted_df], a manpower curve point. *)
Module Curve.
Record row := { Task : string; Trade : string; Date : date; Manpower : Qc }.

Definition scale (factor : Qc) (r : row) : row :=
  {| Task := Task r; Trade := Trade r; Date := Date r;
     Manpower := (Manpower r * factor)%Qc |}.

(** [adjusted_df.loc[mask, "Manpower"] *= factor]. *)
Definition scale_where (mask : row -> bool) (factor : Qc) (df : list row)
  : list row :=
  map (fun r => if mask r then scale factor r else r) df.

(** [adjusted_df[adjusted_df["Task"] == task]]. *)
Definition of_task (task : string) (df : list row) : list row :=
  filter (fun r => String.eqb (Task r) task) df.

(** [task_df["Manpower"].sum()]. *)
Definition total (df : list row) : Qc := Num.sum (map Manpower df).

(** What the masks of the script look at: the task and the date of a row. *)
Definition key (r : row) : string * date := (Task r, Date r).

(** Row-wise rescaling, the general form of the masked updates. *)
Definition rescale (g : row -> Qc) (df : list row) : list row :=
  map (fun r => scale (g r) r) df.
End Curve.

Inductive ReportType := Daily_Report | Weekly_Report.

(** ** The script monad: state, [st.stop()] and exceptions *)

(** The three user-facing errors are [st.error(...)] followed by
    [st.stop()]; the others are Python exceptions the script does not catch. *)
Inductive error :=
| InvalidInput (task : string)
    (* "BOQ must be > 0 for task ..." *)
| InvalidDateRange (task : string)
    (* "End date cannot be before start date for task ..." *)
| ProgressOverflow (task : string) (total : Qc)
    (* "Daily progress for task ... exceeds 100%. Current total = ...%." *)
| ZeroDivisionError
| IndexError
| KeyError.

Inductive outcome (A : Type) :=
| Ok (a : A)
| Stop (e : error).
Arguments Ok {A} a.
Arguments Stop {A} e.

(** [st.session_state]; an absent key is [None]. *)
Record Session := {
  ss_baseline_df : option (list Baseline.row);
  ss_working_days : option (list Z);
  ss_task_progress_df : option (list TaskProgress.row);
  ss_weekly_df : option (list Weekly.row);
  ss_daily_df : option (list Daily.row);
  ss_generate_final : bool;
  ss_report_type : option ReportType
}.

Definition empty_session : Session :=
  {| ss_baseline_df := None; ss_working_days := None;
     ss_task_progress_df := None; ss_weekly_df := None; ss_daily_df := None;
     ss_generate_final := false; ss_report_type := None |}.

(** The script's state: the session and the module-level variables that
    hold intermediate results ([None]: not assigned in this run). *)
Record Script := {
  session_state : Session;
  baseline_results : list Baseline.row;
  timeline_df : option (list Timeline.row);
  adjusted_df : option (list Curve.row);
  final_task_progress_df : option (list TaskProgress.row)
}.

Definition fresh_run (ss : Session) : Script :=
  {| session_state := ss; baseline_results := []; timeline_df := None;
     adjusted_df := None; final_task_progress_df := None |}.

Definition M (A : Type) : Type := Script -> outcome A * Script.

Definition ret {A} (a : A) : M A := fun s => (Ok a, s).
Definition stop {A} (e : error) : M A := fun s => (Stop e, s).
Definition bind {A B} (m : M A) (k : A -> M B) : M B :=
  fun s => match m s with
           | (Ok a, s') => k a s'
           | (Stop e, s') => (Stop e, s')
           end.
Definition get : M Script := fun s => (Ok s, s).
Definition put (s : Script) : M unit := fun _ => (Ok tt, s).
Definition lift {A} (o : outcome A) : M A := fun s => (o, s).

Declare Scope script_scope.
Delimit Scope script_scope with script.
Notation "x <- m ;; k" := (bind m (fun x => k))
  (at level 61, m at next level, right associativity) : script_scope.
Notation "m ;; k" := (bind m (fun _ => k))
  (at level 61, right associativity) : script_scope.
Local Open Scope script_scope.

(** [d[key]] on the session: [KeyError] when absent. *)
Definition require {A} (o : option A) : M A :=
  match o with Some a => ret a | None => stop KeyError end.

Definition set_baseline_results (l : list Baseline.row) : M unit :=
  fun s => (Ok tt,
    {| session_state := session_state s; baseline_results := l;
       timeline_df := timeline_df s; adjusted_df := adjusted_df s;
       final_task_progress_df := final_task_progress_df s |}).
Definition set_timeline_df (l : list Timeline.row) : M unit :=
  fun s => (Ok tt,
    {| session_state := session_state s;
       baseline_results := baseline_results s;
       timeline_df := Some l; adjusted_df := adjusted_df s;
       final_task_progress_df := final_task_progress_df s |}).
Definition set_adjusted_df (l : list Curve.row) : M unit :=
  fun s => (Ok tt,
    {| session_state := session_state s;
       baseline_results := baseline_results s;
       timeline_df := timeline_df s; adjusted_df := Some l;
       final_task_progress_df := final_task_progress_df s |}).
Definition set_final_task_progress_df (l : list TaskProgress.row) : M unit :=
  fun s => (Ok tt,
    {| session_state := session_state s;
       baseline_results := baseline_results s;
       timeline_df := timeline_df s; adjusted_df := adjusted_df s;
       final_task_progress_df := Some l |}).
Definition modify_session (f : Session -> Session) : M unit :=
  fun s => (Ok tt,
    {| session_state := f (session_state s);
       baseline_results := baseline_results s;
       timeline_df := timeline_df s; adjusted_df := adjusted_df s;
       final_task_progress_df := final_task_progress_df s |}).

(** ** Section 1 of the script: baseline *)

(** Python's [/] on numbers: [ZeroDivisionError] on a zero divisor. *)
Definition py_div (x y : Qc) : outcome Qc :=
  if Qc_eq_dec y 0 then Stop ZeroDivisionError else Ok (x / y)%Qc.

(** [calculate_baseline(rate, boq, start_date, end_date)]. *)
Definition calculate_baseline (rate boq : Qc) (start_date end_date : date)
  : outcome (Qc * Qc * Z) :=
  match py_div boq rate with
  | Stop e => Stop e
  | Ok man_days =>
      let duration_days := (end_date - start_date) + 1 in
      match py_div man_days (Num.of_Z duration_days) with
      | Stop e => Stop e
      | Ok manpower => Ok (man_days, manpower, duration_days)
      end
  end.

(** The body of the loop [for _, row in edited_df.iterrows()] under the
    "Generate Initial Report" button. *)
Definition baseline_step (row : Input.row) : M unit :=
  let boq := Input.BOQ row in
  let start_date := Input.Start_Date row in
  let end_date := Input.End_Date row in
  if Num.leb boq 0 then stop (InvalidInput (Input.task_code row))
  else if end_date <? start_date
  then stop (InvalidDateRange (Input.task_code row))
  else
    r <- lift (calculate_baseline (Input.rate_per_manday row) boq
                 start_date end_date) ;;
    let '(man_days, manpower, duration) := r in
    s <- get ;;
    set_baseline_results
      (baseline_results s ++
       [ {| Baseline.task_code := Input.task_code row;
            Baseline.task_name := Input.task_name row;
            Baseline.trade_name := Input.trade_name row;
            Baseline.boq := boq;
            Baseline.rate := Input.rate_per_manday row;
            Baseline.man_days := man_days;
            Baseline.duration_days := duration;
            Baseline.manpower := manpower;
            Baseline.start_date := start_date;
            Baseline.end_date := end_date |} ]).

Fixpoint baseline_loop (rows : list Input.row) : M unit :=
  match rows with
  | [] => ret tt
  | row :: rest => baseline_step row ;; baseline_loop rest
  end.

(** The baseline daily curve: [timeline_rows]. *)
Definition timeline_rows (baseline_df : list Baseline.row)
  : list Timeline.row :=
  flat_map
    (fun row =>
       let daily_mp := Baseline.manpower row in
       map (fun d => {| Timeline.date_ := d;
                        Timeline.trade_name := Baseline.trade_name row;
                        Timeline.manpower := daily_mp |})
           (date_range (Baseline.start_date row) (Baseline.end_date row)))
    baseline_df.

(** [if st.button("Generate Initial Report"): ...], up to the assignment
    of [timeline_df] (line 172).  An empty [baseline_df] has no columns, so
    grouping it by ["trade_name"] raises.  The pivot of the line chart that
    follows (line 173) is not run here: it is [baseline_chart], which
    raises when a trade has two tasks at work on the same day; statements
    about a run that goes on after this section say that the chart was
    drawn. *)
Definition generate_initial_report (edited_df : list Input.row)
    (selected_weekdays : list Z) : M unit :=
  set_baseline_results [] ;;
  baseline_loop edited_df ;;
  s <- get ;;
  let baseline_df := baseline_results s in
  modify_session (fun ss =>
    {| ss_baseline_df := Some baseline_df;
       ss_working_days := Some selected_weekdays;
       ss_task_progress_df := ss_task_progress_df ss;
       ss_weekly_df := ss_weekly_df ss;
       ss_daily_df := ss_daily_df ss;
       ss_generate_final := ss_generate_final ss;
       ss_report_type := ss_report_type ss |}) ;;
  match baseline_df with
  | [] => stop KeyError
  | _ => set_timeline_df (timeline_rows baseline_df)
  end.

(** ** Section 2 of the script: progress tables *)

(** The formulas for "Adjusted Man-Days", "Adjusted Manpower" and
    "Balance BOQ", computed once before the editor and again after it.
    These are pandas column operations; the editor keeps "Progress %" in
    [1, 300] and a validated task has [duration_days >= 1], so no divisor
    is zero. *)
Definition recalculate (r : TaskProgress.row) : TaskProgress.row :=
  let adjusted_man_days :=
    (TaskProgress.man_days r / (TaskProgress.Progress r / Num.hundred))%Qc in
  {| TaskProgress.task_code := TaskProgress.task_code r;
     TaskProgress.task_name := TaskProgress.task_name r;
     TaskProgress.man_days := TaskProgress.man_days r;
     TaskProgress.duration_days := TaskProgress.duration_days r;
     TaskProgress.boq := TaskProgress.boq r;
     TaskProgress.Planned_Manpower := TaskProgress.Planned_Manpower r;
     TaskProgress.Progress := TaskProgress.Progress r;
     TaskProgress.Adjusted_Man_Days := adjusted_man_days;
     TaskProgress.Adjusted_Manpower :=
       Num.round2
         (adjusted_man_days / Num.of_Z (TaskProgress.duration_days r))%Qc;
     TaskProgress.Balance_BOQ :=
       Some (TaskProgress.boq r
             * (1 - TaskProgress.Progress r / Num.hundred))%Qc;
     TaskProgress.Effective_Progress := TaskProgress.Effective_Progress r |}.

(** The row of [task_progress_df] shown in the editor: "Progress %" is 100. *)
Definition task_progress_default (b : Baseline.row) : TaskProgress.row :=
  recalculate
    {| TaskProgress.task_code := Baseline.task_code b;
       TaskProgress.task_name := Baseline.task_name b;
       TaskProgress.man_days := Baseline.man_days b;
       TaskProgress.duration_days := Baseline.duration_days b;
       TaskProgress.boq := Baseline.boq b;
       TaskProgress.Planned_Manpower :=
         Num.round2
           (Baseline.man_days b / Num.of_Z (Baseline.duration_days b))%Qc;
       TaskProgress.Progress := Num.hundred;
       TaskProgress.Adjusted_Man_Days := 0%Qc;
       TaskProgress.Adjusted_Manpower := 0%Qc;
       TaskProgress.Balance_BOQ := None;
       TaskProgress.Effective_Progress := None |}.

(** The [weeks] dict: insertion-ordered, key to the list of its dates.  A
    key is created with its first date, so a bucket is [(first, rest)]. *)
Definition weeks_dict := list (Z * (date * list date)).

Fixpoint dict_append (week_key : Z) (d : date) (weeks : weeks_dict)
  : weeks_dict :=
  match weeks with
  | [] => [(week_key, (d, []))]
  | (k, (d0, ds)) :: rest =>
      if week_key =? k then (k, (d0, ds ++ [d])) :: rest
      else (k, (d0, ds)) :: dict_append week_key d rest
  end.

(** [for d in working_days: week_key = d.isocalendar().week; ...]. *)
Definition group_weeks (working_days : list date) : weeks_dict :=
  fold_left (fun weeks d => dict_append (iso_week d) d weeks)
            working_days [].

Definition bucket_days (b : date * list date) : list date := fst b :: snd b.
Definition bucket_min (b : date * list date) : date :=
  fold_left Z.min (snd b) (fst b).
Definition bucket_max (b : date * list date) : date :=
  fold_left Z.max (snd b) (fst b).

Definition task_dates (row : Baseline.row) : list date :=
  date_range (Baseline.start_date row) (Baseline.end_date row).

Definition task_working_days (selected_weekdays : list Z)
    (row : Baseline.row) : list date :=
  working_days_of selected_weekdays (task_dates row).

(** [round(100.0 / num_weeks, 2) if num_weeks > 0 else 0.0]. *)
Definition auto_percent (n : nat) : Qc :=
  if (0 <? n)%nat then Num.round2 (Num.hundred / Num.of_nat n)%Qc else 0%Qc.

(** The weekly rows of one task. *)
Definition weekly_rows_of (selected_weekdays : list Z) (row : Baseline.row)
  : list Weekly.row :=
  let weeks := group_weeks (task_working_days selected_weekdays row) in
  let num_weeks := List.length weeks in
  let weekly_percent := auto_percent num_weeks in
  map (fun kv =>
         {| Weekly.Task := Baseline.task_code row;
            Weekly.Week_Start := bucket_min (snd kv);
            Weekly.Week_End := bucket_max (snd kv);
            Weekly.Working_Days := List.length (bucket_days (snd kv));
            Weekly.Progress := weekly_percent |})
      weeks.

Definition weekly_rows (selected_weekdays : list Z)
    (baseline_df : list Baseline.row) : list Weekly.row :=
  flat_map (weekly_rows_of selected_weekdays) baseline_df.

(** The daily rows of one task; [d in working_days] is membership. *)
Definition daily_rows_of (selected_weekdays : list Z) (row : Baseline.row)
  : list Daily.row :=
  let dates := task_dates row in
  let working_days := working_days_of selected_weekdays dates in
  let daily_percent := auto_percent (List.length working_days) in
  map (fun d =>
         {| Daily.Task := Baseline.task_code row;
            Daily.Date := d;
            Daily.Progress :=
              if existsb (Z.eqb d) working_days then daily_percent
              else 0%Qc |})
      dates.

Definition daily_rows (selected_weekdays : list Z)
    (baseline_df : list Baseline.row) : list Daily.row :=
  flat_map (daily_rows_of selected_weekdays) baseline_df.

(** The widgets of Section 2: what each [st.data_editor] returns for the
    table it is given, the radio and the "Generate Final Report" button. *)
Record UI := {
  edit_task_progress : list TaskProgress.row -> list TaskProgress.row;
  edit_weekly : list Weekly.row -> list Weekly.row;
  edit_daily : list Daily.row -> list Daily.row;
  radio_report_type : ReportType;
  button_generate_final : bool
}.

Definition set_task_progress (p : Qc) (r : TaskProgress.row)
  : TaskProgress.row :=
  {| TaskProgress.task_code := TaskProgress.task_code r;
     TaskProgress.task_name := TaskProgress.task_name r;
     TaskProgress.man_days := TaskProgress.man_days r;
     TaskProgress.duration_days := TaskProgress.duration_days r;
     TaskProgress.boq := TaskProgress.boq r;
     TaskProgress.Planned_Manpower := TaskProgress.Planned_Manpower r;
     TaskProgress.Progress := p;
     TaskProgress.Adjusted_Man_Days := TaskProgress.Adjusted_Man_Days r;
     TaskProgress.Adjusted_Manpower := TaskProgress.Adjusted_Manpower r;
     TaskProgress.Balance_BOQ := TaskProgress.Balance_BOQ r;
     TaskProgress.Effective_Progress := TaskProgress.Effective_Progress r |}.

Definition set_weekly_progress (p : Qc) (r : Weekly.row) : Weekly.row :=
  {| Weekly.Task := Weekly.Task r;
     Weekly.Week_Start := Weekly.Week_Start r;
     Weekly.Week_End := Weekly.Week_End r;
     Weekly.Working_Days := Weekly.Working_Days r;
     Weekly.Progress := p |}.

Definition set_daily_progress (p : Qc) (r : Daily.row) : Daily.row :=
  {| Daily.Task := Daily.Task r; Daily.Date := Daily.Date r;
     Daily.Progress := p |}.

(** The column configuration of an editor: every column but "Progress %" is
    disabled, and "Progress %" stays within [min_value, max_value]. *)
Definition edited {R : Type} (set : Qc -> R -> R) (min_value max_value : Qc)
    (shown returned : list R) : Prop :=
  Forall2 (fun b a => exists p : Qc,
             (min_value <= p)%Qc /\ (p <= max_value)%Qc /\ a = set p b)
          shown returned.

Definition task_progress_edited :=
  edited set_task_progress 1%Qc (Num.of_Z 300).
Definition weekly_edited := edited set_weekly_progress 0%Qc (Num.of_Z 300).
Definition daily_edited := edited set_daily_progress 0%Qc (Num.of_Z 300).

Definition store_task_progress (df : list TaskProgress.row) (ss : Session)
  : Session :=
  {| ss_baseline_df := ss_baseline_df ss;
     ss_working_days := ss_working_days ss;
     ss_task_progress_df := Some df;
     ss_weekly_df := ss_weekly_df ss;
     ss_daily_df := ss_daily_df ss;
     ss_generate_final := ss_generate_final ss;
     ss_report_type := ss_report_type ss |}.

Definition store_weekly (df : list Weekly.row) (ss : Session) : Session :=
  {| ss_baseline_df := ss_baseline_df ss;
     ss_working_days := ss_working_days ss;
     ss_task_progress_df := ss_task_progress_df ss;
     ss_weekly_df := Some df;
     ss_daily_df := ss_daily_df ss;
     ss_generate_final := ss_generate_final ss;
     ss_report_type := ss_report_type ss |}.

Definition store_daily (df : list Daily.row) (ss : Session) : Session :=
  {| ss_baseline_df := ss_baseline_df ss;
     ss_working_days := ss_working_days ss;
     ss_task_progress_df := ss_task_progress_df ss;
     ss_weekly_df := ss_weekly_df ss;
     ss_daily_df := Some df;
     ss_generate_final := ss_generate_final ss;
     ss_report_type := ss_report_type ss |}.

Definition store_final_request (report_type : ReportType) (ss : Session)
  : Session :=
  {| ss_baseline_df := ss_baseline_df ss;
     ss_working_days := ss_working_days ss;
     ss_task_progress_df := ss_task_progress_df ss;
     ss_weekly_df := ss_weekly_df ss;
     ss_daily_df := ss_daily_df ss;
     ss_generate_final := true;
     ss_report_type := Some report_type |}.

(** [if "baseline_df" in st.session_state: ...].  A DataFrame built from an
    empty list of rows has no columns, so selecting columns of it raises. *)
Definition progress_adjustment (ui : UI) : M unit :=
  s <- get ;;
  match ss_baseline_df (session_state s) with
  | None => ret tt
  | Some baseline_df =>
      selected_weekdays <- require (ss_working_days (session_state s)) ;;
      match baseline_df with
      | [] => stop KeyError
      | _ =>
          let task_progress_df :=
            map recalculate
                (edit_task_progress ui
                   (map task_progress_default baseline_df)) in
          modify_session (store_task_progress task_progress_df) ;;
          match weekly_rows selected_weekdays baseline_df with
          | [] => stop KeyError
          | rows =>
              modify_session (store_weekly (edit_weekly ui rows)) ;;
              modify_session
                (store_daily
                   (edit_daily ui (daily_rows selected_weekdays baseline_df))) ;;
              if button_generate_final ui
              then modify_session (store_final_request (radio_report_type ui))
              else ret tt
          end
      end
  end.

(** ** Section 3 of the script: the final adjusted report *)

(** [baseline_df.merge(task_progress_df[["task_code", "Adjusted Man-Days"]],
    on="task_code", how="left")]: a baseline row is paired with every
    progress row of its task code.  [task_progress_df] is built from
    [baseline_df] with the task codes disabled in the editor, so every
    baseline row has a partner (see [merge_has_partner]) and the NaN row of
    a left join without partner does not occur. *)
Definition merge_adjusted_man_days (baseline_df : list Baseline.row)
    (task_progress_df : list TaskProgress.row) : list (Baseline.row * Qc) :=
  flat_map
    (fun b =>
       map (fun p => (b, TaskProgress.Adjusted_Man_Days p))
           (filter (fun p => String.eqb (TaskProgress.task_code p)
                                        (Baseline.task_code b))
                   task_progress_df))
    baseline_df.

(** The uniform curve of one merged row: [base_mp] on every date.  A
    validated task has at least one date, so [duration] is not zero. *)
Definition expand_row (m : Baseline.row * Qc) : list Curve.row :=
  let row := fst m in
  let dates := task_dates row in
  let duration := List.length dates in
  let base_mp := (snd m / Num.of_nat duration)%Qc in
  map (fun d => {| Curve.Task := Baseline.task_code row;
                   Curve.Trade := Baseline.trade_name row;
                   Curve.Date := d;
                   Curve.Manpower := base_mp |})
      dates.

Definition adjusted_rows (merged : list (Baseline.row * Qc))
  : list Curve.row :=
  flat_map expand_row merged.

(** [for _, x in df.iterrows(): ...] over a loop body that updates a table
    and may raise. *)
Fixpoint iterrows {R S : Type} (body : S -> R -> outcome S) (rows : list R)
    (s : S) : outcome S :=
  match rows with
  | [] => Ok s
  | x :: rest =>
      match body s x with
      | Ok s' => iterrows body rest s'
      | Stop e => Stop e
      end
  end.

(** [baseline_df[baseline_df["task_code"] == task].iloc[0]]. *)
Definition task_row_of (baseline_df : list Baseline.row) (task : string)
  : outcome Baseline.row :=
  match find (fun b => String.eqb (Baseline.task_code b) task) baseline_df with
  | Some b => Ok b
  | None => Stop IndexError
  end.

(** [100 / len(weeks) if len(weeks) > 0 else 0], and the same for days. *)
Definition planned_percent (n : nat) : Qc :=
  if (0 <? n)%nat then (Num.hundred / Num.of_nat n)%Qc else 0%Qc.

Definition planned_weekly (selected_weekdays : list Z)
    (task_row : Baseline.row) : Qc :=
  planned_percent
    (List.length (group_weeks (task_working_days selected_weekdays task_row))).

Definition planned_daily (selected_weekdays : list Z)
    (task_row : Baseline.row) : Qc :=
  planned_percent
    (List.length (task_working_days selected_weekdays task_row)).

Definition weekly_mask (w : Weekly.row) (r : Curve.row) : bool :=
  String.eqb (Curve.Task r) (Weekly.Task w)
  && (Weekly.Week_Start w <=? Curve.Date r)
  && (Curve.Date r <=? Weekly.Week_End w).

Definition daily_mask (d : Daily.row) (r : Curve.row) : bool :=
  String.eqb (Curve.Task r) (Daily.Task d)
  && (Curve.Date r =? Daily.Date d).

(** Phase A, one weekly record. *)
Definition weekly_refinement_step (selected_weekdays : list Z)
    (baseline_df : list Baseline.row) (adjusted_df : list Curve.row)
    (w : Weekly.row) : outcome (list Curve.row) :=
  match task_row_of baseline_df (Weekly.Task w) with
  | Stop e => Stop e
  | Ok task_row =>
      let planned_weekly := planned_weekly selected_weekdays task_row in
      let actual_weekly := Weekly.Progress w in
      if Num.ltb 0 planned_weekly then
        let factor := (actual_weekly / planned_weekly)%Qc in
        Ok (Curve.scale_where (weekly_mask w) factor adjusted_df)
      else Ok adjusted_df
  end.

(** Phase A, one daily record. *)
Definition daily_refinement_step (selected_weekdays : list Z)
    (baseline_df : list Baseline.row) (adjusted_df : list Curve.row)
    (d : Daily.row) : outcome (list Curve.row) :=
  match task_row_of baseline_df (Daily.Task d) with
  | Stop e => Stop e
  | Ok task_row =>
      let planned_daily := planned_daily selected_weekdays task_row in
      let actual_daily := Daily.Progress d in
      if Num.ltb 0 planned_daily then
        let factor := (actual_daily / planned_daily)%Qc in
        Ok (Curve.scale_where (daily_mask d) factor adjusted_df)
      else Ok adjusted_df
  end.

(** Phase A: only the refinement of the selected report type is applied. *)
Definition refinement (report_type : ReportType) (selected_weekdays : list Z)
    (baseline_df : list Baseline.row) (weekly_df : list Weekly.row)
    (daily_df : list Daily.row) (adjusted_df : list Curve.row)
  : outcome (list Curve.row) :=
  match report_type with
  | Weekly_Report =>
      iterrows (weekly_refinement_step selected_weekdays baseline_df)
               weekly_df adjusted_df
  | Daily_Report =>
      iterrows (daily_refinement_step selected_weekdays baseline_df)
               daily_df adjusted_df
  end.

(** [Series.unique()]: the distinct values in order of first appearance. *)
Fixpoint unique (l : list string) : list string :=
  match l with
  | [] => []
  | x :: rest => x :: filter (fun y => negb (String.eqb y x)) (unique rest)
  end.

(** [task_progress_df.loc[task_progress_df["task_code"] == task,
    "Adjusted Man-Days"].iloc[0]]. *)
Definition required_total_of (task_progress_df : list TaskProgress.row)
    (task : string) : outcome Qc :=
  match find (fun p => String.eqb (TaskProgress.task_code p) task)
             task_progress_df with
  | Some p => Ok (TaskProgress.Adjusted_Man_Days p)
  | None => Stop IndexError
  end.

(** Phase B, one task. *)
Definition scaling_step (task_progress_df : list TaskProgress.row)
    (adjusted_df : list Curve.row) (task : string)
  : outcome (list Curve.row) :=
  let task_df := Curve.of_task task adjusted_df in
  let actual_total := Curve.total task_df in
  match required_total_of task_progress_df task with
  | Stop e => Stop e
  | Ok required_total =>
      let scale :=
        if Num.ltb 0 actual_total then (required_total / actual_total)%Qc
        else 1%Qc in
      Ok (Curve.scale_where (fun r => String.eqb (Curve.Task r) task)
                            scale adjusted_df)
  end.

(** The value of [scale] in the iteration for [task]. *)
Definition task_scale (task_progress_df : list TaskProgress.row)
    (adjusted_df : list Curve.row) (task : string) : Qc :=
  match required_total_of task_progress_df task with
  | Ok required_total =>
      let actual_total := Curve.total (Curve.of_task task adjusted_df) in
      if Num.ltb 0 actual_total then (required_total / actual_total)%Qc
      else 1%Qc
  | Stop _ => 1%Qc
  end.

(** Phase B: per-task proportional scaling. *)
Definition per_task_scaling (task_progress_df : list TaskProgress.row)
    (adjusted_df : list Curve.row) : outcome (list Curve.row) :=
  iterrows (scaling_step task_progress_df)
           (unique (map Curve.Task adjusted_df)) adjusted_df.

(** The adjusted curve before the display rounding: the uniform curve,
    then Phase A, then Phase B. *)
Definition adjusted_curve (report_type : ReportType)
    (selected_weekdays : list Z) (baseline_df : list Baseline.row)
    (task_progress_df : list TaskProgress.row) (weekly_df : list Weekly.row)
    (daily_df : list Daily.row) : outcome (list Curve.row) :=
  match refinement report_type selected_weekdays baseline_df weekly_df
          daily_df
          (adjusted_rows
             (merge_adjusted_man_days baseline_df task_progress_df)) with
  | Stop e => Stop e
  | Ok reshaped => per_task_scaling task_progress_df reshaped
  end.

(** [adjusted_df["Manpower"].round(2)]. *)
Definition round_curve (df : list Curve.row) : list Curve.row :=
  map (fun r => {| Curve.Task := Curve.Task r; Curve.Trade := Curve.Trade r;
                   Curve.Date := Curve.Date r;
                   Curve.Manpower := Num.round2 (Curve.Manpower r) |}) df.

(** [df.groupby("Task")["Progress %"].sum().reset_index()]: one row per
    task, in increasing order of the key. *)
Fixpoint group_add (k : string) (v : Qc) (groups : list (string * Qc))
  : list (string * Qc) :=
  match groups with
  | [] => [(k, v)]
  | (k', s) :: rest =>
      match String.compare k k' with
      | Eq => (k', (s + v)%Qc) :: rest
      | Lt => (k, v) :: groups
      | Gt => (k', s) :: group_add k v rest
      end
  end.

Definition groupby_sum (rows : list (string * Qc)) : list (string * Qc) :=
  fold_left (fun groups kv => group_add (fst kv) (snd kv) groups) rows [].

Definition daily_effective_progress (daily_df : list Daily.row)
  : list (string * Qc) :=
  groupby_sum (map (fun d => (Daily.Task d, Daily.Progress d)) daily_df).

Definition weekly_effective_progress (weekly_df : list Weekly.row)
  : list (string * Qc) :=
  groupby_sum (map (fun w => (Weekly.Task w, Weekly.Progress w)) weekly_df).

(** "Error if daily sum > 100%". *)
Fixpoint check_daily_overflow (effective_progress : list (string * Qc))
  : M unit :=
  match effective_progress with
  | [] => ret tt
  | (task_code, total) :: rest =>
      if Num.ltb Num.hundred total then stop (ProgressOverflow task_code total)
      else check_daily_overflow rest
  end.

Definition lookup_effective (effective_progress : list (string * Qc))
    (task_code : string) : option Qc :=
  match find (fun kv => String.eqb (fst kv) task_code) effective_progress with
  | Some kv => Some (snd kv)
  | None => None
  end.

(** [task_progress_df.merge(effective_progress, on="task_code", how="left")]
    followed by the "Balance BOQ" column; a task without a group gets NaN
    in both. *)
Definition merge_effective (effective_progress : list (string * Qc))
    (r : TaskProgress.row) : TaskProgress.row :=
  let eff := lookup_effective effective_progress (TaskProgress.task_code r) in
  {| TaskProgress.task_code := TaskProgress.task_code r;
     TaskProgress.task_name := TaskProgress.task_name r;
     TaskProgress.man_days := TaskProgress.man_days r;
     TaskProgress.duration_days := TaskProgress.duration_days r;
     TaskProgress.boq := TaskProgress.boq r;
     TaskProgress.Planned_Manpower := TaskProgress.Planned_Manpower r;
     TaskProgress.Progress := TaskProgress.Progress r;
     TaskProgress.Adjusted_Man_Days := TaskProgress.Adjusted_Man_Days r;
     TaskProgress.Adjusted_Manpower := TaskProgress.Adjusted_Manpower r;
     TaskProgress.Balance_BOQ :=
       match eff with
       | Some e => Some (TaskProgress.boq r * (1 - e / Num.hundred))%Qc
       | None => None
       end;
     TaskProgress.Effective_Progress := eff |}.

(** "EFFECTIVE PROGRESS & BALANCE BOQ". *)
Definition effective_progress_and_balance (report_type : ReportType)
    (task_progress_df : list TaskProgress.row) (weekly_df : list Weekly.row)
    (daily_df : list Daily.row) : M unit :=
  match report_type with
  | Daily_Report =>
      let effective_progress := daily_effective_progress daily_df in
      check_daily_overflow effective_progress ;;
      set_final_task_progress_df
        (map (merge_effective effective_progress) task_progress_df)
  | Weekly_Report =>
      let weekly_eff := weekly_effective_progress weekly_df in
      set_final_task_progress_df
        (map (merge_effective weekly_eff) task_progress_df)
  end.

(** [if st.session_state.get("generate_final", False): ...], up to the
    "Balance BOQ" of the selected report type (line 521).  The final
    outputs that follow are not run here: the pivot of the daily line chart
    (line 528) is [final_daily_chart], which raises when a trade has two
    tasks at work on the same day, and the final trade summary is
    [trade_final]. *)
Definition final_report : M unit :=
  s <- get ;;
  let ss := session_state s in
  if ss_generate_final ss then
    baseline_df <- require (ss_baseline_df ss) ;;
    task_progress_df <- require (ss_task_progress_df ss) ;;
    weekly_df <- require (ss_weekly_df ss) ;;
    daily_df <- require (ss_daily_df ss) ;;
    report_type <- require (ss_report_type ss) ;;
    selected_weekdays <- require (ss_working_days ss) ;;
    set_adjusted_df
      (adjusted_rows (merge_adjusted_man_days baseline_df task_progress_df)) ;;
    s1 <- get ;;
    df1 <- require (adjusted_df s1) ;;
    df2 <- lift (refinement report_type selected_weekdays baseline_df
                   weekly_df daily_df df1) ;;
    set_adjusted_df df2 ;;
    df3 <- lift (per_task_scaling task_progress_df df2) ;;
    set_adjusted_df df3 ;;
    set_adjusted_df (round_curve df3) ;;
    effective_progress_and_balance report_type task_progress_df weekly_df
      daily_df
  else ret tt.

(** One run of the script from the "Generate Initial Report" button on,
    in which some task is selected: with none selected the script stops at
    line 54, before it reads or writes anything of the state.  The three
    sections run one after the other, each as far as its definition
    goes. *)
Definition script_run (edited_df : list Input.row)
    (selected_weekdays : list Z) (button_initial : bool) (ui : UI)
  : M unit :=
  (if button_initial
   then generate_initial_report edited_df selected_weekdays
   else ret tt) ;;
  progress_adjustment ui ;;
  final_report.

(** ** Vocabulary of the statements and proofs *)

Definition mem (x : string) (l : list string) : bool :=
  existsb (String.eqb x) l.

(** The task has a row in [task_progress_df], so [.iloc[0]] succeeds. *)
Definition has_target (task_progress_df : list TaskProgress.row)
    (task : string) : Prop :=
  exists q, required_total_of task_progress_df task = Ok q.

(** The two loop bodies of Phase A have one form: a planned share that is
    looked up (and may fail), a mask and an actual share. *)
Module Refine.
Section Generic.
Context {R : Type}.
Variable plan : R -> outcome Qc.
Variable mask : R -> Curve.row -> bool.
Variable actual : R -> Qc.

Definition step (df : list Curve.row) (x : R) : outcome (list Curve.row) :=
  match plan x with
  | Stop e => Stop e
  | Ok planned =>
      if Num.ltb 0 planned
      then Ok (Curve.scale_where (mask x) (actual x / planned)%Qc df)
      else Ok df
  end.

(** The factor record [x] applies to row [r]; 1 when it leaves it alone. *)
Definition factor (x : R) (r : Curve.row) : Qc :=
  match plan x with
  | Ok planned =>
      if Num.ltb 0 planned && mask x r then (actual x / planned)%Qc
      else 1%Qc
  | Stop _ => 1%Qc
  end.

(** The lookup of the planned share of [x] succeeds. *)
Definition planned_ok (x : R) : Prop := exists p, plan x = Ok p.

(** The product of the factors of all records on row [r]. *)
Definition multiplier (rows : list R) (r : Curve.row) : Qc :=
  fold_right (fun x acc => (factor x r * acc)%Qc) 1%Qc rows.

(** Record [x] rescales row [r]: its planned share is positive and its
    mask selects the row. *)
Definition touches (x : R) (r : Curve.row) : bool :=
  match plan x with
  | Ok planned => Num.ltb 0 planned && mask x r
  | Stop _ => false
  end.

(** The number of records that rescale row [r]. *)
Definition coverage (rows : list R) (r : Curve.row) : nat :=
  List.length (filter (fun x => touches x r) rows).
End Generic.
End Refine.

Definition weekly_plan (selected_weekdays : list Z)
    (baseline_df : list Baseline.row) (w : Weekly.row) : outcome Qc :=
  match task_row_of baseline_df (Weekly.Task w) with
  | Ok task_row => Ok (planned_weekly selected_weekdays task_row)
  | Stop e => Stop e
  end.

Definition daily_plan (selected_weekdays : list Z)
    (baseline_df : list Baseline.row) (d : Daily.row) : outcome Qc :=
  match task_row_of baseline_df (Daily.Task d) with
  | Ok task_row => Ok (planned_daily selected_weekdays task_row)
  | Stop e => Stop e
  end.

(** The Phase A factor of a weekly record on a curve row. *)
Definition weekly_factor (selected_weekdays : list Z)
    (baseline_df : list Baseline.row) : Weekly.row -> Curve.row -> Qc :=
  Refine.factor (weekly_plan selected_weekdays baseline_df) weekly_mask
                Weekly.Progress.

(** The Phase A factor of a daily record on a curve row. *)
Definition daily_factor (selected_weekdays : list Z)
    (baseline_df : list Baseline.row) : Daily.row -> Curve.row -> Qc :=
  Refine.factor (daily_plan selected_weekdays baseline_df) daily_mask
                Daily.Progress.

Definition weekly_multiplier (selected_weekdays : list Z)
    (baseline_df : list Baseline.row) : list Weekly.row -> Curve.row -> Qc :=
  Refine.multiplier (weekly_plan selected_weekdays baseline_df) weekly_mask
                    Weekly.Progress.

Definition daily_multiplier (selected_weekdays : list Z)
    (baseline_df : list Baseline.row) : list Daily.row -> Curve.row -> Qc :=
  Refine.multiplier (daily_plan selected_weekdays baseline_df) daily_mask
                    Daily.Progress.

(** What Section 1 guarantees of a row of [baseline_df]. *)
Definition baseline_valid (b : Baseline.row) : Prop :=
  (0 < Baseline.boq b)%Qc /\
  Baseline.rate b <> 0%Qc /\
  Baseline.start_date b <= Baseline.end_date b /\
  Baseline.man_days b = (Baseline.boq b / Baseline.rate b)%Qc /\
  Baseline.duration_days b
    = Baseline.end_date b - Baseline.start_date b + 1 /\
  Baseline.manpower b
    = (Baseline.man_days b / Num.of_Z (Baseline.duration_days b))%Qc.

(** The tables of a session as Sections 1 and 2 leave them: a validated
    baseline with unique task codes, and the three progress tables as their
    editors return them. *)
Record session_tables (selected_weekdays : list Z)
    (baseline_df : list Baseline.row)
    (task_progress_df : list TaskProgress.row)
    (weekly_df : list Weekly.row) (daily_df : list Daily.row) : Prop := {
  st_valid : Forall baseline_valid baseline_df;
  st_unique : NoDup (map Baseline.task_code baseline_df);
  st_task : exists returned,
      task_progress_edited (map task_progress_default baseline_df) returned
      /\ task_progress_df = map recalculate returned;
  st_weekly : weekly_edited (weekly_rows selected_weekdays baseline_df)
                            weekly_df;
  st_daily : daily_edited (daily_rows selected_weekdays baseline_df) daily_df
}.

(** The "Adjusted Man-Days" of a task code, 0 when the code is unknown. *)
Definition target_of (task_progress_df : list TaskProgress.row)
    (task : string) : Qc :=
  match required_total_of task_progress_df task with
  | Ok q => q
  | Stop _ => 0%Qc
  end.

(** The curve of a task before Phase A. *)
Definition uniform_curve (task_progress_df : list TaskProgress.row)
    (b : Baseline.row) : list Curve.row :=
  expand_row (b, target_of task_progress_df (Baseline.task_code b)).

(** How a row of [task_progress_df] relates to its baseline row. *)
Definition progress_of (b : Baseline.row) (p : TaskProgress.row) : Prop :=
  TaskProgress.task_code p = Baseline.task_code b /\
  TaskProgress.man_days p = Baseline.man_days b /\
  TaskProgress.duration_days p = Baseline.duration_days b /\
  TaskProgress.boq p = Baseline.boq b /\
  (1 <= TaskProgress.Progress p)%Qc /\
  (TaskProgress.Progress p <= Num.of_Z 300)%Qc /\
  TaskProgress.Adjusted_Man_Days p
  = (Baseline.man_days b / (TaskProgress.Progress p / Num.hundred))%Qc.

(** The Phase A multiplier of the selected report type. *)
Definition refinement_multiplier (report_type : ReportType)
    (selected_weekdays : list Z) (baseline_df : list Baseline.row)
    (weekly_df : list Weekly.row) (daily_df : list Daily.row)
  : Curve.row -> Qc :=
  match report_type with
  | Weekly_Report => weekly_multiplier selected_weekdays baseline_df weekly_df
  | Daily_Report => daily_multiplier selected_weekdays baseline_df daily_df
  end.

(** The table Phase A leaves, for the tables of a session. *)
Definition reshaped_curve (report_type : ReportType)
    (selected_weekdays : list Z) (baseline_df : list Baseline.row)
    (task_progress_df : list TaskProgress.row) (weekly_df : list Weekly.row)
    (daily_df : list Daily.row) : list Curve.row :=
  Curve.rescale
    (refinement_multiplier report_type selected_weekdays baseline_df
       weekly_df daily_df)
    (flat_map (uniform_curve task_progress_df) baseline_df).

(** ** A worked scenario: task BLK, 2024-01-01 (a Monday) to 2024-01-10,
    Monday to Saturday working *)

Module Scenario.

Definition jan (day : Z) : date := 738885 + day.

Definition mon_sat : list Z := [0; 1; 2; 3; 4; 5].

Definition blk : Input.row :=
  {| Input.task_code := "BLK"; Input.task_name := "Blockwork";
     Input.rate_per_manday := Num.of_Z 8; Input.uom := "m2";
     Input.trade_name := "Mason"; Input.BOQ := Num.of_Z 12000;
     Input.Start_Date := jan 1; Input.End_Date := jan 10 |}.

Definition blk_baseline : Baseline.row :=
  {| Baseline.task_code := "BLK"; Baseline.task_name := "Blockwork";
     Baseline.trade_name := "Mason"; Baseline.boq := Num.of_Z 12000;
     Baseline.rate := Num.of_Z 8; Baseline.man_days := Num.of_Z 1500;
     Baseline.duration_days := 10; Baseline.manpower := Num.of_Z 150;
     Baseline.start_date := jan 1; Baseline.end_date := jan 10 |}.

Definition baseline_df : list Baseline.row := [blk_baseline].

(** The task table as shown, "Progress %" left at 100. *)
Definition task_progress_df : list TaskProgress.row :=
  map recalculate (map task_progress_default baseline_df).

Definition weekly_df : list Weekly.row := weekly_rows mon_sat baseline_df.

Definition daily_df : list Daily.row := daily_rows mon_sat baseline_df.

(** The user doubles the share of Tuesday, January 2nd. *)
Definition daily_df_jan2 : list Daily.row :=
  map (fun r => if Daily.Date r =? jan 2
                then set_daily_progress (Num.of_Z 22) r else r)
      daily_df.

(** The user moves the share of Wednesday, January 3rd to Tuesday,
    January 2nd; the shares sum to 99.99 as before. *)
Definition daily_df_shift : list Daily.row :=
  map (fun r => if Daily.Date r =? jan 2
                then set_daily_progress (Q2Qc (2222 # 100)) r
                else if Daily.Date r =? jan 3
                     then set_daily_progress 0%Qc r else r)
      daily_df.

(** The user moves the share of Monday, January 1st to Sunday,
    January 7th, a non-working date. *)
Definition daily_df_sunday : list Daily.row :=
  map (fun r => if Daily.Date r =? jan 7
                then set_daily_progress (Q2Qc (1111 # 100)) r
                else if Daily.Date r =? jan 1
                     then set_daily_progress 0%Qc r else r)
      daily_df.

(** The user sets every daily share to 0. *)
Definition daily_df_zero : list Daily.row :=
  map (set_daily_progress 0%Qc) daily_df.

(** The user enters 70% for each of the two weeks. *)
Definition weekly_df_140 : list Weekly.row :=
  map (set_weekly_progress (Num.of_Z 70)) weekly_df.

(** A second task whose rate was edited to a negative number. *)
Definition shu_negative_rate : Input.row :=
  {| Input.task_code := "SHU"; Input.task_name := "Shuttering";
     Input.rate_per_manday := Num.of_Z (-6); Input.uom := "m2";
     Input.trade_name := "Carpenter"; Input.BOQ := Num.of_Z 3000;
     Input.Start_Date := jan 1; Input.End_Date := jan 10 |}.

(** A task whose BOQ was left at its initial 0. *)
Definition shu_zero_boq : Input.row :=
  {| Input.task_code := "SHU"; Input.task_name := "Shuttering";
     Input.rate_per_manday := Num.of_Z 6; Input.uom := "m2";
     Input.trade_name := "Carpenter"; Input.BOQ := 0%Qc;
     Input.Start_Date := jan 1; Input.End_Date := jan 10 |}.

End Scenario.

(** The checks of the "Generate Initial Report" loop on one input row. *)
Definition input_valid (row : Input.row) : Prop :=
  (0 < Input.BOQ row)%Qc /\ Input.Start_Date row <= Input.End_Date row.

(** A row that passes them and has a rate Python can divide by. *)
Definition input_ok (row : Input.row) : Prop :=
  input_valid row /\ Input.rate_per_manday row <> 0%Qc.

(** The error the loop raises on a row that fails them. *)
Definition validation_error (row : Input.row) : error :=
  if Num.leb (Input.BOQ row) 0 then InvalidInput (Input.task_code row)
  else InvalidDateRange (Input.task_code row).

(** The baseline row appended for an input row that passes. *)
Definition baseline_of (row : Input.row) : Baseline.row :=
  let man_days := (Input.BOQ row / Input.rate_per_manday row)%Qc in
  let duration := Input.End_Date row - Input.Start_Date row + 1 in
  {| Baseline.task_code := Input.task_code row;
     Baseline.task_name := Input.task_name row;
     Baseline.trade_name := Input.trade_name row;
     Baseline.boq := Input.BOQ row;
     Baseline.rate := Input.rate_per_manday row;
     Baseline.man_days := man_days;
     Baseline.duration_days := duration;
     Baseline.manpower := (man_days / Num.of_Z duration)%Qc;
     Baseline.start_date := Input.Start_Date row;
     Baseline.end_date := Input.End_Date row |}.

Definition with_baseline_results (l : list Baseline.row) (s : Script)
  : Script :=
  {| session_state := session_state s; baseline_results := l;
     timeline_df := timeline_df s; adjusted_df := adjusted_df s;
     final_task_progress_df := final_task_progress_df s |}.

Definition with_adjusted_df (l : list Curve.row) (s : Script) : Script :=
  {| session_state := session_state s;
     baseline_results := baseline_results s;
     timeline_df := timeline_df s; adjusted_df := Some l;
     final_task_progress_df := final_task_progress_df s |}.

Definition with_final_task_progress_df (l : list TaskProgress.row)
    (s : Script) : Script :=
  {| session_state := session_state s;
     baseline_results := baseline_results s;
     timeline_df := timeline_df s; adjusted_df := adjusted_df s;
     final_task_progress_df := Some l |}.

(** [x] is within [tol] of [y]. *)
Definition within (tol x y : Qc) : Prop :=
  (x - y <= tol)%Qc /\ (y - x <= tol)%Qc.

Definition withinb (tol x y : Qc) : bool :=
  Num.leb (x - y)%Qc tol && Num.leb (y - x)%Qc tol.

(** Half a hundredth, the largest move of [round2], and a tenth. *)
Definition half_cent : Qc := Q2Qc (1 # 200).
Definition tenth : Qc := Q2Qc (1 # 10).

Module Scenario31.

Definition all_days : list Z := [0; 1; 2; 3; 4; 5; 6].

(** A task over the 31 days of January 2024, every weekday working. *)
Definition january : Baseline.row :=
  {| Baseline.task_code := "BLK"; Baseline.task_name := "Blockwork";
     Baseline.trade_name := "Mason"; Baseline.boq := Num.of_Z 12400;
     Baseline.rate := Num.of_Z 8; Baseline.man_days := Num.of_Z 1550;
     Baseline.duration_days := 31; Baseline.manpower := Num.of_Z 50;
     Baseline.start_date := Scenario.jan 1;
     Baseline.end_date := Scenario.jan 31 |}.

End Scenario31.

(** The bucketing as the specification words it, keyed by the pair
    (ISO year, ISO week); for comparison with [group_weeks]. *)
Module BySpec.

Definition year_week_dict := list ((Z * Z) * (date * list date)).

Fixpoint dict_append (key : Z * Z) (d : date) (weeks : year_week_dict)
  : year_week_dict :=
  match weeks with
  | [] => [(key, (d, []))]
  | (k, (d0, ds)) :: rest =>
      if (fst key =? fst k) && (snd key =? snd k)
      then (k, (d0, ds ++ [d])) :: rest
      else (k, (d0, ds)) :: dict_append key d rest
  end.

Definition group_year_weeks (working_days : list date) : year_week_dict :=
  fold_left (fun weeks d => dict_append (iso_year d, iso_week d) d weeks)
            working_days [].

End BySpec.

Module ScenarioYear.

(** A task from Monday 2024-01-01 (ISO 2024-W01) to Monday 2024-12-30
    (ISO 2025-W01). *)
Definition first_day : date := 738886.
Definition last_day : date := 739250.

Definition long_task : Baseline.row :=
  {| Baseline.task_code := "BLK"; Baseline.task_name := "Blockwork";
     Baseline.trade_name := "Mason"; Baseline.boq := Num.of_Z 12000;
     Baseline.rate := Num.of_Z 8; Baseline.man_days := Num.of_Z 1500;
     Baseline.duration_days := 365;
     Baseline.manpower := (Num.of_Z 1500 / Num.of_Z 365)%Qc;
     Baseline.start_date := first_day; Baseline.end_date := last_day |}.

End ScenarioYear.

(** The sum of the values recorded under a key, [Series.sum()] of a group. *)
Definition task_sum (rows : list (string * Qc)) (task : string) : Qc :=
  Num.sum (map snd (filter (fun kv => String.eqb (fst kv) task) rows)).

Definition daily_total (daily_df : list Daily.row) (task : string) : Qc :=
  task_sum (map (fun d => (Daily.Task d, Daily.Progress d)) daily_df) task.

Definition weekly_total (weekly_df : list Weekly.row) (task : string) : Qc :=
  task_sum (map (fun w => (Weekly.Task w, Weekly.Progress w)) weekly_df) task.

(** Groups in strictly increasing order of their keys. *)
Fixpoint sorted_groups (groups : list (string * Qc)) : Prop :=
  match groups with
  | [] => True
  | (k, _) :: rest =>
      Forall (fun kv => String.compare k (fst kv) = Lt) rest
      /\ sorted_groups rest
  end.

(** What one more row does to the sum recorded for [task]. *)
Definition add_to_group (task : string) (acc : option Qc) (kv : string * Qc)
  : option Qc :=
  if String.eqb task (fst kv)
  then Some (match acc with Some s => s + snd kv | None => snd kv end)%Qc
  else acc.

(** The session from which the final report is generated. *)
Definition final_session (report_type : ReportType)
    (selected_weekdays : list Z) (baseline_df : list Baseline.row)
    (task_progress_df : list TaskProgress.row) (weekly_df : list Weekly.row)
    (daily_df : list Daily.row) : Session :=
  {| ss_baseline_df := Some baseline_df;
     ss_working_days := Some selected_weekdays;
     ss_task_progress_df := Some task_progress_df;
     ss_weekly_df := Some weekly_df;
     ss_daily_df := Some daily_df;
     ss_generate_final := true;
     ss_report_type := Some report_type |}.

(** The adjusted curve before rounding, for the tables of a session. *)
Definition final_curve (report_type : ReportType)
    (selected_weekdays : list Z) (baseline_df : list Baseline.row)
    (task_progress_df : list TaskProgress.row) (weekly_df : list Weekly.row)
    (daily_df : list Daily.row) : list Curve.row :=
  let reshaped :=
    reshaped_curve report_type selected_weekdays baseline_df
      task_progress_df weekly_df daily_df in
  Curve.rescale
    (fun r => task_scale task_progress_df reshaped (Curve.Task r)) reshaped.

(** A group the daily check lets pass. *)
Definition no_overflow (kv : string * Qc) : Prop :=
  (snd kv <= Num.hundred)%Qc.




(** The keys (task, date) of the daily table and of the curve. *)
Definition session_keys (baseline_df : list Baseline.row)
  : list (string * date) :=
  flat_map (fun b => map (pair (Baseline.task_code b)) (task_dates b))
           baseline_df.

Definition daily_key (x : Daily.row) : string * date :=
  (Daily.Task x, Daily.Date x).

(** [weeks.get(week_key, [])]: the dates recorded under a week key. *)
Definition week_days (week_key : Z) (weeks : weeks_dict) : list date :=
  match find (fun kv => fst kv =? week_key) weeks with
  | Some kv => bucket_days (snd kv)
  | None => []
  end.

(** [sum(len(days) for days in weeks.values())]. *)
Definition dates_held (weeks : weeks_dict) : nat :=
  list_sum (map (fun kv => List.length (bucket_days (snd kv))) weeks).

(** A part of the script whose every run, completed or stopped, takes the
    session from a state to one related to it by [R]. *)
Definition session_step {A : Type} (R : Session -> Session -> Prop)
    (m : M A) : Prop :=
  forall s o s', m s = (o, s') -> R (session_state s) (session_state s').

(** What a run with the widgets [ui] may do to the report request: it never
    withdraws it, and without a click it leaves it as it was. *)
Definition request_kept (ui : UI) (before after : Session) : Prop :=
  (ss_generate_final before = true -> ss_generate_final after = true) /\
  (button_generate_final ui = false ->
   ss_generate_final after = ss_generate_final before /\
   ss_report_type after = ss_report_type before).

(** ** A second scenario: BLK (Mason) from 2024-01-01 to 2024-01-10 and
    SHU (Carpenter) from 2024-01-03 to 2024-01-12, Monday to Saturday
    working *)
Module Scenario2.

Definition shu : Input.row :=
  {| Input.task_code := "SHU"; Input.task_name := "Shuttering";
     Input.rate_per_manday := Num.of_Z 6; Input.uom := "m2";
     Input.trade_name := "Carpenter"; Input.BOQ := Num.of_Z 3000;
     Input.Start_Date := Scenario.jan 3; Input.End_Date := Scenario.jan 12 |}.

Definition edited_df : list Input.row := [Scenario.blk; shu].

Definition shu_baseline : Baseline.row :=
  {| Baseline.task_code := "SHU"; Baseline.task_name := "Shuttering";
     Baseline.trade_name := "Carpenter"; Baseline.boq := Num.of_Z 3000;
     Baseline.rate := Num.of_Z 6; Baseline.man_days := Num.of_Z 500;
     Baseline.duration_days := 10; Baseline.manpower := Num.of_Z 50;
     Baseline.start_date := Scenario.jan 3;
     Baseline.end_date := Scenario.jan 12 |}.

Definition baseline_df : list Baseline.row :=
  [Scenario.blk_baseline; shu_baseline].

Definition task_progress_df : list TaskProgress.row :=
  map recalculate (map task_progress_default baseline_df).

Definition weekly_df : list Weekly.row :=
  weekly_rows Scenario.mon_sat baseline_df.

Definition daily_df : list Daily.row :=
  daily_rows Scenario.mon_sat baseline_df.

(** The user sets every daily share of both tasks to 25. *)
Definition daily_df_25 : list Daily.row :=
  map (set_daily_progress (Num.of_Z 25)) daily_df.

(** The user doubles the share of SHU on Thursday, January 4th. *)
Definition daily_df_shu : list Daily.row :=
  map (fun r => if String.eqb (Daily.Task r) "SHU"
                   && (Daily.Date r =? Scenario.jan 4)
                then set_daily_progress (Num.of_Z 22) r else r)
      daily_df.

End Scenario2.

(** ** The line charts *)

(** Sorted axis labels without repetition, as [pivot] and [groupby] produce
    them. *)
Section SortUnique.
Context {A : Type}.
Variable compare : A -> A -> comparison.

Fixpoint insert_sorted (x : A) (l : list A) : list A :=
  match l with
  | [] => [x]
  | y :: rest =>
      match compare x y with
      | Eq => l
      | Lt => x :: l
      | Gt => y :: insert_sorted x rest
      end
  end.

Definition sort_unique (l : list A) : list A :=
  fold_right insert_sorted [] l.

Fixpoint increasing (l : list A) : Prop :=
  match l with
  | [] => True
  | x :: rest => Forall (fun y => compare x y = Lt) rest /\ increasing rest
  end.

End SortUnique.

(** [list.index(x)], [None] when absent. *)
Fixpoint index_of {A : Type} (eqb : A -> A -> bool) (x : A) (l : list A)
  : option nat :=
  match l with
  | [] => None
  | y :: rest =>
      if eqb y x then Some O else option_map S (index_of eqb x rest)
  end.

Module Pivot.

(** [ValueError: Index contains duplicate entries, cannot reshape], and the
    [KeyError] of a frame built from an empty list of rows, which has no
    columns. *)
Inductive failure := DuplicateEntries | NoSuchColumn.

(** A row of the long table: (index label, column label, value). *)
Definition cell : Type := Z * string * Qc.

Definition label (x : cell) : Z * string := fst x.
Definition value (x : cell) : Qc := snd x.

Definition at_label (i : Z) (c : string) (x : cell) : bool :=
  (fst (label x) =? i) && String.eqb (snd (label x)) c.

Fixpoint duplicate_entries (cells : list cell) : bool :=
  match cells with
  | [] => false
  | x :: rest =>
      existsb (at_label (fst (label x)) (snd (label x))) rest
      || duplicate_entries rest
  end.

(** The wide table: one row per index label, one column per column
    label, both sorted. *)
Record table := {
  index : list Z;
  columns : list string;
  values : list (list Qc)
}.

(** The value of a cell after [fillna(0)]. *)
Definition entry (cells : list cell) (i : Z) (c : string) : Qc :=
  match find (at_label i c) cells with
  | Some x => value x
  | None => 0%Qc
  end.

(** [df.pivot(index=..., columns=..., values=...).fillna(0)]. *)
Definition pivot_fillna (cells : list cell) : failure + table :=
  match cells with
  | [] => inl NoSuchColumn
  | _ =>
      if duplicate_entries cells then inl DuplicateEntries
      else
        let index :=
          sort_unique Z.compare (map (fun x => fst (label x)) cells) in
        let columns :=
          sort_unique String.compare (map (fun x => snd (label x)) cells) in
        inr {| index := index; columns := columns;
               values := map (fun i => map (entry cells i) columns) index |}
  end.

(** [table.loc[i, c]]. *)
Definition loc (t : table) (i : Z) (c : string) : option Qc :=
  match index_of Z.eqb i (index t), index_of String.eqb c (columns t) with
  | Some row, Some col => nth_error (nth row (values t) []) col
  | _, _ => None
  end.

End Pivot.

(** [timeline_df.pivot(index="date", columns="trade_name",
    values="manpower").fillna(0)], the table of the baseline line chart. *)
Definition baseline_chart (baseline_df : list Baseline.row)
  : Pivot.failure + Pivot.table :=
  Pivot.pivot_fillna
    (map (fun r => (Timeline.date_ r, Timeline.trade_name r,
                    Timeline.manpower r))
         (timeline_rows baseline_df)).

(** [adjusted_df.pivot(index="Date", columns="Trade",
    values="Manpower").fillna(0)], the table of the final daily chart. *)
Definition final_daily_chart (adjusted_df : list Curve.row)
  : Pivot.failure + Pivot.table :=
  Pivot.pivot_fillna
    (map (fun r => (Curve.Date r, Curve.Trade r, Curve.Manpower r))
         adjusted_df).

(** Two tasks have a calendar date in common. *)
Definition share_a_date (b1 b2 : Baseline.row) : Prop :=
  exists d : date,
    (Baseline.start_date b1 <= d <= Baseline.end_date b1) /\
    (Baseline.start_date b2 <= d <= Baseline.end_date b2).

(** Two rows of the baseline, at different positions, of the same trade
    and with a date in common. *)
Definition trade_overlap (baseline_df : list Baseline.row) : Prop :=
  exists pre b1 mid b2 post,
    baseline_df = pre ++ b1 :: mid ++ b2 :: post /\
    Baseline.trade_name b1 = Baseline.trade_name b2 /\
    share_a_date b1 b2.

(** The (date, trade) labels of the daily points of a task. *)
Definition chart_labels (b : Baseline.row) : list (Z * string) :=
  map (fun d => (d, Baseline.trade_name b)) (task_dates b).

(** ** A third scenario: two tasks of the same trade at work together, BLK
    (Mason) from 2024-01-01 to 2024-01-10 and PLS (Mason) from 2024-01-05
    to 2024-01-14 *)
Module Scenario3.

Definition pls_baseline : Baseline.row :=
  {| Baseline.task_code := "PLS"; Baseline.task_name := "Plastering";
     Baseline.trade_name := "Mason"; Baseline.boq := Num.of_Z 2000;
     Baseline.rate := Num.of_Z 10; Baseline.man_days := Num.of_Z 200;
     Baseline.duration_days := 10; Baseline.manpower := Num.of_Z 20;
     Baseline.start_date := Scenario.jan 5;
     Baseline.end_date := Scenario.jan 14 |}.

Definition baseline_df : list Baseline.row :=
  [Scenario.blk_baseline; pls_baseline].

Definition task_progress_df : list TaskProgress.row :=
  map recalculate (map task_progress_default baseline_df).

Definition weekly_df : list Weekly.row :=
  weekly_rows Scenario.mon_sat baseline_df.

Definition daily_df : list Daily.row :=
  daily_rows Scenario.mon_sat baseline_df.

End Scenario3.

(** ** The trade summaries *)

(** [baseline_df.groupby("trade_name")["manpower"].sum().reset_index()]. *)
Definition trade_summary (baseline_df : list Baseline.row)
  : list (string * Qc) :=
  groupby_sum
    (map (fun b => (Baseline.trade_name b, Baseline.manpower b))
         baseline_df).

(** The tasks of a trade. *)
Definition tasks_of_trade (trade : string) (baseline_df : list Baseline.row)
  : list Baseline.row :=
  filter (fun b => String.eqb (Baseline.trade_name b) trade) baseline_df.

(** [df.groupby(key)[column].mean().reset_index()]: the sum of each group
    over the number of its rows, in increasing order of the key. *)
Definition groupby_mean (rows : list (string * Qc)) : list (string * Qc) :=
  map (fun kv =>
         (fst kv,
          (snd kv
           / Num.of_nat
               (List.length
                  (filter (fun r => String.eqb (fst r) (fst kv)) rows)))%Qc))
      (groupby_sum rows).

(** [adjusted_df.groupby("Trade")["Manpower"].mean().reset_index()], the
    "Average Manpower" of the final trade summary. *)
Definition trade_final (adjusted_df : list Curve.row) : list (string * Qc) :=
  groupby_mean
    (map (fun r => (Curve.Trade r, Curve.Manpower r)) adjusted_df).

(** The adjusted man-days of the tasks of a trade, and the days of their
    date ranges. *)
Definition trade_man_days (task_progress_df : list TaskProgress.row)
    (trade : string) (baseline_df : list Baseline.row) : Qc :=
  Num.sum (map (fun b => target_of task_progress_df (Baseline.task_code b))
               (tasks_of_trade trade baseline_df)).

Definition trade_task_days (trade : string)
    (baseline_df : list Baseline.row) : Qc :=
  Num.sum (map (fun b => Num.of_Z (Baseline.duration_days b))
               (tasks_of_trade trade baseline_df)).

(** * Properties *)

(** ** Arithmetic *)

Section NumFacts.

Local Open Scope Qc_scope.

Lemma ltb_lt (x y : Qc) : Num.ltb x y = true <-> x < y.
Proof.
  unfold Num.ltb. rewrite Qclt_alt.
  destruct (x ?= y); split; congruence.
Qed.

Lemma ltb_ge (x y : Qc) : Num.ltb x y = false <-> y <= x.
Proof.
  split; intro H.
  - apply Qcnot_lt_le. intro L. apply ltb_lt in L. congruence.
  - destruct (Num.ltb x y) eqn:E; trivial.
    apply ltb_lt in E. exfalso. exact (Qcle_not_lt _ _ H E).
Qed.

Lemma leb_le (x y : Qc) : Num.leb x y = true <-> x <= y.
Proof.
  unfold Num.leb. rewrite Qcle_alt.
  destruct (x ?= y); split; congruence.
Qed.

Lemma leb_gt (x y : Qc) : Num.leb x y = false <-> y < x.
Proof.
  split; intro H.
  - apply Qcnot_le_lt. intro L. apply leb_le in L. congruence.
  - destruct (Num.leb x y) eqn:E; trivial.
    apply leb_le in E. exfalso. exact (Qclt_not_le _ _ H E).
Qed.

Lemma Qc_this_eq (q : Q) : (this (Q2Qc q) == q)%Q.
Proof. simpl. apply Qred_correct. Qed.

Lemma Qcle_Q (x y : Qc) : x <= y <-> (this x <= this y)%Q.
Proof. reflexivity. Qed.

Lemma Qclt_Q (x y : Qc) : x < y <-> (this x < this y)%Q.
Proof. reflexivity. Qed.

Lemma Qceq_Q (x y : Qc) : x = y <-> (this x == this y)%Q.
Proof. split; [intros ->; reflexivity | apply Qc_is_canon]. Qed.

Lemma this_plus (x y : Qc) : (this (x + y) == this x + this y)%Q.
Proof. apply Qc_this_eq. Qed.
Lemma this_mult (x y : Qc) : (this (x * y) == this x * this y)%Q.
Proof. apply Qc_this_eq. Qed.
Lemma this_opp (x : Qc) : (this (- x) == - this x)%Q.
Proof. apply Qc_this_eq. Qed.
Lemma this_minus (x y : Qc) : (this (x - y) == this x - this y)%Q.
Proof. unfold Qcminus. rewrite this_plus, this_opp. reflexivity. Qed.
Lemma this_inv (x : Qc) : (this (/ x) == / this x)%Q.
Proof. apply Qc_this_eq. Qed.
Lemma this_div (x y : Qc) : (this (x / y) == this x / this y)%Q.
Proof. unfold Qcdiv. rewrite this_mult, this_inv. reflexivity. Qed.
Lemma this_of_Z (z : Z) : (this (Num.of_Z z) == inject_Z z)%Q.
Proof. apply Qc_this_eq. Qed.

Lemma of_Z_inj_neq (z : Z) : z <> 0%Z -> Num.of_Z z <> 0.
Proof.
  intros Hz E. apply Qceq_Q in E. rewrite this_of_Z in E.
  simpl in E. unfold Qeq in E. simpl in E. lia.
Qed.

Lemma of_Z_pos (z : Z) : (0 < z)%Z -> 0 < Num.of_Z z.
Proof.
  intros Hz. apply Qclt_Q. rewrite this_of_Z. simpl.
  unfold Qlt. simpl. lia.
Qed.

Lemma of_nat_pos (n : nat) : (0 < n)%nat -> 0 < Num.of_nat n.
Proof. intros. apply of_Z_pos. lia. Qed.

Lemma of_nat_neq (n : nat) : (0 < n)%nat -> Num.of_nat n <> 0.
Proof. intros. apply of_Z_inj_neq. lia. Qed.

Lemma of_nat_S (n : nat) : Num.of_nat (S n) = Num.of_nat n + 1.
Proof.
  apply Qceq_Q. rewrite this_plus. unfold Num.of_nat.
  rewrite !this_of_Z. rewrite Nat2Z.inj_succ. unfold Z.succ.
  rewrite inject_Z_plus. reflexivity.
Qed.

Lemma hundred_pos : 0 < Num.hundred.
Proof. apply of_Z_pos. lia. Qed.

Lemma hundred_neq : Num.hundred <> 0.
Proof. apply of_Z_inj_neq. lia. Qed.

Lemma Qcmult_pos (x y : Qc) : 0 < x -> 0 < y -> 0 < x * y.
Proof.
  intros Hx Hy. apply Qclt_Q. rewrite this_mult.
  apply Qclt_Q in Hx, Hy. apply Qmult_lt_0_compat; assumption.
Qed.

Lemma Qcinv_pos (x : Qc) : 0 < x -> 0 < / x.
Proof.
  intros Hx. apply Qclt_Q. rewrite this_inv.
  apply Qclt_Q in Hx. apply Qinv_lt_0_compat. exact Hx.
Qed.

Lemma Qcdiv_pos (x y : Qc) : 0 < x -> 0 < y -> 0 < x / y.
Proof. intros. apply Qcmult_pos; [|apply Qcinv_pos]; assumption. Qed.

Lemma Qcpos_neq (x : Qc) : 0 < x -> x <> 0.
Proof. intros H E. subst. exact (Qclt_not_eq _ _ H eq_refl). Qed.

Lemma sum_app (l1 l2 : list Qc) :
  Num.sum (l1 ++ l2) = Num.sum l1 + Num.sum l2.
Proof.
  induction l1 as [|a l1 IH]; simpl.
  - now rewrite Qcplus_0_l.
  - rewrite IH. ring.
Qed.

Lemma sum_map_scale {A} (f : A -> Qc) (s : Qc) (l : list A) :
  Num.sum (map (fun a => f a * s) l) = Num.sum (map f l) * s.
Proof.
  induction l as [|a l IH]; simpl.
  - ring.
  - rewrite IH. ring.
Qed.

Lemma sum_repeat (p : Qc) (n : nat) :
  Num.sum (repeat p n) = Num.of_nat n * p.
Proof.
  induction n as [|n IH].
  - simpl. unfold Num.of_nat, Num.of_Z. simpl.
    change (Q2Qc (inject_Z 0)) with 0. ring.
  - rewrite of_nat_S. simpl. rewrite IH. ring.
Qed.

(** The nearest integer is within one half. *)
Lemma round_half_even_bound (q : Q) :
  (inject_Z (Num.round_half_even q) - q <= 1 # 2)%Q /\
  (q - inject_Z (Num.round_half_even q) <= 1 # 2)%Q.
Proof.
  unfold Num.round_half_even.
  pose proof (Qfloor_le q) as Hlo.
  pose proof (Qlt_floor q) as Hhi.
  rewrite inject_Z_plus in Hhi. simpl inject_Z at 2 in Hhi.
  assert (Hone : (inject_Z 1 == 1)%Q) by reflexivity.
  destruct (Qcompare (q - inject_Z (Qfloor q)) (1 # 2)) eqn:C.
  - apply Qeq_alt in C.
    destruct (Z.even (Qfloor q)).
    + split; lra.
    + rewrite inject_Z_plus. split; lra.
  - apply Qlt_alt in C. split; lra.
  - apply Qgt_alt in C. rewrite inject_Z_plus. split; lra.
Qed.

(** [round2] moves a value by at most half a hundredth. *)
Lemma round2_bound (x : Qc) :
  Num.round2 x - x <= Q2Qc (1 # 200) /\ x - Num.round2 x <= Q2Qc (1 # 200).
Proof.
  destruct (round_half_even_bound (this x * 100)) as [H1 H2].
  unfold Num.round2.
  set (r := inject_Z (Num.round_half_even (this x * 100))) in *.
  assert (E : (this (Q2Qc (r / 100)) == r / 100)%Q) by apply Qc_this_eq.
  assert (E' : (this (Q2Qc (1 # 200)) == 1 # 200)%Q) by apply Qc_this_eq.
  clearbody r. unfold Qdiv in *.
  split; apply Qcle_Q; rewrite this_minus, E, E';
    change (/ 100)%Q with (1 # 100)%Q; generalize dependent (this x);
    intros; lra.
Qed.

End NumFacts.

(** ** Calendar *)

Lemma date_range_In (s e d : date) :
  In d (date_range s e) <-> s <= d <= e.
Proof.
  unfold date_range. rewrite in_map_iff. split.
  - intros (i & <- & Hi). apply in_seq in Hi. lia.
  - intros H. exists (Z.to_nat (d - s)). split; [lia|].
    apply in_seq. lia.
Qed.

Lemma date_range_length (s e : date) :
  List.length (date_range s e) = Z.to_nat (e - s + 1).
Proof. unfold date_range. now rewrite length_map, length_seq. Qed.

Lemma date_range_NoDup (s e : date) : NoDup (date_range s e).
Proof.
  unfold date_range. apply Injective_map_NoDup.
  - intros i j H. lia.
  - apply seq_NoDup.
Qed.

Lemma date_range_nonempty (s e : date) : s <= e -> date_range s e <> [].
Proof.
  intros H E. apply (f_equal (@List.length _)) in E.
  rewrite date_range_length in E. simpl in E. lia.
Qed.

Lemma working_days_In (wd : list Z) (dates : list date) (d : date) :
  In d (working_days_of wd dates) <-> In d dates /\ is_working wd d = true.
Proof. unfold working_days_of. apply filter_In. Qed.

Lemma existsb_eqb_In (d : Z) (l : list Z) :
  existsb (Z.eqb d) l = true <-> In d l.
Proof.
  rewrite existsb_exists. split.
  - intros (x & Hx & E). apply Z.eqb_eq in E. now subst.
  - intros H. exists d. split; [assumption | apply Z.eqb_refl].
Qed.

(** ** Curve tables *)

Section CurveFacts.

Local Open Scope Qc_scope.

Lemma scale_Task f r : Curve.Task (Curve.scale f r) = Curve.Task r.
Proof. reflexivity. Qed.

Lemma scale_Date f r : Curve.Date (Curve.scale f r) = Curve.Date r.
Proof. reflexivity. Qed.

Lemma scale_one r : Curve.scale 1 r = r.
Proof. destruct r. unfold Curve.scale. simpl. f_equal. ring. Qed.

Lemma scale_scale f g r :
  Curve.scale g (Curve.scale f r) = Curve.scale (f * g) r.
Proof. unfold Curve.scale. simpl. f_equal. ring. Qed.

(** A masked update is a row-wise rescaling. *)
Lemma scale_where_rescale mask f df :
  Curve.scale_where mask f df
  = Curve.rescale (fun r => if mask r then f else 1) df.
Proof.
  unfold Curve.scale_where, Curve.rescale. apply map_ext.
  intros r. destruct (mask r); [reflexivity | now rewrite scale_one].
Qed.

Lemma rescale_Task g df :
  map Curve.Task (Curve.rescale g df) = map Curve.Task df.
Proof. unfold Curve.rescale. rewrite map_map. reflexivity. Qed.

Lemma rescale_Date g df :
  map Curve.Date (Curve.rescale g df) = map Curve.Date df.
Proof. unfold Curve.rescale. rewrite map_map. reflexivity. Qed.

Lemma rescale_key g df :
  map Curve.key (Curve.rescale g df) = map Curve.key df.
Proof. unfold Curve.rescale. rewrite map_map. reflexivity. Qed.

Lemma rescale_ext_in g h df :
  (forall r, In r df -> g r = h r) -> Curve.rescale g df = Curve.rescale h df.
Proof.
  intros H. unfold Curve.rescale. apply map_ext_in.
  intros r Hr. now rewrite H.
Qed.

Lemma of_task_rescale task g df :
  Curve.of_task task (Curve.rescale g df)
  = Curve.rescale g (Curve.of_task task df).
Proof.
  unfold Curve.of_task, Curve.rescale.
  induction df as [|r df IH]; simpl; [reflexivity|].
  destruct (String.eqb (Curve.Task r) task); simpl; now rewrite IH.
Qed.

Lemma of_task_In task df r :
  In r (Curve.of_task task df) <-> In r df /\ Curve.Task r = task.
Proof.
  unfold Curve.of_task. rewrite filter_In, String.eqb_eq. reflexivity.
Qed.

(** Rescaling every row of a table by the same factor scales its total. *)
Lemma total_rescale_const g s df :
  (forall r, In r df -> g r = s) ->
  Curve.total (Curve.rescale g df) = Curve.total df * s.
Proof.
  intros H. unfold Curve.total, Curve.rescale. rewrite map_map. simpl.
  rewrite <- sum_map_scale. f_equal. apply map_ext_in.
  intros r Hr. now rewrite H.
Qed.

Lemma total_rescale_id g df :
  (forall r, In r df -> g r = 1) ->
  Curve.rescale g df = df.
Proof.
  intros H. unfold Curve.rescale. rewrite <- (map_id df) at 2.
  apply map_ext_in. intros r Hr. rewrite H by assumption. apply scale_one.
Qed.

End CurveFacts.

(** ** Loops over rows *)

Lemma iterrows_app {R S} (body : S -> R -> outcome S) l1 l2 s :
  iterrows body (l1 ++ l2) s
  = match iterrows body l1 s with
    | Ok s' => iterrows body l2 s'
    | Stop e => Stop e
    end.
Proof.
  revert s. induction l1 as [|x l1 IH]; intros s; simpl; [reflexivity|].
  destruct (body s x); [apply IH | reflexivity].
Qed.

Lemma unique_In (l : list string) (x : string) : In x (unique l) <-> In x l.
Proof.
  induction l as [|a l IH]; simpl; [reflexivity|].
  rewrite filter_In, IH, negb_true_iff, String.eqb_neq.
  destruct (string_dec a x) as [->|N]; [tauto|].
  split; [tauto|]. intros [E|H]; [tauto|]. right. split; congruence.
Qed.

Lemma NoDup_filter {A} (f : A -> bool) (l : list A) :
  NoDup l -> NoDup (filter f l).
Proof.
  induction 1 as [|a l Hn Hd IH]; simpl; [constructor|].
  destruct (f a); [constructor|]; trivial.
  rewrite filter_In. tauto.
Qed.

Lemma unique_NoDup (l : list string) : NoDup (unique l).
Proof.
  induction l as [|a l IH]; simpl; constructor.
  - rewrite filter_In, negb_true_iff, String.eqb_neq. tauto.
  - now apply NoDup_filter.
Qed.

(** ** Phase B as a row-wise rescaling *)

Section PhaseB.

Local Open Scope Qc_scope.

Variable task_progress_df : list TaskProgress.row.

Local Abbreviation has_target := (has_target task_progress_df).

Lemma rescale_rescale g h df :
  (forall f r, h (Curve.scale f r) = h r) ->
  Curve.rescale h (Curve.rescale g df)
  = Curve.rescale (fun r => g r * h r) df.
Proof.
  intros Hh. unfold Curve.rescale. rewrite map_map. apply map_ext.
  intros r. now rewrite Hh, scale_scale.
Qed.

Lemma scaling_step_rescale df task :
  has_target task ->
  scaling_step task_progress_df df task
  = Ok (Curve.rescale
          (fun r => if String.eqb (Curve.Task r) task
                    then task_scale task_progress_df df task else 1) df).
Proof.
  intros [q Hq]. unfold scaling_step, task_scale. rewrite Hq.
  now rewrite scale_where_rescale.
Qed.

Lemma of_task_other g task df :
  (forall r, In r df -> Curve.Task r = task -> g r = 1) ->
  Curve.of_task task (Curve.rescale g df) = Curve.of_task task df.
Proof.
  intros H. rewrite of_task_rescale. apply total_rescale_id.
  intros r Hr. apply of_task_In in Hr. now apply H.
Qed.

Lemma task_scale_other g task df :
  (forall r, In r df -> Curve.Task r = task -> g r = 1) ->
  task_scale task_progress_df (Curve.rescale g df) task
  = task_scale task_progress_df df task.
Proof.
  intros H. unfold task_scale. now rewrite of_task_other.
Qed.

Lemma mem_In x l : mem x l = true <-> In x l.
Proof.
  unfold mem. rewrite existsb_exists. split.
  - intros (y & Hy & E). apply String.eqb_eq in E. now subst.
  - intros H. exists x. split; [assumption | apply String.eqb_refl].
Qed.

Lemma iterrows_scaling tasks : forall df,
  NoDup tasks ->
  Forall has_target tasks ->
  iterrows (scaling_step task_progress_df) tasks df
  = Ok (Curve.rescale
          (fun r => if mem (Curve.Task r) tasks
                    then task_scale task_progress_df df (Curve.Task r)
                    else 1) df).
Proof.
  induction tasks as [|t ts IH]; intros df Hnd Hall.
  - simpl. now rewrite total_rescale_id.
  - inversion Hnd as [|? ? Hnotin Hnd']; subst.
    inversion Hall as [|? ? Ht Hall']; subst.
    simpl iterrows. rewrite (scaling_step_rescale df t Ht).
    rewrite (IH _ Hnd' Hall'). f_equal.
    rewrite rescale_rescale by reflexivity.
    apply rescale_ext_in. intros r Hr. simpl mem.
    destruct (String.eqb (Curve.Task r) t) eqn:E.
    + apply String.eqb_eq in E. rewrite E in *.
      replace (mem t ts) with false.
      * simpl. ring.
      * symmetry. apply not_true_iff_false. rewrite mem_In. exact Hnotin.
    + simpl. destruct (mem (Curve.Task r) ts) eqn:M; [|ring].
      rewrite task_scale_other; [ring|].
      intros r' _ Hr'. rewrite Hr', E. reflexivity.
Qed.

(** Phase B multiplies every row by the scale of its task, computed on
    the table Phase A left. *)
Lemma per_task_scaling_rescale df :
  (forall r, In r df -> has_target (Curve.Task r)) ->
  per_task_scaling task_progress_df df
  = Ok (Curve.rescale
          (fun r => task_scale task_progress_df df (Curve.Task r)) df).
Proof.
  intros H. unfold per_task_scaling.
  rewrite iterrows_scaling.
  - f_equal. apply rescale_ext_in. intros r Hr.
    replace (mem (Curve.Task r) (unique (map Curve.Task df))) with true;
      [reflexivity|].
    symmetry. apply mem_In, unique_In, in_map. exact Hr.
  - apply unique_NoDup.
  - apply Forall_forall. intros t Ht. apply (proj1 (unique_In _ _)) in Ht.
    apply in_map_iff in Ht. destruct Ht as (r & <- & Hr). now apply H.
Qed.

(** The total of a task after Phase B. *)
Lemma total_after_scaling df final task q :
  per_task_scaling task_progress_df df = Ok final ->
  (forall r, In r df -> has_target (Curve.Task r)) ->
  required_total_of task_progress_df task = Ok q ->
  0 < Curve.total (Curve.of_task task df) ->
  Curve.total (Curve.of_task task final) = q.
Proof.
  intros Hf Hall Hq Hpos.
  rewrite per_task_scaling_rescale in Hf by assumption.
  injection Hf as <-.
  rewrite of_task_rescale.
  rewrite (total_rescale_const _ (task_scale task_progress_df df task)).
  - unfold task_scale. rewrite Hq.
    apply ltb_lt in Hpos as Hb. rewrite Hb.
    field. now apply Qcpos_neq.
  - intros r Hr. apply of_task_In in Hr. destruct Hr as [_ ->]. reflexivity.
Qed.

End PhaseB.

(** ** Phase A as a row-wise rescaling *)

Section PhaseA.

Local Open Scope Qc_scope.

Context {R : Type}.
Variable plan : R -> outcome Qc.
Variable mask : R -> Curve.row -> bool.
Variable actual : R -> Qc.
Hypothesis mask_scale : forall x f r, mask x (Curve.scale f r) = mask x r.

Local Abbreviation step := (Refine.step plan mask actual).
Local Abbreviation factor := (Refine.factor plan mask actual).
Local Abbreviation multiplier := (Refine.multiplier plan mask actual).
Local Abbreviation planned_ok := (Refine.planned_ok plan).

Lemma factor_scale x f r : factor x (Curve.scale f r) = factor x r.
Proof. unfold Refine.factor. now rewrite mask_scale. Qed.

Lemma multiplier_scale rows f r :
  multiplier rows (Curve.scale f r) = multiplier rows r.
Proof.
  induction rows as [|x rows IH]; simpl; [reflexivity|].
  now rewrite factor_scale, IH.
Qed.

Lemma step_rescale df x :
  planned_ok x -> step df x = Ok (Curve.rescale (factor x) df).
Proof.
  intros [p Hp]. unfold Refine.step. rewrite Hp.
  destruct (Num.ltb 0 p) eqn:E.
  - rewrite scale_where_rescale. f_equal. apply rescale_ext_in.
    intros r _. unfold Refine.factor. rewrite Hp, E. reflexivity.
  - f_equal. symmetry. apply total_rescale_id.
    intros r _. unfold Refine.factor. rewrite Hp, E. reflexivity.
Qed.

Lemma iterrows_refine rows : forall df,
  Forall planned_ok rows ->
  iterrows step rows df = Ok (Curve.rescale (multiplier rows) df).
Proof.
  induction rows as [|x rows IH]; intros df Hall.
  - simpl. f_equal. symmetry. now apply total_rescale_id.
  - inversion Hall as [|? ? Hx Hall']; subst.
    simpl iterrows. rewrite (step_rescale df x Hx), (IH _ Hall').
    f_equal. rewrite rescale_rescale.
    + reflexivity.
    + intros. apply multiplier_scale.
Qed.

(** A record with factor zero on a row zeroes its multiplier. *)
Lemma multiplier_zero rows x r :
  In x rows -> factor x r = 0 -> multiplier rows r = 0.
Proof.
  induction rows as [|y rows IH]; simpl; [tauto|].
  intros [->|H] Hz.
  - rewrite Hz. ring.
  - rewrite (IH H Hz). ring.
Qed.

(** When no record touches the row the multiplier is one. *)
Lemma multiplier_one rows r :
  (forall x, In x rows -> factor x r = 1) -> multiplier rows r = 1.
Proof.
  induction rows as [|y rows IH]; simpl; intros H; [reflexivity|].
  rewrite H by now left. rewrite IH; [ring|]. intros. apply H. now right.
Qed.

End PhaseA.

(** ** The tables of a session *)

Lemma Forall2_In_left {A B} (P : A -> B -> Prop) l l' x :
  Forall2 P l l' -> In x l -> exists y, In y l' /\ P x y.
Proof.
  induction 1 as [|a b l l' Hab H IH]; simpl; [tauto|].
  intros [->|Hx].
  - exists b. tauto.
  - destruct (IH Hx) as (y & Hy & Hp). exists y. tauto.
Qed.

Lemma Forall2_In_right {A B} (P : A -> B -> Prop) l l' y :
  Forall2 P l l' -> In y l' -> exists x, In x l /\ P x y.
Proof.
  induction 1 as [|a b l l' Hab H IH]; simpl; [tauto|].
  intros [->|Hy].
  - exists a. tauto.
  - destruct (IH Hy) as (x & Hx & Hp). exists x. tauto.
Qed.

Lemma Forall2_map_eq {A B C} (P : A -> B -> Prop) (f : A -> C) (g : B -> C)
    l l' :
  Forall2 P l l' -> (forall a b, P a b -> g b = f a) -> map g l' = map f l.
Proof.
  intros H Hfg. induction H as [|a b l l' Hab H IH]; simpl; [reflexivity|].
  now rewrite IH, (Hfg a b Hab).
Qed.

Lemma find_unique {A} (code : A -> string) (l : list A) (x : A) :
  NoDup (map code l) -> In x l ->
  find (fun y => String.eqb (code y) (code x)) l = Some x.
Proof.
  induction l as [|a l IH]; simpl; [tauto|].
  intros Hnd Hin. inversion Hnd as [|? ? Hnot Hnd']; subst.
  destruct Hin as [->|Hin].
  - now rewrite String.eqb_refl.
  - destruct (String.eqb (code a) (code x)) eqn:E.
    + apply String.eqb_eq in E. exfalso. apply Hnot. rewrite E.
      now apply in_map.
    + now apply IH.
Qed.

Lemma filter_none {A} (f : A -> bool) (l : list A) :
  (forall y, In y l -> f y = false) -> filter f l = [].
Proof.
  induction l as [|a l IH]; simpl; intros H; [reflexivity|].
  rewrite H by now left. apply IH. intros. apply H. now right.
Qed.

Lemma filter_unique {A} (code : A -> string) (l : list A) (x : A) :
  NoDup (map code l) -> In x l ->
  filter (fun y => String.eqb (code y) (code x)) l = [x].
Proof.
  induction l as [|a l IH]; simpl; [tauto|].
  intros Hnd Hin. inversion Hnd as [|? ? Hnot Hnd']; subst.
  destruct Hin as [->|Hin].
  - rewrite String.eqb_refl. f_equal. apply filter_none.
    intros y Hy. apply String.eqb_neq. intros E. apply Hnot.
    rewrite <- E. now apply in_map.
  - destruct (String.eqb (code a) (code x)) eqn:E.
    + apply String.eqb_eq in E. exfalso. apply Hnot. rewrite E.
      now apply in_map.
    + now apply IH.
Qed.

Section TaskProgressRows.

Local Open Scope Qc_scope.

Lemma edited_progress_rows baseline_df : forall returned,
  task_progress_edited (map task_progress_default baseline_df) returned ->
  Forall2 progress_of baseline_df (map recalculate returned).
Proof.
  unfold task_progress_edited, edited.
  induction baseline_df as [|b bdf IH]; intros returned Hed; simpl in Hed.
  - inversion Hed. constructor.
  - inversion Hed as [|? r ? returned' (p & Hlo & Hhi & ->) Hed']; subst.
    simpl. constructor.
    + unfold progress_of. simpl. repeat split; assumption.
    + now apply IH.
Qed.

End TaskProgressRows.

Lemma iterrows_ext {R S} (f g : S -> R -> outcome S) rows :
  (forall s x, f s x = g s x) ->
  forall s, iterrows f rows s = iterrows g rows s.
Proof.
  intros H. induction rows as [|x rows IH]; intros s; simpl; [reflexivity|].
  rewrite H. destruct (g s x); [apply IH | reflexivity].
Qed.

Lemma weekly_step_generic wd bdf df w :
  weekly_refinement_step wd bdf df w
  = Refine.step (weekly_plan wd bdf) weekly_mask Weekly.Progress df w.
Proof.
  unfold weekly_refinement_step, Refine.step, weekly_plan.
  destruct (task_row_of bdf (Weekly.Task w)); reflexivity.
Qed.

Lemma daily_step_generic wd bdf df d :
  daily_refinement_step wd bdf df d
  = Refine.step (daily_plan wd bdf) daily_mask Daily.Progress df d.
Proof.
  unfold daily_refinement_step, Refine.step, daily_plan.
  destruct (task_row_of bdf (Daily.Task d)); reflexivity.
Qed.

Lemma task_row_of_In bdf task :
  In task (map Baseline.task_code bdf) ->
  exists b, task_row_of bdf task = Ok b /\ In b bdf
            /\ Baseline.task_code b = task.
Proof.
  intros H. unfold task_row_of.
  destruct (find (fun b => String.eqb (Baseline.task_code b) task) bdf)
    as [b|] eqn:F.
  - apply find_some in F. destruct F as [Hin E].
    apply String.eqb_eq in E. exists b. tauto.
  - apply in_map_iff in H. destruct H as (b & E & Hin).
    apply (find_none _ _ F) in Hin. rewrite E, String.eqb_refl in Hin.
    discriminate.
Qed.

Lemma task_row_of_unique bdf b :
  NoDup (map Baseline.task_code bdf) -> In b bdf ->
  task_row_of bdf (Baseline.task_code b) = Ok b.
Proof.
  intros Hnd Hin. unfold task_row_of.
  now rewrite (find_unique Baseline.task_code bdf b Hnd Hin).
Qed.

Lemma weekly_rows_Task wd bdf w :
  In w (weekly_rows wd bdf) -> In (Weekly.Task w) (map Baseline.task_code bdf).
Proof.
  unfold weekly_rows. rewrite in_flat_map. intros (b & Hb & Hw).
  unfold weekly_rows_of in Hw. apply in_map_iff in Hw.
  destruct Hw as (kv & <- & _). simpl. now apply in_map.
Qed.

Lemma daily_rows_Task wd bdf d :
  In d (daily_rows wd bdf) -> In (Daily.Task d) (map Baseline.task_code bdf).
Proof.
  unfold daily_rows. rewrite in_flat_map. intros (b & Hb & Hd).
  unfold daily_rows_of in Hd. apply in_map_iff in Hd.
  destruct Hd as (x & <- & _). simpl. now apply in_map.
Qed.

Lemma flat_map_nested {A B C} (f : A -> list B) (g : B -> list C) l :
  flat_map g (flat_map f l) = flat_map (fun x => flat_map g (f x)) l.
Proof.
  induction l as [|a l IH]; simpl; [reflexivity|].
  now rewrite flat_map_app, IH.
Qed.

Lemma flat_map_ext_In {A B} (f g : A -> list B) l :
  (forall a, In a l -> f a = g a) -> flat_map f l = flat_map g l.
Proof.
  induction l as [|a l IH]; simpl; intros H; [reflexivity|].
  rewrite H by now left. f_equal. apply IH. intros. apply H. now right.
Qed.

Section SessionTables.

Local Open Scope Qc_scope.

Variable selected_weekdays : list Z.
Variable baseline_df : list Baseline.row.
Variable task_progress_df : list TaskProgress.row.
Variable weekly_df : list Weekly.row.
Variable daily_df : list Daily.row.
Hypothesis tables :
  session_tables selected_weekdays baseline_df task_progress_df weekly_df
                 daily_df.

Lemma task_progress_rows : Forall2 progress_of baseline_df task_progress_df.
Proof.
  destruct (st_task _ _ _ _ _ tables) as (returned & Hed & ->).
  now apply edited_progress_rows.
Qed.

Lemma task_progress_codes :
  map TaskProgress.task_code task_progress_df
  = map Baseline.task_code baseline_df.
Proof.
  apply (Forall2_map_eq progress_of).
  - exact task_progress_rows.
  - intros b p H. apply H.
Qed.

Lemma task_progress_NoDup :
  NoDup (map TaskProgress.task_code task_progress_df).
Proof. rewrite task_progress_codes. apply (st_unique _ _ _ _ _ tables). Qed.

(** Every baseline row has exactly one partner in [task_progress_df]. *)
Lemma merge_has_partner b :
  In b baseline_df ->
  exists p, In p task_progress_df /\ progress_of b p /\
            required_total_of task_progress_df (Baseline.task_code b)
            = Ok (TaskProgress.Adjusted_Man_Days p) /\
            filter (fun p' => String.eqb (TaskProgress.task_code p')
                                         (Baseline.task_code b))
                   task_progress_df = [p].
Proof.
  intros Hb.
  destruct (Forall2_In_left _ _ _ _ task_progress_rows Hb)
    as (p & Hp & Hrel).
  exists p. repeat split; try assumption; try apply Hrel.
  - unfold required_total_of.
    assert (E : TaskProgress.task_code p = Baseline.task_code b)
      by apply Hrel.
    rewrite <- E.
    now rewrite (find_unique TaskProgress.task_code _ p task_progress_NoDup Hp).
  - assert (E : TaskProgress.task_code p = Baseline.task_code b)
      by apply Hrel.
    rewrite <- E.
    exact (filter_unique TaskProgress.task_code _ p task_progress_NoDup Hp).
Qed.

Lemma adjusted_rows_uniform :
  adjusted_rows (merge_adjusted_man_days baseline_df task_progress_df)
  = flat_map (uniform_curve task_progress_df) baseline_df.
Proof.
  unfold adjusted_rows, merge_adjusted_man_days.
  rewrite flat_map_nested. apply flat_map_ext_In.
  intros b Hb. destruct (merge_has_partner b Hb) as (p & _ & _ & Hq & ->).
  simpl. rewrite app_nil_r. unfold uniform_curve, target_of.
  now rewrite Hq.
Qed.

End SessionTables.

Lemma expand_row_Task m r :
  In r (expand_row m) -> Curve.Task r = Baseline.task_code (fst m).
Proof.
  unfold expand_row. rewrite in_map_iff. intros (d & <- & _). reflexivity.
Qed.

Lemma expand_row_Date m : map Curve.Date (expand_row m) = task_dates (fst m).
Proof. unfold expand_row. rewrite map_map. simpl. apply map_id. Qed.

Lemma expand_row_Manpower m r :
  In r (expand_row m) ->
  Curve.Manpower r
  = (snd m / Num.of_nat (List.length (task_dates (fst m))))%Qc.
Proof.
  unfold expand_row. rewrite in_map_iff. intros (d & <- & _). reflexivity.
Qed.

Lemma of_task_all task df :
  (forall r, In r df -> Curve.Task r = task) -> Curve.of_task task df = df.
Proof.
  intros H. unfold Curve.of_task.
  induction df as [|r df IH]; simpl; [reflexivity|].
  rewrite (H r) by now left. rewrite String.eqb_refl. f_equal.
  apply IH. intros. apply H. now right.
Qed.

Lemma of_task_none task df :
  (forall r, In r df -> Curve.Task r <> task) -> Curve.of_task task df = [].
Proof.
  intros H. apply filter_none. intros r Hr. apply String.eqb_neq. now apply H.
Qed.

Lemma of_task_app task df1 df2 :
  Curve.of_task task (df1 ++ df2)
  = Curve.of_task task df1 ++ Curve.of_task task df2.
Proof. apply filter_app. Qed.

Lemma of_task_flat_map {A} (code : A -> string) (curve : A -> list Curve.row)
    (l : list A) (b : A) :
  (forall x r, In r (curve x) -> Curve.Task r = code x) ->
  NoDup (map code l) -> In b l ->
  Curve.of_task (code b) (flat_map curve l) = curve b.
Proof.
  intros Hc. induction l as [|a l IH]; simpl; [tauto|].
  intros Hnd Hin. inversion Hnd as [|? ? Hnot Hnd']; subst.
  rewrite of_task_app. destruct Hin as [->|Hin].
  - rewrite of_task_all by apply Hc.
    rewrite of_task_none; [apply app_nil_r|].
    intros r Hr E. apply in_flat_map in Hr. destruct Hr as (x & Hx & Hr).
    apply Hc in Hr. apply Hnot. rewrite <- E, Hr. now apply in_map.
  - rewrite of_task_none.
    + simpl. now apply IH.
    + intros r Hr E. apply Hc in Hr. apply Hnot. rewrite <- Hr, E.
      now apply in_map.
Qed.

Section SessionCurve.

Local Open Scope Qc_scope.

Variable report_type : ReportType.
Variable selected_weekdays : list Z.
Variable baseline_df : list Baseline.row.
Variable task_progress_df : list TaskProgress.row.
Variable weekly_df : list Weekly.row.
Variable daily_df : list Daily.row.
Hypothesis tables :
  session_tables selected_weekdays baseline_df task_progress_df weekly_df
                 daily_df.

Local Abbreviation reshaped :=
  (reshaped_curve report_type selected_weekdays baseline_df task_progress_df
     weekly_df daily_df).

Lemma uniform_curve_Task b r :
  In r (uniform_curve task_progress_df b) ->
  Curve.Task r = Baseline.task_code b.
Proof. apply expand_row_Task. Qed.

Lemma of_task_uniform b :
  In b baseline_df ->
  Curve.of_task (Baseline.task_code b)
    (flat_map (uniform_curve task_progress_df) baseline_df)
  = uniform_curve task_progress_df b.
Proof.
  apply (of_task_flat_map Baseline.task_code).
  - apply uniform_curve_Task.
  - apply (st_unique _ _ _ _ _ tables).
Qed.

Lemma weekly_plans_ok :
  Forall (Refine.planned_ok (weekly_plan selected_weekdays baseline_df))
         weekly_df.
Proof.
  apply Forall_forall. intros w Hw.
  destruct (Forall2_In_right _ _ _ _ (st_weekly _ _ _ _ _ tables) Hw)
    as (w0 & Hw0 & p & _ & _ & ->).
  apply weekly_rows_Task in Hw0.
  destruct (task_row_of_In _ _ Hw0) as (b & Hb & _).
  unfold Refine.planned_ok, weekly_plan. simpl. rewrite Hb. eauto.
Qed.

Lemma daily_plans_ok :
  Forall (Refine.planned_ok (daily_plan selected_weekdays baseline_df))
         daily_df.
Proof.
  apply Forall_forall. intros d Hd.
  destruct (Forall2_In_right _ _ _ _ (st_daily _ _ _ _ _ tables) Hd)
    as (d0 & Hd0 & p & _ & _ & ->).
  apply daily_rows_Task in Hd0.
  destruct (task_row_of_In _ _ Hd0) as (b & Hb & _).
  unfold Refine.planned_ok, daily_plan. simpl. rewrite Hb. eauto.
Qed.

Lemma weekly_mask_scale w f r :
  weekly_mask w (Curve.scale f r) = weekly_mask w r.
Proof. reflexivity. Qed.

Lemma daily_mask_scale d f r :
  daily_mask d (Curve.scale f r) = daily_mask d r.
Proof. reflexivity. Qed.

(** Phase A succeeds on the tables of a session and is a row-wise
    rescaling of the uniform curves. *)
Lemma refinement_reshaped :
  refinement report_type selected_weekdays baseline_df weekly_df daily_df
    (adjusted_rows (merge_adjusted_man_days baseline_df task_progress_df))
  = Ok reshaped.
Proof.
  rewrite (adjusted_rows_uniform _ _ _ _ _ tables).
  unfold refinement, reshaped_curve, refinement_multiplier.
  destruct report_type.
  - rewrite (iterrows_ext _ _ _ (daily_step_generic _ _)).
    apply iterrows_refine; [apply daily_mask_scale | apply daily_plans_ok].
  - rewrite (iterrows_ext _ _ _ (weekly_step_generic _ _)).
    apply iterrows_refine; [apply weekly_mask_scale | apply weekly_plans_ok].
Qed.

Lemma reshaped_In r :
  In r reshaped ->
  exists b, In b baseline_df /\ Curve.Task r = Baseline.task_code b.
Proof.
  unfold reshaped_curve, Curve.rescale. rewrite in_map_iff.
  intros (r0 & <- & Hr0). apply in_flat_map in Hr0.
  destruct Hr0 as (b & Hb & Hr0). exists b. split; [assumption|].
  rewrite scale_Task. now apply uniform_curve_Task.
Qed.

Lemma reshaped_has_target r :
  In r reshaped -> has_target task_progress_df (Curve.Task r).
Proof.
  intros Hr. destruct (reshaped_In r Hr) as (b & Hb & ->).
  destruct (merge_has_partner _ _ _ _ _ tables b Hb) as (p & _ & _ & Hq & _).
  now exists (TaskProgress.Adjusted_Man_Days p).
Qed.

(** The whole adjustment succeeds on the tables of a session. *)
Lemma adjusted_curve_rescale :
  adjusted_curve report_type selected_weekdays baseline_df task_progress_df
    weekly_df daily_df
  = Ok (Curve.rescale
          (fun r => task_scale task_progress_df reshaped (Curve.Task r))
          reshaped).
Proof.
  unfold adjusted_curve. rewrite refinement_reshaped.
  apply per_task_scaling_rescale. apply reshaped_has_target.
Qed.

Lemma of_task_reshaped b :
  In b baseline_df ->
  Curve.of_task (Baseline.task_code b) reshaped
  = Curve.rescale
      (refinement_multiplier report_type selected_weekdays baseline_df
         weekly_df daily_df)
      (uniform_curve task_progress_df b).
Proof.
  intros Hb. unfold reshaped_curve.
  now rewrite of_task_rescale, of_task_uniform.
Qed.

End SessionCurve.

(** ** The worked scenario *)

Ltac canon := apply Qc_is_canon; vm_compute; reflexivity.

(** Lists of canonical rationals are equal when their fractions are. *)
Lemma map_this_inj (l1 l2 : list Qc) : map this l1 = map this l2 -> l1 = l2.
Proof.
  revert l2. induction l1 as [|a l1 IH]; intros [|b l2] E;
    try discriminate; [reflexivity|].
  simpl in E. injection E as Ea El. f_equal; [now apply Qc_decomp | auto].
Qed.

Ltac canon_list := apply map_this_inj; vm_compute; reflexivity.

(** Proves [f x = Ok q] for concrete [x] and [q]. *)
Ltac canon_target :=
  match goal with
  | |- ?lhs = Ok ?q =>
      let v := eval vm_compute in lhs in
      match v with
      | Ok ?q' => transitivity (Ok q'); [vm_compute; reflexivity|];
                  f_equal; canon
      end
  end.

Ltac in_range := vm_compute; discriminate.

(** Proves that a concrete table is an edit of another. *)
Ltac solve_edited :=
  repeat lazymatch goal with
  | |- Forall2 _ [] [] => apply Forall2_nil
  | |- Forall2 _ (_ :: _) (_ :: _) =>
      apply Forall2_cons;
      [ eexists; split; [|split]; cycle 2;
        [ reflexivity | in_range | in_range ] | ]
  end.

Lemma scenario_baseline_valid : Forall baseline_valid Scenario.baseline_df.
Proof.
  constructor; [|constructor]. unfold baseline_valid. simpl.
  split; [reflexivity|]. split; [discriminate|].
  split; [vm_compute; discriminate|]. split; [canon|].
  split; [reflexivity | canon].
Qed.

(** Proves [session_tables] for concrete tables of the scenario. *)
Ltac solve_tables :=
  constructor;
  [ apply scenario_baseline_valid
  | repeat constructor; simpl; tauto
  | exists (map task_progress_default Scenario.baseline_df);
    split; [|reflexivity];
    unfold task_progress_edited, edited; simpl map; solve_edited
  | unfold weekly_edited, edited, Scenario.weekly_df_140, Scenario.weekly_df;
    match goal with |- context [weekly_rows ?a ?b] =>
      let l := fresh "l" in
      set (l := weekly_rows a b); vm_compute in l; subst l end;
    simpl map; solve_edited
  | unfold daily_edited, edited, Scenario.daily_df_jan2,
      Scenario.daily_df_shift, Scenario.daily_df_sunday,
      Scenario.daily_df_zero, Scenario.daily_df;
    match goal with |- context [daily_rows ?a ?b] =>
      let l := fresh "l" in
      set (l := daily_rows a b); vm_compute in l; subst l end;
    simpl map; solve_edited ].

Lemma scenario_tables :
  session_tables Scenario.mon_sat Scenario.baseline_df
    Scenario.task_progress_df Scenario.weekly_df Scenario.daily_df_jan2.
Proof. solve_tables. Qed.

Lemma scenario_tables_shift :
  session_tables Scenario.mon_sat Scenario.baseline_df
    Scenario.task_progress_df Scenario.weekly_df Scenario.daily_df_shift.
Proof. solve_tables. Qed.

Lemma scenario_tables_sunday :
  session_tables Scenario.mon_sat Scenario.baseline_df
    Scenario.task_progress_df Scenario.weekly_df Scenario.daily_df_sunday.
Proof. solve_tables. Qed.

Lemma scenario_tables_zero :
  session_tables Scenario.mon_sat Scenario.baseline_df
    Scenario.task_progress_df Scenario.weekly_df Scenario.daily_df_zero.
Proof. solve_tables. Qed.

Lemma scenario_tables_default :
  session_tables Scenario.mon_sat Scenario.baseline_df
    Scenario.task_progress_df Scenario.weekly_df Scenario.daily_df.
Proof. solve_tables. Qed.

Lemma scenario_tables_weekly :
  session_tables Scenario.mon_sat Scenario.baseline_df
    Scenario.task_progress_df Scenario.weekly_df_140 Scenario.daily_df.
Proof. solve_tables. Qed.

(** ** Conservation of the adjusted man-days *)

(** C1. Conservation: on the tables of a session (validated baseline with
    unique task codes, progress tables as the editors return them), for
    either report type and whatever the weekly and daily records hold, the
    adjustment succeeds and, for every task whose curve total after Phase A
    is positive, the sum of its final adjusted curve values before the
    display rounding, over every date of its range, equals its Adjusted
    Man-Days, man_days / (Progress% / 100). *)
Theorem conservation_of_adjusted_man_days
    (report_type : ReportType) (selected_weekdays : list Z)
    (baseline_df : list Baseline.row)
    (task_progress_df : list TaskProgress.row)
    (weekly_df : list Weekly.row) (daily_df : list Daily.row)
    (b : Baseline.row) :
  session_tables selected_weekdays baseline_df task_progress_df weekly_df
                 daily_df ->
  In b baseline_df ->
  exists reshaped final p,
    refinement report_type selected_weekdays baseline_df weekly_df daily_df
      (adjusted_rows (merge_adjusted_man_days baseline_df task_progress_df))
    = Ok reshaped /\
    adjusted_curve report_type selected_weekdays baseline_df task_progress_df
      weekly_df daily_df = Ok final /\
    In p task_progress_df /\ progress_of b p /\
    map Curve.Date (Curve.of_task (Baseline.task_code b) final)
    = task_dates b /\
    ((0 < Curve.total (Curve.of_task (Baseline.task_code b) reshaped))%Qc ->
     Curve.total (Curve.of_task (Baseline.task_code b) final)
     = (Baseline.man_days b
        / (TaskProgress.Progress p / Num.hundred))%Qc).
Proof.
  intros tables Hb.
  destruct (merge_has_partner _ _ _ _ _ tables b Hb)
    as (p & Hp & Hrel & Hq & _).
  pose proof (refinement_reshaped report_type _ _ _ _ _ tables) as HA.
  pose proof (adjusted_curve_rescale report_type _ _ _ _ _ tables) as HB.
  eexists. eexists. exists p.
  split; [exact HA|]. split; [exact HB|].
  split; [exact Hp|]. split; [exact Hrel|]. split.
  - rewrite of_task_rescale, rescale_Date.
    rewrite (of_task_reshaped report_type _ _ _ _ _ tables b Hb).
    rewrite rescale_Date. apply expand_row_Date.
  - intros Hpos.
    assert (E : TaskProgress.Adjusted_Man_Days p
                = (Baseline.man_days b
                   / (TaskProgress.Progress p / Num.hundred))%Qc)
      by apply Hrel.
    rewrite <- E.
    apply (total_after_scaling task_progress_df _ _ _ _
             (per_task_scaling_rescale task_progress_df _
                (reshaped_has_target report_type _ _ _ _ _ tables))).
    + apply (reshaped_has_target report_type _ _ _ _ _ tables).
    + exact Hq.
    + exact Hpos.
Qed.

Lemma conservation_of_adjusted_man_days_witness :
  exists final,
    adjusted_curve Daily_Report Scenario.mon_sat Scenario.baseline_df
      Scenario.task_progress_df Scenario.weekly_df Scenario.daily_df_shift
    = Ok final /\
    map Curve.Date (Curve.of_task "BLK" final)
    = task_dates Scenario.blk_baseline /\
    Curve.total (Curve.of_task "BLK" final) = Num.of_Z 1500.
Proof.
  destruct (conservation_of_adjusted_man_days Daily_Report Scenario.mon_sat
              Scenario.baseline_df Scenario.task_progress_df
              Scenario.weekly_df Scenario.daily_df_shift Scenario.blk_baseline
              scenario_tables_shift (or_introl eq_refl))
    as (reshaped & final & p & HA & HB & Hp & _ & Hdates & Hsum).
  exists final. split; [exact HB|]. split; [exact Hdates|].
  destruct Hp as [<-|[]].
  vm_compute in HA. injection HA as <-.
  etransitivity; [apply Hsum; reflexivity | canon].
Defined.

(** ** Section 1: validation and baseline *)

Section Baseline.

Local Open Scope Qc_scope.

Lemma baseline_step_valid row s :
  input_valid row -> Input.rate_per_manday row <> 0 ->
  baseline_step row s
  = (Ok tt,
     with_baseline_results (baseline_results s ++ [baseline_of row]) s).
Proof.
  intros [Hboq Hdates] Hrate. unfold baseline_step.
  replace (Num.leb (Input.BOQ row) 0) with false
    by (symmetry; now apply leb_gt).
  replace (Input.End_Date row <? Input.Start_Date row)%Z with false
    by (symmetry; apply Z.ltb_ge; exact Hdates).
  unfold bind, lift, calculate_baseline, py_div.
  destruct (Qc_eq_dec (Input.rate_per_manday row) 0) as [E|_]; [tauto|].
  destruct (Qc_eq_dec
              (Num.of_Z (Input.End_Date row - Input.Start_Date row + 1)) 0)
    as [E|_].
  - exfalso. revert E. apply of_Z_inj_neq. lia.
  - reflexivity.
Qed.

Lemma baseline_step_invalid row s :
  ~ input_valid row ->
  baseline_step row s = (Stop (validation_error row), s).
Proof.
  intros Hbad. unfold baseline_step, validation_error.
  destruct (Num.leb (Input.BOQ row) 0) eqn:Eb; [reflexivity|].
  apply leb_gt in Eb.
  destruct (Input.End_Date row <? Input.Start_Date row)%Z eqn:Ed;
    [reflexivity|].
  apply Z.ltb_ge in Ed. exfalso. apply Hbad. split; assumption.
Qed.

Lemma validation_error_cases row :
  ~ input_valid row ->
  (Input.BOQ row <= 0
   /\ validation_error row = InvalidInput (Input.task_code row))
  \/ (0 < Input.BOQ row
      /\ (Input.End_Date row < Input.Start_Date row)%Z
      /\ validation_error row = InvalidDateRange (Input.task_code row)).
Proof.
  intros Hbad. unfold validation_error.
  destruct (Num.leb (Input.BOQ row) 0) eqn:Eb.
  - left. split; [now apply leb_le | reflexivity].
  - right. apply leb_gt in Eb. split; [assumption|]. split; [|reflexivity].
    destruct (Z_lt_le_dec (Input.End_Date row) (Input.Start_Date row));
      [assumption|].
    exfalso. apply Hbad. split; assumption.
Qed.

Lemma baseline_loop_valid rows : forall s,
  Forall input_ok rows ->
  baseline_loop rows s
  = (Ok tt,
     with_baseline_results (baseline_results s ++ map baseline_of rows) s).
Proof.
  induction rows as [|row rows IH]; intros s Hall; simpl.
  - rewrite app_nil_r. destruct s; reflexivity.
  - inversion Hall as [|? ? [Hv Hr] Hall']; subst.
    unfold bind at 1. rewrite (baseline_step_valid row s Hv Hr).
    rewrite (IH _ Hall'). simpl. rewrite <- app_assoc. reflexivity.
Qed.

(** The loop stops at the first row that fails a check, with the baselines
    of the rows before it already computed. *)
Lemma baseline_loop_stops pre bad post s :
  Forall input_ok pre -> ~ input_valid bad ->
  baseline_loop (pre ++ bad :: post) s
  = (Stop (validation_error bad),
     with_baseline_results (baseline_results s ++ map baseline_of pre) s).
Proof.
  revert s. induction pre as [|row pre IH]; intros s Hall Hbad; simpl.
  - unfold bind. rewrite (baseline_step_invalid bad s Hbad).
    rewrite app_nil_r. destruct s; reflexivity.
  - inversion Hall as [|? ? [Hv Hr] Hall']; subst.
    unfold bind at 1. rewrite (baseline_step_valid row s Hv Hr).
    rewrite (IH _ Hall' Hbad). simpl. rewrite <- app_assoc. reflexivity.
Qed.

Lemma baseline_of_valid row : input_ok row -> baseline_valid (baseline_of row).
Proof.
  intros [[Hboq Hdates] Hrate]. unfold baseline_valid, baseline_of. simpl.
  repeat split; assumption.
Qed.

Lemma generate_initial_report_stops pre bad post wd ss :
  Forall input_ok pre -> ~ input_valid bad ->
  generate_initial_report (pre ++ bad :: post) wd (fresh_run ss)
  = (Stop (validation_error bad),
     with_baseline_results (map baseline_of pre) (fresh_run ss)).
Proof.
  intros Hall Hbad.
  unfold generate_initial_report, bind, set_baseline_results.
  rewrite (baseline_loop_stops pre bad post _ Hall Hbad). reflexivity.
Qed.

Lemma timeline_rows_single b :
  timeline_rows [b]
  = map (fun d => {| Timeline.date_ := d;
                     Timeline.trade_name := Baseline.trade_name b;
                     Timeline.manpower := Baseline.manpower b |})
        (date_range (Baseline.start_date b) (Baseline.end_date b)).
Proof. unfold timeline_rows. simpl. apply app_nil_r. Qed.

End Baseline.

Lemma generate_initial_report_ok rows wd ss :
  Forall input_ok rows -> rows <> [] ->
  exists s',
    generate_initial_report rows wd (fresh_run ss) = (Ok tt, s') /\
    ss_baseline_df (session_state s') = Some (map baseline_of rows) /\
    ss_working_days (session_state s') = Some wd /\
    timeline_df s' = Some (timeline_rows (map baseline_of rows)) /\
    Forall baseline_valid (map baseline_of rows).
Proof.
  intros Hall Hne.
  unfold generate_initial_report, bind, set_baseline_results.
  rewrite (baseline_loop_valid rows _ Hall). simpl.
  destruct rows as [|row rows]; [congruence|]. simpl.
  eexists. split; [reflexivity|]. simpl.
  repeat split; try reflexivity.
  inversion Hall; subst. constructor.
  - now apply baseline_of_valid.
  - apply Forall_forall. intros b Hb. apply in_map_iff in Hb.
    destruct Hb as (r & <- & Hr). apply baseline_of_valid.
    rewrite Forall_forall in H2. now apply H2.
Qed.

(** C7. Baseline computation: for a task that passes the checks of the
    loop (BOQ > 0, end date not before start date) and whose rate is not
    zero, the appended baseline row has man_days = boq / rate_per_manday,
    duration_days = (end - start) + 1 >= 1 and
    manpower = man_days / duration_days, and the baseline daily curve has
    one point with that manpower for every calendar date of the range,
    working day or not. *)
Theorem baseline_computation (row : Input.row) (s : Script) :
  (0 < Input.BOQ row)%Qc ->
  Input.Start_Date row <= Input.End_Date row ->
  Input.rate_per_manday row <> 0%Qc ->
  exists b,
    baseline_step row s
    = (Ok tt, with_baseline_results (baseline_results s ++ [b]) s) /\
    Baseline.man_days b = (Input.BOQ row / Input.rate_per_manday row)%Qc /\
    Baseline.duration_days b
    = Input.End_Date row - Input.Start_Date row + 1 /\
    1 <= Baseline.duration_days b /\
    Baseline.manpower b
    = (Baseline.man_days b / Num.of_Z (Baseline.duration_days b))%Qc /\
    map Timeline.date_ (timeline_rows [b])
    = date_range (Input.Start_Date row) (Input.End_Date row) /\
    List.length (timeline_rows [b]) = Z.to_nat (Baseline.duration_days b) /\
    (forall d, Input.Start_Date row <= d <= Input.End_Date row ->
       In {| Timeline.date_ := d;
             Timeline.trade_name := Input.trade_name row;
             Timeline.manpower := Baseline.manpower b |}
          (timeline_rows [b])) /\
    (forall r, In r (timeline_rows [b]) ->
       Timeline.manpower r = Baseline.manpower b).
Proof.
  intros Hboq Hdates Hrate. exists (baseline_of row).
  split; [apply baseline_step_valid; [split|]; assumption|].
  rewrite timeline_rows_single. simpl.
  split; [reflexivity|]. split; [reflexivity|]. split; [lia|].
  split; [reflexivity|]. split; [rewrite map_map; apply map_id|].
  split; [now rewrite length_map, date_range_length|]. split.
  - intros d Hd. apply in_map_iff. exists d. split; [reflexivity|].
    now apply date_range_In.
  - intros r Hr. apply in_map_iff in Hr. destruct Hr as (d & <- & _).
    reflexivity.
Qed.

Lemma baseline_computation_witness :
  exists b,
    baseline_step Scenario.blk (fresh_run empty_session)
    = (Ok tt, with_baseline_results [b] (fresh_run empty_session)) /\
    Baseline.man_days b = Num.of_Z 1500 /\
    Baseline.duration_days b = 10 /\
    Baseline.manpower b = Num.of_Z 150 /\
    List.length (timeline_rows [b]) = 10%nat.
Proof.
  destruct (baseline_computation Scenario.blk (fresh_run empty_session))
    as (b & Hstep & Hmd & Hdur & _ & Hmp & _ & Hlen & _).
  - reflexivity.
  - vm_compute. discriminate.
  - discriminate.
  - exists b. split; [exact Hstep|].
    split; [rewrite Hmd; canon|]. split; [exact Hdur|].
    split; [rewrite Hmp, Hmd, Hdur; canon|].
    rewrite Hlen, Hdur. reflexivity.
Defined.

(** C3 fails as stated: a task whose rate_per_manday is negative passes
    the loop, and its baseline table is stored in the session. *)
Lemma negative_rate_is_accepted :
  (Input.rate_per_manday Scenario.shu_negative_rate <= 0)%Qc /\
  exists s',
    generate_initial_report [Scenario.shu_negative_rate] Scenario.mon_sat
      (fresh_run empty_session) = (Ok tt, s') /\
    ss_baseline_df (session_state s')
    = Some [baseline_of Scenario.shu_negative_rate] /\
    Baseline.man_days (baseline_of Scenario.shu_negative_rate)
    = Num.of_Z (-500).
Proof.
  split; [vm_compute; discriminate|].
  destruct (generate_initial_report_ok [Scenario.shu_negative_rate]
              Scenario.mon_sat empty_session) as (s' & Hrun & Hdf & _).
  - constructor; [|constructor]. split; [split|].
    + reflexivity.
    + vm_compute. discriminate.
    + discriminate.
  - discriminate.
  - exists s'. split; [exact Hrun|]. split; [exact Hdf|]. canon.
Qed.

(** C3, amended. Report generation stops at the first task that has
    boq <= 0 or end_date < start_date (every task before it passing the
    checks with a nonzero rate): with InvalidInput naming that task when
    its boq <= 0, otherwise with InvalidDateRange naming it; the session
    state is left as it was and no baseline curve is produced.  The rate is
    not validated. *)
Theorem baseline_validation (pre : list Input.row) (bad : Input.row)
    (post : list Input.row) (selected_weekdays : list Z) (ss : Session) :
  Forall input_ok pre ->
  ~ input_valid bad ->
  exists s',
    generate_initial_report (pre ++ bad :: post) selected_weekdays
      (fresh_run ss) = (Stop (validation_error bad), s') /\
    session_state s' = ss /\
    timeline_df s' = None /\
    (((Input.BOQ bad <= 0)%Qc
      /\ validation_error bad = InvalidInput (Input.task_code bad))
     \/ ((0 < Input.BOQ bad)%Qc
         /\ Input.End_Date bad < Input.Start_Date bad
         /\ validation_error bad = InvalidDateRange (Input.task_code bad))).
Proof.
  intros Hall Hbad. eexists.
  split; [apply generate_initial_report_stops; assumption|].
  split; [reflexivity|]. split; [reflexivity|].
  now apply validation_error_cases.
Qed.

Lemma baseline_validation_witness :
  exists s',
    generate_initial_report [Scenario.blk; Scenario.shu_zero_boq]
      Scenario.mon_sat (fresh_run empty_session)
    = (Stop (InvalidInput "SHU"), s') /\
    session_state s' = empty_session /\
    timeline_df s' = None.
Proof.
  destruct (baseline_validation [Scenario.blk] Scenario.shu_zero_boq []
              Scenario.mon_sat empty_session)
    as (s' & Hrun & Hss & Htl & _).
  - constructor; [|constructor]. split; [split|].
    + reflexivity.
    + vm_compute. discriminate.
    + discriminate.
  - intros [Hboq _]. vm_compute in Hboq. discriminate.
  - exists s'. split; [exact Hrun|]. split; assumption.
Defined.

(** ** Auto-division of the planned progress *)

Section AutoDivision.

Local Open Scope Qc_scope.

Lemma withinb_within tol x y : withinb tol x y = true <-> within tol x y.
Proof.
  unfold withinb, within. rewrite andb_true_iff, !leb_le. reflexivity.
Qed.

Lemma auto_percent_pos n :
  (0 < n)%nat -> auto_percent n = Num.round2 (Num.hundred / Num.of_nat n).
Proof.
  intros H. unfold auto_percent.
  replace (0 <? n)%nat with true by (symmetry; now apply Nat.ltb_lt).
  reflexivity.
Qed.

Lemma of_nat_nonneg n : 0 <= Num.of_nat n.
Proof.
  apply Qcle_Q. unfold Num.of_nat. rewrite this_of_Z. simpl.
  unfold Qle. simpl. lia.
Qed.

(** The auto-divided shares of [n] periods miss 100 by at most [n] half
    hundredths. *)
Lemma auto_percent_sum_bound n :
  (0 < n)%nat ->
  within (Num.of_nat n * half_cent) (Num.of_nat n * auto_percent n)
         Num.hundred.
Proof.
  intros Hn. rewrite (auto_percent_pos n Hn).
  pose proof (of_nat_neq n Hn) as Hne.
  pose proof (of_nat_nonneg n) as Hge.
  set (x := Num.hundred / Num.of_nat n).
  destruct (round2_bound x) as [H1 H2].
  assert (E : Num.hundred = Num.of_nat n * x).
  { unfold x. field. exact Hne. }
  unfold within, half_cent. rewrite E. split.
  - replace (Num.of_nat n * Num.round2 x - Num.of_nat n * x)
      with ((Num.round2 x - x) * Num.of_nat n) by ring.
    rewrite (Qcmult_comm (Num.of_nat n)).
    now apply Qcmult_le_compat_r.
  - replace (Num.of_nat n * x - Num.of_nat n * Num.round2 x)
      with ((x - Num.round2 x) * Num.of_nat n) by ring.
    rewrite (Qcmult_comm (Num.of_nat n)).
    now apply Qcmult_le_compat_r.
Qed.

(** Up to 30 periods the shares sum to 100 within a tenth. *)
Lemma auto_percent_sum_tenth n :
  (0 < n <= 30)%nat ->
  within tenth (Num.of_nat n * auto_percent n) Num.hundred.
Proof.
  intros Hn. apply withinb_within.
  assert (H : forallb
                (fun n => withinb tenth (Num.of_nat n * auto_percent n)
                                  Num.hundred)
                (seq 1 30) = true) by (vm_compute; reflexivity).
  rewrite forallb_forall in H. apply H. apply in_seq. lia.
Qed.

Lemma sum_indicator {A} (f : A -> bool) (p : Qc) (l : list A) :
  Num.sum (map (fun a => if f a then p else 0) l)
  = Num.of_nat (List.length (filter f l)) * p.
Proof.
  induction l as [|a l IH]; simpl.
  - apply Qc_is_canon. reflexivity.
  - rewrite IH. destruct (f a); simpl.
    + rewrite of_nat_S. ring.
    + ring.
Qed.

Lemma sum_const {A} (g : A -> Qc) (p : Qc) (l : list A) :
  (forall a, In a l -> g a = p) ->
  Num.sum (map g l) = Num.of_nat (List.length l) * p.
Proof.
  induction l as [|a l IH]; simpl; intros H.
  - apply Qc_is_canon. reflexivity.
  - rewrite IH by (intros; apply H; now right).
    rewrite (H a) by now left.
    change (Num.of_nat (S (List.length l)) * p)
      with (Num.of_nat (S (List.length l)) * p).
    rewrite of_nat_S. ring.
Qed.

Lemma member_of_working wd dates d :
  In d dates ->
  existsb (Z.eqb d) (working_days_of wd dates) = is_working wd d.
Proof.
  intros Hd. destruct (is_working wd d) eqn:E.
  - apply existsb_eqb_In, working_days_In. tauto.
  - apply not_true_iff_false. rewrite existsb_eqb_In, working_days_In.
    intros [_ H]. congruence.
Qed.

Lemma weekly_rows_of_Progress wd b w :
  In w (weekly_rows_of wd b) ->
  Weekly.Task w = Baseline.task_code b /\
  Weekly.Progress w
  = auto_percent (List.length (group_weeks (task_working_days wd b))).
Proof.
  unfold weekly_rows_of. rewrite in_map_iff.
  intros (kv & <- & _). split; reflexivity.
Qed.

Lemma weekly_rows_of_length wd b :
  List.length (weekly_rows_of wd b)
  = List.length (group_weeks (task_working_days wd b)).
Proof. unfold weekly_rows_of. apply length_map. Qed.

Lemma daily_rows_of_Date wd b :
  map Daily.Date (daily_rows_of wd b) = task_dates b.
Proof. unfold daily_rows_of. rewrite map_map. simpl. apply map_id. Qed.

Lemma daily_rows_of_In wd b d :
  In d (daily_rows_of wd b) ->
  Daily.Task d = Baseline.task_code b /\
  In (Daily.Date d) (task_dates b) /\
  Daily.Progress d
  = if is_working wd (Daily.Date d)
    then auto_percent (List.length (task_working_days wd b)) else 0.
Proof.
  unfold daily_rows_of. rewrite in_map_iff. intros (x & <- & Hx). simpl.
  split; [reflexivity|]. split; [assumption|].
  now rewrite member_of_working.
Qed.

Lemma daily_rows_of_sum wd b :
  Num.sum (map Daily.Progress (daily_rows_of wd b))
  = Num.of_nat (List.length (task_working_days wd b))
    * auto_percent (List.length (task_working_days wd b)).
Proof.
  unfold daily_rows_of. rewrite map_map. simpl.
  transitivity
    (Num.sum (map (fun d => if is_working wd d
                            then auto_percent
                                   (List.length (task_working_days wd b))
                            else 0) (task_dates b))).
  2: { apply (sum_indicator (is_working wd)). }
  f_equal.
  apply map_ext_in. intros d Hd. now rewrite member_of_working.
Qed.

Lemma weekly_rows_of_sum wd b :
  Num.sum (map Weekly.Progress (weekly_rows_of wd b))
  = Num.of_nat (List.length (group_weeks (task_working_days wd b)))
    * auto_percent (List.length (group_weeks (task_working_days wd b))).
Proof.
  rewrite <- weekly_rows_of_length. apply sum_const.
  intros w Hw. rewrite weekly_rows_of_length.
  now apply weekly_rows_of_Progress.
Qed.

End AutoDivision.

(** C8 fails as stated: over the 31 working days of January 2024 the
    default daily share is 3.23 and the shares sum to 100.13. *)
Lemma auto_division_31_days_off_by_more_than_a_tenth :
  let rows := daily_rows_of Scenario31.all_days Scenario31.january in
  List.length (task_working_days Scenario31.all_days Scenario31.january)
  = 31%nat /\
  Forall (fun d => Daily.Progress d = Q2Qc (323 # 100)) rows /\
  Num.sum (map Daily.Progress rows) = Q2Qc (10013 # 100) /\
  ~ within tenth (Num.sum (map Daily.Progress rows)) Num.hundred.
Proof.
  cbv zeta. split; [reflexivity|]. split.
  - apply Forall_forall. intros d Hd.
    apply daily_rows_of_In in Hd. destruct Hd as (_ & Hin & ->).
    replace (is_working Scenario31.all_days (Daily.Date d)) with true.
    + canon.
    + symmetry. unfold is_working. apply existsb_exists.
      exists (weekday (Daily.Date d)). split; [|apply Z.eqb_refl].
      unfold weekday, Scenario31.all_days.
      pose proof (Z.mod_pos_bound (Daily.Date d + 6) 7 ltac:(lia)).
      simpl. lia.
  - split; [canon|].
    intros H. apply withinb_within in H. vm_compute in H. discriminate.
Qed.

(** C8, amended. Auto-division: each weekly bucket's default share is
    100 / (bucket count) rounded to 2 decimals; each working date's default
    daily share is 100 / (working-day count) rounded to 2 decimals and a
    non-working date's is 0; with n >= 1 buckets (resp. working dates) the
    default shares of a task sum to 100 within n half hundredths, and
    within a tenth when n <= 30. *)
Theorem auto_division (selected_weekdays : list Z) (b : Baseline.row) :
  let buckets :=
    List.length (group_weeks (task_working_days selected_weekdays b)) in
  let working := List.length (task_working_days selected_weekdays b) in
  let weekly := weekly_rows_of selected_weekdays b in
  let daily := daily_rows_of selected_weekdays b in
  (List.length weekly = buckets /\
   forall w, In w weekly ->
     Weekly.Progress w
     = Num.round2 (Num.hundred / Num.of_nat buckets)%Qc) /\
  (map Daily.Date daily = task_dates b /\
   forall d, In d daily ->
     Daily.Progress d
     = if is_working selected_weekdays (Daily.Date d)
       then Num.round2 (Num.hundred / Num.of_nat working)%Qc
       else 0%Qc) /\
  ((0 < buckets)%nat ->
   within (Num.of_nat buckets * half_cent)%Qc
          (Num.sum (map Weekly.Progress weekly)) Num.hundred /\
   ((buckets <= 30)%nat ->
    within tenth (Num.sum (map Weekly.Progress weekly)) Num.hundred)) /\
  ((0 < working)%nat ->
   within (Num.of_nat working * half_cent)%Qc
          (Num.sum (map Daily.Progress daily)) Num.hundred /\
   ((working <= 30)%nat ->
    within tenth (Num.sum (map Daily.Progress daily)) Num.hundred)).
Proof.
  cbv zeta. split; [split|split; [split|split]].
  - apply weekly_rows_of_length.
  - intros w Hw. pose proof (weekly_rows_of_Progress _ _ _ Hw) as [_ ->].
    apply auto_percent_pos. rewrite <- weekly_rows_of_length.
    destruct (weekly_rows_of selected_weekdays b); [contradiction|].
    simpl. lia.
  - apply daily_rows_of_Date.
  - intros d Hd. pose proof (daily_rows_of_In _ _ _ Hd) as (_ & Hin & ->).
    destruct (is_working selected_weekdays (Daily.Date d)) eqn:E;
      [|reflexivity].
    apply auto_percent_pos.
    assert (Hw : In (Daily.Date d) (task_working_days selected_weekdays b))
      by (apply working_days_In; tauto).
    destruct (task_working_days selected_weekdays b); [contradiction|].
    simpl. lia.
  - intros Hn. rewrite weekly_rows_of_sum. split.
    + now apply auto_percent_sum_bound.
    + intros Hle. apply auto_percent_sum_tenth. lia.
  - intros Hn. rewrite daily_rows_of_sum. split.
    + now apply auto_percent_sum_bound.
    + intros Hle. apply auto_percent_sum_tenth. lia.
Qed.

Lemma auto_division_witness :
  let weekly := weekly_rows_of Scenario.mon_sat Scenario.blk_baseline in
  let daily := daily_rows_of Scenario.mon_sat Scenario.blk_baseline in
  List.length weekly = 2%nat /\
  Forall (fun w => Weekly.Progress w = Num.of_Z 50) weekly /\
  within tenth (Num.sum (map Weekly.Progress weekly)) Num.hundred /\
  within tenth (Num.sum (map Daily.Progress daily)) Num.hundred.
Proof.
  destruct (auto_division Scenario.mon_sat Scenario.blk_baseline)
    as ((Hlen & Hw) & _ & Hws & Hds).
  cbv zeta. split; [exact Hlen|]. split.
  - apply Forall_forall. intros w Hin. rewrite (Hw w Hin). canon.
  - split.
    + apply Hws; vm_compute; lia.
    + apply Hds; vm_compute; lia.
Defined.

(** ** Weekly buckets *)

(** C2, the code at a failing input.  The buckets are keyed by the ISO week
    number alone: for a task from 2024-01-01 to 2024-12-30 with Monday to
    Saturday working, the first and the last day have ISO week 1 of the ISO
    years 2024 and 2025, and both land in the bucket of key 1; the task
    gets 52 buckets where keys (ISO year, ISO week) give 53, and the weekly
    row of that bucket spans the whole task. *)
Theorem weekly_bucket_merges_iso_years :
  let working :=
    task_working_days Scenario.mon_sat ScenarioYear.long_task in
  let d1 := ScenarioYear.first_day in
  let d2 := ScenarioYear.last_day in
  In d1 working /\ In d2 working /\
  iso_week d1 = iso_week d2 /\
  iso_year d1 = 2024 /\ iso_year d2 = 2025 /\
  (exists bucket,
      In (1, bucket) (group_weeks working) /\
      In d1 (bucket_days bucket) /\ In d2 (bucket_days bucket)) /\
  List.length (group_weeks working) = 52%nat /\
  List.length (BySpec.group_year_weeks working) = 53%nat /\
  In {| Weekly.Task := "BLK"; Weekly.Week_Start := d1;
        Weekly.Week_End := d2; Weekly.Working_Days := 7;
        Weekly.Progress := Q2Qc (192 # 100) |}
     (weekly_rows_of Scenario.mon_sat ScenarioYear.long_task).
Proof.
  cbv zeta.
  split; [vm_compute; tauto|]. split; [vm_compute; tauto|].
  split; [reflexivity|]. split; [reflexivity|]. split; [reflexivity|].
  split.
  - eexists. split; [vm_compute; left; reflexivity|].
    split; vm_compute; tauto.
  - split; [reflexivity|]. split; [reflexivity|].
    vm_compute. left. reflexivity.
Qed.

(** ** Grouped sums *)

Section Groups.

Local Open Scope Qc_scope.

Lemma compare_lt_trans a b c :
  String.compare a b = Lt -> String.compare b c = Lt ->
  String.compare a c = Lt.
Proof.
  intros H1 H2. apply String_as_OT.cmp_lt.
  apply String_as_OT.cmp_lt in H1, H2.
  exact (String_as_OT.lt_trans _ _ _ H1 H2).
Qed.

Lemma compare_lt_neq a b : String.compare a b = Lt -> a <> b.
Proof.
  intros H E. apply String_as_OT.cmp_lt in H.
  exact (String_as_OT.lt_not_eq _ _ H E).
Qed.

Lemma compare_gt_lt a b : String.compare a b = Gt -> String.compare b a = Lt.
Proof.
  intros H. rewrite String.compare_antisym, H. reflexivity.
Qed.

Lemma lookup_cons k s rest t :
  lookup_effective ((k, s) :: rest) t
  = if String.eqb k t then Some s else lookup_effective rest t.
Proof.
  unfold lookup_effective. simpl. destruct (String.eqb k t); reflexivity.
Qed.

Lemma lookup_above k groups :
  Forall (fun kv => String.compare k (fst kv) = Lt) groups ->
  lookup_effective groups k = None.
Proof.
  induction 1 as [|[k' s] rest Hlt _ IH]; [reflexivity|].
  rewrite lookup_cons. simpl in Hlt.
  replace (String.eqb k' k) with false; [exact IH|].
  symmetry. apply String.eqb_neq. intros E.
  exact (compare_lt_neq _ _ Hlt (eq_sym E)).
Qed.

Lemma group_add_keys k v groups kv :
  In kv (group_add k v groups) -> fst kv = k \/ In (fst kv) (map fst groups).
Proof.
  induction groups as [|[k' s] rest IH]; simpl.
  - intros [<-|[]]. now left.
  - destruct (String.compare k k') eqn:C; simpl.
    + intros [<-|H]; simpl; [tauto|]. right. right. now apply in_map.
    + intros [<-|[<-|H]]; simpl; [tauto|tauto|]. right. right.
      now apply in_map.
    + intros [<-|H]; simpl; [tauto|]. destruct (IH H); tauto.
Qed.

Lemma group_add_sorted k v groups :
  sorted_groups groups -> sorted_groups (group_add k v groups).
Proof.
  induction groups as [|[k' s] rest IH]; simpl.
  - intros _. split; [constructor | exact I].
  - intros [Hall Hs]. destruct (String.compare k k') eqn:C; simpl.
    + tauto.
    + split; [|tauto]. constructor; [exact C|].
      apply Forall_forall. intros kv Hkv. rewrite Forall_forall in Hall.
      exact (compare_lt_trans _ _ _ C (Hall kv Hkv)).
    + split; [|now apply IH]. apply Forall_forall. intros kv Hkv.
      destruct (group_add_keys _ _ _ _ Hkv) as [->|Hin].
      * now apply compare_gt_lt.
      * apply in_map_iff in Hin. destruct Hin as (kv' & E & Hin).
        rewrite Forall_forall in Hall. rewrite <- E. now apply Hall.
Qed.

Lemma group_add_lookup k v groups t :
  sorted_groups groups ->
  lookup_effective (group_add k v groups) t
  = add_to_group t (lookup_effective groups t) (k, v).
Proof.
  unfold add_to_group. simpl fst. simpl snd.
  induction groups as [|[k' s] rest IH]; simpl group_add.
  - intros _. rewrite lookup_cons. rewrite (String.eqb_sym k t).
    destruct (String.eqb t k); reflexivity.
  - intros [Hall Hs]. destruct (String.compare k k') eqn:C.
    + apply String.compare_eq_iff in C. subst k'.
      rewrite !lookup_cons, (String.eqb_sym k t).
      destruct (String.eqb t k); reflexivity.
    + rewrite !lookup_cons, (String.eqb_sym k t).
      destruct (String.eqb t k) eqn:E; [|reflexivity].
      apply String.eqb_eq in E. subst t.
      replace (String.eqb k' k) with false.
      * rewrite lookup_above; [reflexivity|].
        apply Forall_forall. intros kv Hkv. rewrite Forall_forall in Hall.
        exact (compare_lt_trans _ _ _ C (Hall kv Hkv)).
      * symmetry. apply String.eqb_neq. intros E.
        exact (compare_lt_neq _ _ C (eq_sym E)).
    + rewrite !lookup_cons, (IH Hs).
      destruct (String.eqb k' t) eqn:E; [|reflexivity].
      apply String.eqb_eq in E. subst t.
      replace (String.eqb k' k) with false; [reflexivity|].
      symmetry. apply String.eqb_neq. intros E.
      apply compare_gt_lt in C. exact (compare_lt_neq _ _ C E).
Qed.

Lemma groupby_fold rows : forall groups,
  sorted_groups groups ->
  sorted_groups
    (fold_left (fun g kv => group_add (fst kv) (snd kv) g) rows groups) /\
  forall t,
    lookup_effective
      (fold_left (fun g kv => group_add (fst kv) (snd kv) g) rows groups) t
    = fold_left (add_to_group t) rows (lookup_effective groups t).
Proof.
  induction rows as [|[k v] rows IH]; intros groups Hs; simpl.
  - split; [assumption | reflexivity].
  - destruct (IH _ (group_add_sorted k v groups Hs)) as [Hs' Hl].
    split; [assumption|]. intros t. rewrite Hl.
    now rewrite (group_add_lookup k v groups t Hs).
Qed.

Lemma add_to_group_some t rows : forall a,
  fold_left (add_to_group t) rows (Some a) = Some (a + task_sum rows t).
Proof.
  unfold task_sum.
  induction rows as [|[k v] rows IH]; intros a; simpl.
  - f_equal. ring.
  - unfold add_to_group at 2. simpl. rewrite (String.eqb_sym k t).
    destruct (String.eqb t k); rewrite IH; simpl; f_equal; ring.
Qed.

Lemma add_to_group_none t rows :
  fold_left (add_to_group t) rows None
  = if mem t (map fst rows) then Some (task_sum rows t) else None.
Proof.
  induction rows as [|[k v] rows IH]; simpl; [reflexivity|].
  unfold add_to_group at 2. simpl. unfold task_sum. simpl.
  rewrite (String.eqb_sym k t).
  destruct (String.eqb t k); simpl.
  - rewrite add_to_group_some. reflexivity.
  - exact IH.
Qed.

(** The group of a task holds the sum of its rows. *)
Lemma groupby_sum_lookup rows t :
  lookup_effective (groupby_sum rows) t
  = if mem t (map fst rows) then Some (task_sum rows t) else None.
Proof.
  unfold groupby_sum.
  destruct (groupby_fold rows [] I) as [_ H]. rewrite H.
  apply add_to_group_none.
Qed.

Lemma groupby_sum_sorted rows : sorted_groups (groupby_sum rows).
Proof. unfold groupby_sum. now apply groupby_fold. Qed.

Lemma sorted_lookup groups t s :
  sorted_groups groups -> In (t, s) groups ->
  lookup_effective groups t = Some s.
Proof.
  induction groups as [|[k' s'] rest IH]; simpl; [tauto|].
  intros [Hall Hs] [E|Hin]; rewrite lookup_cons.
  - injection E as -> ->. now rewrite String.eqb_refl.
  - replace (String.eqb k' t) with false; [now apply IH|].
    symmetry. apply String.eqb_neq. intros ->.
    rewrite Forall_forall in Hall. specialize (Hall _ Hin). simpl in Hall.
    exact (compare_lt_neq _ _ Hall eq_refl).
Qed.

(** Every row of the grouped table is the sum of a key of the table. *)
Lemma groupby_sum_In rows t s :
  In (t, s) (groupby_sum rows) ->
  In t (map fst rows) /\ s = task_sum rows t.
Proof.
  intros Hin.
  pose proof (sorted_lookup _ _ _ (groupby_sum_sorted rows) Hin) as H.
  rewrite groupby_sum_lookup in H.
  destruct (mem t (map fst rows)) eqn:M; [|discriminate].
  apply mem_In in M. injection H as <-. tauto.
Qed.

Lemma lookup_In groups t s :
  lookup_effective groups t = Some s -> In (t, s) groups.
Proof.
  unfold lookup_effective.
  destruct (find (fun kv => String.eqb (fst kv) t) groups) as [[k v]|] eqn:F;
    [|discriminate].
  intros E. injection E as <-. apply find_some in F. destruct F as [Hin E].
  apply String.eqb_eq in E. simpl in E. now subst.
Qed.

End Groups.

(** ** The final report *)

Section FinalReport.

Local Open Scope Qc_scope.

Lemma check_daily_overflow_ok groups s :
  Forall no_overflow groups ->
  check_daily_overflow groups s = (Ok tt, s).
Proof.
  induction 1 as [|[t tot] rest Hle _ IH]; simpl; [reflexivity|].
  simpl in Hle. replace (Num.ltb Num.hundred tot) with false; [exact IH|].
  symmetry. now apply ltb_ge.
Qed.

Lemma check_daily_overflow_stops pre t tot post s :
  Forall no_overflow pre ->
  Num.hundred < tot ->
  check_daily_overflow (pre ++ (t, tot) :: post) s
  = (Stop (ProgressOverflow t tot), s).
Proof.
  intros Hpre Hgt.
  induction Hpre as [|[t' tot'] rest Hle _ IH]; simpl.
  - replace (Num.ltb Num.hundred tot) with true; [reflexivity|].
    symmetry. now apply ltb_lt.
  - simpl in Hle.
    replace (Num.ltb Num.hundred tot') with false; [exact IH|].
    symmetry. now apply ltb_ge.
Qed.

(** Either no group exceeds 100 or there is a first one that does. *)
Lemma first_overflow groups :
  Forall no_overflow groups \/
  exists pre t tot post,
    groups = pre ++ (t, tot) :: post /\
    Forall no_overflow pre /\ Num.hundred < tot.
Proof.
  induction groups as [|[t tot] rest IH]; [left; constructor|].
  destruct (Qclt_le_dec Num.hundred tot) as [Hgt|Hle].
  - right. exists [], t, tot, rest. repeat split; [constructor | assumption].
  - destruct IH as [Hall|(pre & t' & tot' & post & -> & Hpre & Hgt)].
    + left. now constructor.
    + right. exists ((t, tot) :: pre), t', tot', post.
      repeat split; [now constructor | assumption].
Qed.

Lemma check_daily_overflow_inv groups s e s' :
  check_daily_overflow groups s = (Stop e, s') ->
  s' = s /\ exists t tot,
    e = ProgressOverflow t tot /\ In (t, tot) groups /\ Num.hundred < tot.
Proof.
  induction groups as [|[t tot] rest IH]; simpl; [discriminate|].
  destruct (Num.ltb Num.hundred tot) eqn:E.
  - intros H. injection H as <- <-. split; [reflexivity|].
    exists t, tot. apply ltb_lt in E. tauto.
  - intros H. destruct (IH H) as (-> & t' & tot' & -> & Hin & Hgt).
    split; [reflexivity|]. exists t', tot'. tauto.
Qed.

Lemma final_report_ready s report_type wd bdf tp wdf ddf :
  session_tables wd bdf tp wdf ddf ->
  session_state s = final_session report_type wd bdf tp wdf ddf ->
  final_report s
  = effective_progress_and_balance report_type tp wdf ddf
      (with_adjusted_df
         (round_curve (final_curve report_type wd bdf tp wdf ddf)) s).
Proof.
  intros tables Hs. unfold final_report, bind, get. rewrite Hs. simpl.
  unfold lift.
  rewrite (refinement_reshaped report_type _ _ _ _ _ tables).
  unfold set_adjusted_df. simpl.
  rewrite (per_task_scaling_rescale tp _
             (reshaped_has_target report_type _ _ _ _ _ tables)).
  unfold with_adjusted_df, final_curve. simpl. rewrite Hs. reflexivity.
Qed.

End FinalReport.

Section Asymmetry.

Local Open Scope Qc_scope.

Lemma balance_negative (boq e : Qc) :
  0 < boq -> Num.hundred < e -> boq * (1 - e / Num.hundred) < 0.
Proof.
  intros Hb He.
  assert (Hy : 1 - e / Num.hundred < 0).
  { assert (He' : (inject_Z 100 < this e)%Q).
    { unfold Qclt in He. unfold Num.hundred in He.
      now rewrite this_of_Z in He. }
    apply Qclt_Q. rewrite this_minus, this_div. unfold Num.hundred.
    rewrite this_of_Z.
    revert He'. generalize (this e). intros q Hq.
    change (this 1) with 1%Q. change (this 0) with 0%Q.
    unfold Qdiv. change (/ inject_Z 100)%Q with (1 # 100)%Q.
    change (inject_Z 100) with (100 # 1)%Q in Hq. lra. }
  replace 0 with (0 * boq) by ring.
  rewrite (Qcmult_comm boq). now apply Qcmult_lt_compat_r.
Qed.

Lemma sorted_groups_app pre x post :
  sorted_groups (pre ++ x :: post) ->
  Forall (fun kv => String.compare (fst x) (fst kv) = Lt) post.
Proof.
  induction pre as [|[k v] pre IH]; simpl.
  - destruct x. simpl. tauto.
  - intros [_ H]. now apply IH.
Qed.

Lemma merge_effective_fields groups p :
  TaskProgress.task_code (merge_effective groups p)
  = TaskProgress.task_code p /\
  TaskProgress.Effective_Progress (merge_effective groups p)
  = lookup_effective groups (TaskProgress.task_code p) /\
  TaskProgress.Balance_BOQ (merge_effective groups p)
  = match lookup_effective groups (TaskProgress.task_code p) with
    | Some e => Some (TaskProgress.boq p * (1 - e / Num.hundred))
    | None => None
    end.
Proof. repeat split. Qed.

End Asymmetry.

(** C4 fails as stated: the error names one task, not every task over
    100.  With every daily share of BLK and SHU set to 25 both tasks sum to
    250, and the final report stops with ProgressOverflow for BLK alone;
    SHU is never reported. *)
Lemma progress_overflow_names_one_task_only :
  (Num.hundred < daily_total Scenario2.daily_df_25 "BLK")%Qc /\
  (Num.hundred < daily_total Scenario2.daily_df_25 "SHU")%Qc /\
  exists total s',
    final_report
      (fresh_run
         (final_session Daily_Report Scenario.mon_sat Scenario2.baseline_df
            Scenario2.task_progress_df Scenario2.weekly_df
            Scenario2.daily_df_25))
    = (Stop (ProgressOverflow "BLK" total), s') /\
    this total = (250 # 1)%Q.
Proof.
  split; [vm_compute; reflexivity|]. split; [vm_compute; reflexivity|].
  eexists. eexists. split; vm_compute; reflexivity.
Qed.

(** C4, amended. Effective-progress asymmetry, on the tables of a session.
    In Daily Report mode, when some task's daily Progress% values sum to
    more than 100 the final report stops with ProgressOverflow naming one
    task only, with its sum: the first, in increasing order of the task
    codes, of the tasks whose sum exceeds 100; the other tasks over 100 are
    not reported.  In Weekly Report mode the final report succeeds whatever
    the weekly sums are; every task with a weekly record gets
    Effective Progress = the sum of its weekly Progress% and
    Balance BOQ = boq * (1 - effective_progress / 100), which is negative
    when boq > 0 and the sum exceeds 100. *)
Theorem effective_progress_asymmetry (s : Script)
    (selected_weekdays : list Z) (baseline_df : list Baseline.row)
    (task_progress_df : list TaskProgress.row)
    (weekly_df : list Weekly.row) (daily_df : list Daily.row) :
  session_tables selected_weekdays baseline_df task_progress_df weekly_df
                 daily_df ->
  (session_state s
   = final_session Daily_Report selected_weekdays baseline_df
       task_progress_df weekly_df daily_df ->
   (exists task,
      In task (map Daily.Task daily_df) /\
      (Num.hundred < daily_total daily_df task)%Qc) ->
   exists first s',
     final_report s
     = (Stop (ProgressOverflow first (daily_total daily_df first)), s') /\
     In first (map Daily.Task daily_df) /\
     (Num.hundred < daily_total daily_df first)%Qc /\
     forall task,
       In task (map Daily.Task daily_df) ->
       (Num.hundred < daily_total daily_df task)%Qc ->
       task = first \/ String.compare first task = Lt) /\
  (session_state s
   = final_session Weekly_Report selected_weekdays baseline_df
       task_progress_df weekly_df daily_df ->
   exists s',
     final_report s = (Ok tt, s') /\
     final_task_progress_df s'
     = Some (map (merge_effective (weekly_effective_progress weekly_df))
                 task_progress_df) /\
     forall p,
       In p task_progress_df ->
       In (TaskProgress.task_code p) (map Weekly.Task weekly_df) ->
       let p' := merge_effective (weekly_effective_progress weekly_df) p in
       let total := weekly_total weekly_df (TaskProgress.task_code p) in
       TaskProgress.Effective_Progress p' = Some total /\
       TaskProgress.Balance_BOQ p'
       = Some (TaskProgress.boq p * (1 - total / Num.hundred))%Qc /\
       ((0 < TaskProgress.boq p)%Qc -> (Num.hundred < total)%Qc ->
        (TaskProgress.boq p * (1 - total / Num.hundred) < 0)%Qc)).
Proof.
  intros tables. split.
  - intros Hs (task0 & Hin0 & Hgt0).
    rewrite (final_report_ready s Daily_Report _ _ _ _ _ tables Hs).
    unfold effective_progress_and_balance, bind.
    set (s1 := with_adjusted_df _ s).
    set (rows := map (fun d => (Daily.Task d, Daily.Progress d)) daily_df).
    assert (Hkeys : map fst rows = map Daily.Task daily_df).
    { unfold rows. rewrite map_map. reflexivity. }
    assert (Hentry : forall task,
               In task (map Daily.Task daily_df) ->
               In (task, daily_total daily_df task)
                  (daily_effective_progress daily_df)).
    { intros task Hin. apply lookup_In.
      unfold daily_effective_progress. fold rows.
      rewrite groupby_sum_lookup, Hkeys.
      replace (mem task (map Daily.Task daily_df)) with true; [reflexivity|].
      symmetry. now apply mem_In. }
    assert (Hsorted : sorted_groups (daily_effective_progress daily_df))
      by apply groupby_sum_sorted.
    destruct (first_overflow (daily_effective_progress daily_df))
      as [Hall|(pre & t & tot & post & E & Hpre & Htot)].
    + exfalso. rewrite Forall_forall in Hall.
      specialize (Hall _ (Hentry task0 Hin0)).
      unfold no_overflow in Hall. simpl in Hall.
      exact (Qcle_not_lt _ _ Hall Hgt0).
    + assert (Ht : In (t, tot) (daily_effective_progress daily_df)).
      { rewrite E. apply in_or_app. right. now left. }
      apply groupby_sum_In in Ht. destruct Ht as [Hkey Ht].
      fold rows in Hkey. rewrite Hkeys in Hkey.
      fold (daily_total daily_df t) in Ht. subst tot.
      exists t, s1. rewrite E.
      rewrite (check_daily_overflow_stops pre t _ post s1 Hpre Htot).
      split; [reflexivity|]. split; [exact Hkey|].
      split; [assumption|].
      intros task Hin Hgt. pose proof (Hentry task Hin) as Hin'.
      rewrite E in Hin', Hsorted.
      apply in_app_or in Hin'. destruct Hin' as [Hin'|[Heq|Hin']].
      * exfalso. rewrite Forall_forall in Hpre. specialize (Hpre _ Hin').
        unfold no_overflow in Hpre. simpl in Hpre.
        exact (Qcle_not_lt _ _ Hpre Hgt).
      * injection Heq as <-. now left.
      * right. apply sorted_groups_app in Hsorted.
        rewrite Forall_forall in Hsorted. exact (Hsorted _ Hin').
  - intros Hs.
    rewrite (final_report_ready s Weekly_Report _ _ _ _ _ tables Hs).
    unfold effective_progress_and_balance.
    eexists. split; [reflexivity|]. split; [reflexivity|].
    intros p Hp Hin. cbv zeta.
    destruct (merge_effective_fields (weekly_effective_progress weekly_df) p)
      as (_ & -> & ->).
    unfold weekly_effective_progress. rewrite groupby_sum_lookup.
    rewrite map_map. simpl.
    assert (M : mem (TaskProgress.task_code p)
                    (map (fun x => Weekly.Task x) weekly_df) = true)
      by (apply mem_In; exact Hin).
    rewrite M.
    split; [reflexivity|]. split; [reflexivity|].
    apply balance_negative.
Qed.

Lemma effective_progress_asymmetry_witness :
  (exists s',
     final_report
       (fresh_run (final_session Daily_Report Scenario.mon_sat
                     Scenario.baseline_df Scenario.task_progress_df
                     Scenario.weekly_df Scenario.daily_df_jan2))
     = (Stop (ProgressOverflow "BLK" (Q2Qc (11088 # 100))), s')) /\
  (exists s',
     final_report
       (fresh_run (final_session Weekly_Report Scenario.mon_sat
                     Scenario.baseline_df Scenario.task_progress_df
                     Scenario.weekly_df_140 Scenario.daily_df))
     = (Ok tt, s') /\
     option_map
       (map (fun p => option_map this (TaskProgress.Balance_BOQ p)))
       (final_task_progress_df s')
     = Some [Some (-4800 # 1)%Q]).
Proof.
  split.
  - destruct (effective_progress_asymmetry
                (fresh_run (final_session Daily_Report Scenario.mon_sat
                              Scenario.baseline_df Scenario.task_progress_df
                              Scenario.weekly_df Scenario.daily_df_jan2))
                _ _ _ _ _ scenario_tables) as [Hdaily _].
    destruct (Hdaily eq_refl) as (first & s' & Hrun & _).
    + exists "BLK"%string. split; [vm_compute; tauto|].
      vm_compute. reflexivity.
    + exists s'. rewrite Hrun. f_equal. f_equal.
      assert (E : first = "BLK"%string).
      { apply (f_equal fst) in Hrun. vm_compute in Hrun.
        injection Hrun as E _. symmetry. exact E. }
      subst first. f_equal. canon.
  - destruct (effective_progress_asymmetry
                (fresh_run (final_session Weekly_Report Scenario.mon_sat
                              Scenario.baseline_df Scenario.task_progress_df
                              Scenario.weekly_df_140 Scenario.daily_df))
                _ _ _ _ _ scenario_tables_weekly) as [_ Hweekly].
    destruct (Hweekly eq_refl) as (s' & Hrun & Htp & _).
    exists s'. split; [exact Hrun|]. rewrite Htp.
    vm_compute. reflexivity.
Defined.

(** ** Where the errors are detected *)

Lemma final_report_stop_inv s report_type wd bdf tp wdf ddf e s' :
  session_tables wd bdf tp wdf ddf ->
  session_state s = final_session report_type wd bdf tp wdf ddf ->
  final_report s = (Stop e, s') ->
  report_type = Daily_Report /\
  s' = with_adjusted_df
         (round_curve (final_curve report_type wd bdf tp wdf ddf)) s /\
  exists task,
    e = ProgressOverflow task (daily_total ddf task) /\
    (Num.hundred < daily_total ddf task)%Qc.
Proof.
  intros tables Hs Hrun.
  rewrite (final_report_ready s report_type _ _ _ _ _ tables Hs) in Hrun.
  destruct report_type; [|discriminate].
  split; [reflexivity|].
  unfold effective_progress_and_balance, bind in Hrun.
  destruct (check_daily_overflow (daily_effective_progress ddf) _)
    as [[[]|e1] s1] eqn:C; [discriminate|].
  injection Hrun as <- <-.
  apply check_daily_overflow_inv in C.
  destruct C as (-> & task & tot & -> & Hin & Hgt).
  split; [reflexivity|]. exists task.
  apply groupby_sum_In in Hin. destruct Hin as [_ ->].
  split; [reflexivity | exact Hgt].
Qed.

(** C5 fails as stated: when the final report stops with ProgressOverflow,
    the adjusted curve (Phase A, Phase B and the rounding) has already been
    computed and assigned. *)
Lemma progress_overflow_detected_after_curve_computation :
  let s :=
    fresh_run (final_session Daily_Report Scenario.mon_sat
                 Scenario.baseline_df Scenario.task_progress_df
                 Scenario.weekly_df Scenario.daily_df_jan2) in
  exists total s' curve,
    final_report s = (Stop (ProgressOverflow "BLK" total), s') /\
    adjusted_df s = None /\
    adjusted_curve Daily_Report Scenario.mon_sat Scenario.baseline_df
      Scenario.task_progress_df Scenario.weekly_df Scenario.daily_df_jan2
    = Ok curve /\
    adjusted_df s' = Some (round_curve curve) /\
    List.length curve = 10%nat.
Proof.
  cbv zeta. eexists. eexists. eexists.
  split; [vm_compute; reflexivity|]. split; [reflexivity|].
  split; [vm_compute; reflexivity|]. split; reflexivity.
Qed.

(** C5, amended.  InvalidInput (raised for boq <= 0 only) and
    InvalidDateRange are detected row by row: the run stops at the first
    offending row with the baselines of the rows before it already
    computed, and the session state unchanged.  ProgressOverflow is raised
    in Daily Report mode only, and only after the adjusted curve has been
    computed, rescaled and rounded; when the final report stops with it,
    the session state is as before and no final task summary is
    assigned. *)
Theorem errors_abort_without_committing :
  (forall pre bad post selected_weekdays ss,
     Forall input_ok pre -> ~ input_valid bad ->
     exists s',
       generate_initial_report (pre ++ bad :: post) selected_weekdays
         (fresh_run ss) = (Stop (validation_error bad), s') /\
       baseline_results s' = map baseline_of pre /\
       session_state s' = ss /\ timeline_df s' = None) /\
  (forall s report_type selected_weekdays baseline_df task_progress_df
          weekly_df daily_df task total s',
     session_tables selected_weekdays baseline_df task_progress_df
       weekly_df daily_df ->
     session_state s
     = final_session report_type selected_weekdays baseline_df
         task_progress_df weekly_df daily_df ->
     final_report s = (Stop (ProgressOverflow task total), s') ->
     report_type = Daily_Report /\
     total = daily_total daily_df task /\
     (Num.hundred < total)%Qc /\
     adjusted_curve report_type selected_weekdays baseline_df
       task_progress_df weekly_df daily_df
     = Ok (final_curve report_type selected_weekdays baseline_df
             task_progress_df weekly_df daily_df) /\
     adjusted_df s'
     = Some (round_curve
               (final_curve report_type selected_weekdays baseline_df
                  task_progress_df weekly_df daily_df)) /\
     session_state s' = session_state s /\
     final_task_progress_df s' = final_task_progress_df s).
Proof.
  split.
  - intros pre bad post wd ss Hall Hbad. eexists.
    split; [apply generate_initial_report_stops; assumption|].
    repeat split.
  - intros s rt wd bdf tp wdf ddf task total s' tables Hs Hrun.
    destruct (final_report_stop_inv _ _ _ _ _ _ _ _ _ tables Hs Hrun)
      as (Hrt & -> & task' & E & Hgt).
    injection E as -> ->.
    split; [exact Hrt|]. split; [reflexivity|]. split; [exact Hgt|].
    split; [apply (adjusted_curve_rescale rt _ _ _ _ _ tables)|].
    repeat split.
Qed.

Lemma errors_abort_without_committing_witness :
  (exists s',
     generate_initial_report [Scenario.blk; Scenario.shu_zero_boq]
       Scenario.mon_sat (fresh_run empty_session)
     = (Stop (InvalidInput "SHU"), s') /\
     baseline_results s' = [baseline_of Scenario.blk] /\
     session_state s' = empty_session) /\
  (exists total s' curve,
     final_report
       (fresh_run (final_session Daily_Report Scenario.mon_sat
                     Scenario.baseline_df Scenario.task_progress_df
                     Scenario.weekly_df Scenario.daily_df_jan2))
     = (Stop (ProgressOverflow "BLK" total), s') /\
     adjusted_df s' = Some (round_curve curve) /\
     ss_baseline_df (session_state s') = Some Scenario.baseline_df /\
     final_task_progress_df s' = None).
Proof.
  destruct errors_abort_without_committing as [Hinitial Hfinal]. split.
  - destruct (Hinitial [Scenario.blk] Scenario.shu_zero_boq []
                Scenario.mon_sat empty_session)
      as (s' & Hrun & Hres & Hss & _).
    + constructor; [|constructor]. split; [split|].
      * reflexivity.
      * vm_compute. discriminate.
      * discriminate.
    + intros [Hboq _]. vm_compute in Hboq. discriminate.
    + exists s'. split; [exact Hrun|]. split; assumption.
  - assert (Hrun : exists total s',
               final_report
                 (fresh_run
                    (final_session Daily_Report Scenario.mon_sat
                       Scenario.baseline_df Scenario.task_progress_df
                       Scenario.weekly_df Scenario.daily_df_jan2))
               = (Stop (ProgressOverflow "BLK" total), s'))
      by (eexists; eexists; vm_compute; reflexivity).
    destruct Hrun as (total & s' & Hrun).
    destruct (Hfinal
                (fresh_run
                   (final_session Daily_Report Scenario.mon_sat
                      Scenario.baseline_df Scenario.task_progress_df
                      Scenario.weekly_df Scenario.daily_df_jan2))
                Daily_Report Scenario.mon_sat Scenario.baseline_df
                Scenario.task_progress_df Scenario.weekly_df
                Scenario.daily_df_jan2 "BLK"%string total s'
                scenario_tables eq_refl Hrun)
      as (_ & _ & _ & _ & Hadj & Hss & Hfin).
    exists total, s'. eexists. split; [exact Hrun|].
    split; [exact Hadj|]. rewrite Hss, Hfin. split; reflexivity.
Defined.

(** ** Phase A under a change of the actual shares *)

Section PhaseAScaled.

Local Open Scope Qc_scope.

Context {R : Type}.
Variable plan : R -> outcome Qc.
Variable mask : R -> Curve.row -> bool.
Variable actual : R -> Qc.

Local Abbreviation factor := (Refine.factor plan mask actual).
Local Abbreviation multiplier := (Refine.multiplier plan mask actual).
Local Abbreviation touches := (Refine.touches plan mask).
Local Abbreviation coverage := (Refine.coverage plan mask).

Lemma multiplier_app l1 l2 r :
  multiplier (l1 ++ l2) r = multiplier l1 r * multiplier l2 r.
Proof.
  induction l1 as [|x l1 IH]; simpl; [ring|]. rewrite IH. ring.
Qed.

Lemma factor_untouched x r : touches x r = false -> factor x r = 1.
Proof.
  unfold Refine.touches, Refine.factor.
  destruct (plan x); [|reflexivity]. now intros ->.
Qed.

(** A row that exactly one record rescales gets that record's factor. *)
Lemma multiplier_single pre x post r :
  (forall y, In y (pre ++ post) -> touches y r = false) ->
  multiplier (pre ++ x :: post) r = factor x r.
Proof.
  intros H. rewrite multiplier_app. simpl.
  rewrite !multiplier_one.
  - ring.
  - intros y Hy. apply factor_untouched, H, in_or_app. now right.
  - intros y Hy. apply factor_untouched, H, in_or_app. now left.
Qed.

Lemma multiplier_untouched rows r :
  (forall y, In y rows -> touches y r = false) -> multiplier rows r = 1.
Proof.
  intros H. apply multiplier_one. intros y Hy. now apply factor_untouched, H.
Qed.


(** Records with a different actual share but the same plan and mask. *)
Variable R' : Type.
Variable plan' : R' -> outcome Qc.
Variable mask' : R' -> Curve.row -> bool.
Variable actual' : R' -> Qc.
Variable c : Qc.


End PhaseAScaled.

(** ** Phase B cancels a uniform rescaling of a task *)

Section Cancel.

Local Open Scope Qc_scope.

Variable task_progress_df : list TaskProgress.row.


End Cancel.






Section ScaledMultipliers.

Local Open Scope Qc_scope.

Variable wd : list Z.
Variable bdf : list Baseline.row.
Variable c : Qc.
Variable task : string.



End ScaledMultipliers.

(** ** The keys of the daily table and of the curve *)

Lemma session_keys_NoDup bdf :
  NoDup (map Baseline.task_code bdf) -> NoDup (session_keys bdf).
Proof.
  unfold session_keys. induction bdf as [|b bdf IH]; simpl.
  - constructor.
  - intros Hnd. inversion Hnd as [|? ? Hnot Hnd']; subst.
    apply NoDup_app.
    + apply Injective_map_NoDup.
      * intros x y E. now injection E.
      * apply date_range_NoDup.
    + now apply IH.
    + intros [t d] H1 H2.
      apply in_map_iff in H1. destruct H1 as (d' & E & _).
      injection E as <- <-.
      apply in_flat_map in H2. destruct H2 as (b' & Hb' & H2).
      apply in_map_iff in H2. destruct H2 as (d'' & E & _).
      injection E as E _. apply Hnot. rewrite <- E. now apply in_map.
Qed.

Lemma daily_rows_keys wd bdf :
  map daily_key (daily_rows wd bdf) = session_keys bdf.
Proof.
  unfold daily_rows, session_keys.
  induction bdf as [|b bdf IH]; simpl; [reflexivity|].
  rewrite map_app, IH. f_equal.
  unfold daily_rows_of. rewrite map_map. reflexivity.
Qed.

Lemma daily_edited_keys shown returned :
  daily_edited shown returned ->
  map daily_key returned = map daily_key shown.
Proof.
  intros H. apply (Forall2_map_eq _ _ _ _ _ H).
  intros x y (p & _ & _ & ->). reflexivity.
Qed.

Lemma uniform_curve_keys tp b :
  map Curve.key (uniform_curve tp b)
  = map (pair (Baseline.task_code b)) (task_dates b).
Proof.
  unfold uniform_curve, expand_row. rewrite map_map. reflexivity.
Qed.

Lemma session_keys_In bdf b d :
  In b bdf -> In d (task_dates b) ->
  In (Baseline.task_code b, d) (session_keys bdf).
Proof.
  intros Hb Hd. unfold session_keys. apply in_flat_map.
  exists b. split; [assumption|]. now apply in_map.
Qed.

(** In a table with distinct keys exactly one row has a given key. *)
Lemma filter_key_single {A K} (key : A -> K) (f : A -> bool) (k : K) l :
  NoDup (map key l) -> In k (map key l) ->
  (forall x, f x = true <-> key x = k) ->
  exists pre x post,
    l = pre ++ x :: post /\ key x = k /\
    (forall y, In y (pre ++ post) -> f y = false).
Proof.
  intros Hnd Hin Hf. apply in_map_iff in Hin.
  destruct Hin as (x & Hk & Hx).
  destruct (in_split _ _ Hx) as (pre & post & ->).
  exists pre, x, post. split; [reflexivity|]. split; [assumption|].
  intros y Hy. apply not_true_iff_false. rewrite Hf. intros E.
  rewrite map_app in Hnd. simpl in Hnd.
  apply NoDup_remove_2 in Hnd. apply Hnd.
  rewrite <- map_app, Hk, <- E. now apply in_map.
Qed.

Lemma daily_mask_key x r :
  daily_mask x r = true <-> daily_key x = Curve.key r.
Proof.
  unfold daily_mask, daily_key, Curve.key.
  rewrite andb_true_iff, String.eqb_eq, Z.eqb_eq.
  split; [intros [-> ->]; reflexivity | intros E; now injection E].
Qed.

Section DailyStructure.

Local Open Scope Qc_scope.

Variable wd : list Z.
Variable bdf : list Baseline.row.
Variable tp : list TaskProgress.row.
Variable wdf : list Weekly.row.
Variable ddf : list Daily.row.
Hypothesis tables : session_tables wd bdf tp wdf ddf.

Lemma daily_df_keys : map daily_key ddf = session_keys bdf.
Proof.
  rewrite (daily_edited_keys _ _ (st_daily _ _ _ _ _ tables)).
  apply daily_rows_keys.
Qed.

Lemma daily_plan_of_task b x :
  In b bdf -> Daily.Task x = Baseline.task_code b ->
  daily_plan wd bdf x = Ok (planned_daily wd b).
Proof.
  intros Hb E. unfold daily_plan. rewrite E.
  now rewrite (task_row_of_unique _ _ (st_unique _ _ _ _ _ tables) Hb).
Qed.

(** The one daily record of a curve row of a session. *)
Lemma daily_record_of_row b r :
  In b bdf -> In r (uniform_curve tp b) ->
  exists pre x post,
    ddf = pre ++ x :: post /\
    Daily.Task x = Baseline.task_code b /\
    Daily.Date x = Curve.Date r /\
    In (Daily.Date x) (task_dates b) /\
    (forall y, In y (pre ++ post) -> daily_mask y r = false).
Proof.
  intros Hb Hr.
  assert (Hkey : In (Curve.key r)
                    (map (pair (Baseline.task_code b)) (task_dates b))).
  { rewrite <- (uniform_curve_keys tp). now apply in_map. }
  apply in_map_iff in Hkey. destruct Hkey as (d & Hd & Hin).
  destruct (filter_key_single daily_key (fun x => daily_mask x r)
              (Curve.key r) ddf) as (pre & x & post & E & Hk & Hothers).
  - rewrite daily_df_keys.
    apply session_keys_NoDup, (st_unique _ _ _ _ _ tables).
  - rewrite daily_df_keys, <- Hd. now apply session_keys_In.
  - intros x. apply daily_mask_key.
  - exists pre, x, post. split; [exact E|].
    rewrite <- Hd in Hk. unfold daily_key in Hk.
    injection Hk as Ht Hdate.
    unfold Curve.key in Hd. injection Hd as _ Hd2.
    split; [exact Ht|]. split; [congruence|].
    split; [now rewrite Hdate | exact Hothers].
Qed.

Lemma touches_false_of_mask (y : Daily.row) r :
  daily_mask y r = false ->
  Refine.touches (daily_plan wd bdf) daily_mask y r = false.
Proof.
  intros H. unfold Refine.touches. rewrite H.
  destruct (daily_plan wd bdf y); [apply andb_false_r | reflexivity].
Qed.

(** The daily multiplier of a curve row is the factor of its record. *)
Lemma daily_multiplier_of_row b r :
  In b bdf -> In r (uniform_curve tp b) ->
  exists x,
    In x ddf /\ Daily.Task x = Baseline.task_code b /\
    Daily.Date x = Curve.Date r /\
    daily_multiplier wd bdf ddf r
    = (if Num.ltb 0 (planned_daily wd b)
       then Daily.Progress x / planned_daily wd b else 1) /\
    Refine.coverage (daily_plan wd bdf) daily_mask ddf r
    = (if Num.ltb 0 (planned_daily wd b) then 1 else 0)%nat.
Proof.
  intros Hb Hr.
  destruct (daily_record_of_row b r Hb Hr)
    as (pre & x & post & E & Ht & Hd & _ & Hothers).
  assert (Hmask : daily_mask x r = true).
  { apply daily_mask_key. unfold daily_key, Curve.key.
    rewrite Ht, Hd. f_equal. symmetry. now apply (uniform_curve_Task tp b). }
  exists x. split; [rewrite E; apply in_or_app; right; now left|].
  split; [exact Ht|]. split; [exact Hd|]. split.
  - unfold daily_multiplier. rewrite E.
    rewrite multiplier_single.
    + unfold Refine.factor. rewrite (daily_plan_of_task b x Hb Ht), Hmask.
      now rewrite andb_true_r.
    + intros y Hy. now apply touches_false_of_mask, Hothers.
  - unfold Refine.coverage. rewrite E, filter_app. simpl.
    rewrite !filter_none.
    + unfold Refine.touches at 1.
      rewrite (daily_plan_of_task b x Hb Ht), Hmask, andb_true_r.
      destruct (Num.ltb 0 (planned_daily wd b)); reflexivity.
    + intros y Hy. apply touches_false_of_mask, Hothers, in_or_app.
      now right.
    + intros y Hy. apply touches_false_of_mask, Hothers, in_or_app.
      now left.
Qed.

End DailyStructure.

(** ** Daily mode: a zero share gives zero manpower *)

Section ZeroShare.

Local Open Scope Qc_scope.

Lemma planned_percent_pos n : (0 < n)%nat -> 0 < planned_percent n.
Proof.
  intros Hn. unfold planned_percent.
  replace (0 <? n)%nat with true by (symmetry; now apply Nat.ltb_lt).
  apply Qcdiv_pos; [apply hundred_pos | now apply of_nat_pos].
Qed.

Lemma planned_daily_pos wd b :
  task_working_days wd b <> [] -> 0 < planned_daily wd b.
Proof.
  intros H. apply planned_percent_pos.
  destruct (task_working_days wd b); [congruence | simpl; lia].
Qed.

Lemma Qcdiv_neq (x y : Qc) : x <> 0 -> y <> 0 -> x / y <> 0.
Proof.
  intros Hx Hy E. unfold Qcdiv in E.
  destruct (Qcmult_integral _ _ E) as [H|H]; [tauto|].
  apply Hy. rewrite <- (Qcmult_1_r y), <- (Qcmult_inv_l y Hy).
  rewrite H. ring.
Qed.

Lemma Qcdiv_zero_l (y : Qc) : 0 / y = 0.
Proof. unfold Qcdiv. ring. Qed.

Lemma total_nonzero rows :
  Curve.total rows <> 0 -> exists r, In r rows /\ Curve.Manpower r <> 0.
Proof.
  unfold Curve.total. induction rows as [|r rows IH]; simpl.
  - intros H. now contradiction H.
  - intros H. destruct (Qc_eq_dec (Curve.Manpower r) 0) as [E|N].
    + rewrite E, Qcplus_0_l in H. destruct (IH H) as (r' & Hin & Hr').
      exists r'. tauto.
    + exists r. tauto.
Qed.

Lemma task_code_inj bdf b b' :
  NoDup (map Baseline.task_code bdf) -> In b bdf -> In b' bdf ->
  Baseline.task_code b = Baseline.task_code b' -> b = b'.
Proof.
  intros Hnd Hb Hb' E.
  pose proof (find_unique Baseline.task_code bdf b Hnd Hb) as F.
  pose proof (find_unique Baseline.task_code bdf b' Hnd Hb') as F'.
  rewrite E in F. congruence.
Qed.

(** The adjusted man-days of a validated task are not zero. *)
Lemma target_nonzero b p :
  baseline_valid b -> progress_of b p ->
  TaskProgress.Adjusted_Man_Days p <> 0.
Proof.
  intros (Hboq & Hrate & _ & Hmd & _) (_ & _ & _ & _ & Hlo & _ & ->).
  apply Qcdiv_neq.
  - rewrite Hmd. apply Qcdiv_neq; [now apply Qcpos_neq | exact Hrate].
  - apply Qcdiv_neq; [|apply hundred_neq].
    apply Qcpos_neq. apply Qclt_le_trans with 1; [reflexivity | exact Hlo].
Qed.

End ZeroShare.

(** C9 fails as stated.  The daily editor also accepts a share for a
    non-working date: with the share of Monday moved to Sunday, January
    7th, the final curve is not 0 on that Sunday.  And with every share set
    to 0 the final curve is 0 on every date, uniform although the range
    contains a non-working date. *)
Lemma non_working_date_not_always_zero :
  is_working Scenario.mon_sat (Scenario.jan 7) = false /\
  In (Scenario.jan 7)
     (task_dates Scenario.blk_baseline) /\
  task_working_days Scenario.mon_sat Scenario.blk_baseline <> [] /\
  daily_edited (daily_rows Scenario.mon_sat Scenario.baseline_df)
               Scenario.daily_df_sunday /\
  (exists final r,
     adjusted_curve Daily_Report Scenario.mon_sat Scenario.baseline_df
       Scenario.task_progress_df Scenario.weekly_df Scenario.daily_df_sunday
     = Ok final /\
     In r final /\ Curve.Date r = Scenario.jan 7 /\
     Curve.Manpower r <> 0%Qc) /\
  daily_edited (daily_rows Scenario.mon_sat Scenario.baseline_df)
               Scenario.daily_df_zero /\
  (exists final,
     adjusted_curve Daily_Report Scenario.mon_sat Scenario.baseline_df
       Scenario.task_progress_df Scenario.weekly_df Scenario.daily_df_zero
     = Ok final /\
     List.length final = 10%nat /\
     Forall (fun r => Curve.Manpower r = 0%Qc) final).
Proof.
  split; [reflexivity|]. split; [vm_compute; tauto|].
  split; [vm_compute; discriminate|].
  split; [apply (st_daily _ _ _ _ _ scenario_tables_sunday)|]. split.
  - eexists. eexists. split; [vm_compute; reflexivity|].
    split; [do 6 right; left; reflexivity|]. split; [reflexivity|].
    intros E. apply Qceq_Q in E. vm_compute in E. discriminate.
  - split; [apply (st_daily _ _ _ _ _ scenario_tables_zero)|].
    eexists. split; [vm_compute; reflexivity|]. split; [reflexivity|].
    repeat constructor.
Qed.

(** C9, amended.  In Daily Report mode, on the tables of a session, for
    every task with at least one working date: every date of the task has
    a daily record; a date whose record holds 0 (the default of a
    non-working date, which the editor however leaves editable) ends with
    final adjusted curve value 0; and when the task has such a date and its
    curve total after Phase A is positive, the final curve is not
    uniform. *)
Theorem daily_zero_share_gives_zero_manpower
    (selected_weekdays : list Z) (baseline_df : list Baseline.row)
    (task_progress_df : list TaskProgress.row)
    (weekly_df : list Weekly.row) (daily_df : list Daily.row)
    (b : Baseline.row) :
  session_tables selected_weekdays baseline_df task_progress_df weekly_df
                 daily_df ->
  In b baseline_df ->
  task_working_days selected_weekdays b <> [] ->
  exists reshaped final,
    refinement Daily_Report selected_weekdays baseline_df weekly_df daily_df
      (adjusted_rows (merge_adjusted_man_days baseline_df task_progress_df))
    = Ok reshaped /\
    adjusted_curve Daily_Report selected_weekdays baseline_df
      task_progress_df weekly_df daily_df = Ok final /\
    map Curve.Date (Curve.of_task (Baseline.task_code b) final)
    = task_dates b /\
    (forall d, In d (task_dates b) ->
       exists x, In x daily_df /\ Daily.Task x = Baseline.task_code b /\
                 Daily.Date x = d) /\
    (forall x, In x daily_df ->
       Daily.Task x = Baseline.task_code b ->
       Daily.Progress x = 0%Qc ->
       In (Daily.Date x) (task_dates b) /\
       forall r, In r final ->
         Curve.Task r = Baseline.task_code b ->
         Curve.Date r = Daily.Date x ->
         Curve.Manpower r = 0%Qc) /\
    (forall x, In x daily_df ->
       Daily.Task x = Baseline.task_code b ->
       Daily.Progress x = 0%Qc ->
       (0 < Curve.total (Curve.of_task (Baseline.task_code b) reshaped))%Qc ->
       exists r1 r2,
         In r1 (Curve.of_task (Baseline.task_code b) final) /\
         In r2 (Curve.of_task (Baseline.task_code b) final) /\
         Curve.Manpower r1 <> Curve.Manpower r2).
Proof.
  intros tables Hb Hworking.
  pose proof (refinement_reshaped Daily_Report _ _ _ _ _ tables) as HA.
  pose proof (adjusted_curve_rescale Daily_Report _ _ _ _ _ tables) as HB.
  set (reshaped := reshaped_curve Daily_Report selected_weekdays baseline_df
                     task_progress_df weekly_df daily_df) in *.
  set (final := Curve.rescale _ reshaped) in *.
  assert (Hdates : map Curve.Date (Curve.of_task (Baseline.task_code b) final)
                   = task_dates b).
  { unfold final. rewrite of_task_rescale, rescale_Date.
    unfold reshaped.
    rewrite (of_task_reshaped Daily_Report _ _ _ _ _ tables b Hb).
    rewrite rescale_Date. apply expand_row_Date. }
  assert (Hrecord : forall x, In x daily_df ->
            Daily.Task x = Baseline.task_code b ->
            In (Daily.Date x) (task_dates b)).
  { intros x Hx Ht.
    assert (Hk : In (daily_key x) (session_keys baseline_df)).
    { rewrite <- (daily_df_keys _ _ _ _ _ tables). now apply in_map. }
    unfold session_keys in Hk. apply in_flat_map in Hk.
    destruct Hk as (b' & Hb' & Hk). apply in_map_iff in Hk.
    destruct Hk as (d & E & Hd). unfold daily_key in E.
    injection E as E1 E2. rewrite Ht in E1.
    rewrite <- (task_code_inj _ _ _ (st_unique _ _ _ _ _ tables)
                  Hb' Hb E1).
    now rewrite <- E2. }
  assert (Hzero : forall x, In x daily_df ->
            Daily.Task x = Baseline.task_code b ->
            Daily.Progress x = 0%Qc ->
            forall r, In r final ->
              Curve.Task r = Baseline.task_code b ->
              Curve.Date r = Daily.Date x ->
              Curve.Manpower r = 0%Qc).
  { intros x Hx Ht Hp r Hr Hrt Hrd.
    unfold final, Curve.rescale in Hr. apply in_map_iff in Hr.
    destruct Hr as (r1 & <- & Hr1).
    unfold reshaped, reshaped_curve, Curve.rescale in Hr1.
    apply in_map_iff in Hr1. destruct Hr1 as (r0 & <- & Hr0).
    unfold Curve.scale in Hrt, Hrd |- *.
    cbn [Curve.Manpower Curve.Task Curve.Date] in Hrt, Hrd |- *.
    assert (Hm : refinement_multiplier Daily_Report selected_weekdays
                   baseline_df weekly_df daily_df r0 = 0%Qc).
    { simpl. unfold daily_multiplier.
      apply (multiplier_zero _ _ _ _ x); [exact Hx|].
      unfold Refine.factor.
      rewrite (daily_plan_of_task _ _ _ _ _ tables b x Hb Ht).
      replace (Num.ltb 0 (planned_daily selected_weekdays b)) with true
        by (symmetry; apply ltb_lt; now apply planned_daily_pos).
      replace (daily_mask x r0) with true.
      - simpl. rewrite Hp. apply Qcdiv_zero_l.
      - symmetry. unfold daily_mask.
        rewrite Hrt, Ht, Hrd, String.eqb_refl, Z.eqb_refl. reflexivity. }
    rewrite Hm. ring. }
  exists reshaped, final.
  split; [exact HA|]. split; [exact HB|]. split; [exact Hdates|]. split.
  - intros d Hd.
    assert (Hk : In (Baseline.task_code b, d) (map daily_key daily_df)).
    { rewrite (daily_df_keys _ _ _ _ _ tables). now apply session_keys_In. }
    apply in_map_iff in Hk. destruct Hk as (x & E & Hx).
    unfold daily_key in E. injection E as E1 E2. exists x. tauto.
  - split.
    + intros x Hx Ht Hp. split; [now apply Hrecord | now apply Hzero].
    + intros x Hx Ht Hp Hpos.
      destruct (merge_has_partner _ _ _ _ _ tables b Hb)
        as (p & Hp' & Hrel & Hq & _).
      assert (Htotal : Curve.total
                         (Curve.of_task (Baseline.task_code b) final)
                       = TaskProgress.Adjusted_Man_Days p).
      { apply (total_after_scaling task_progress_df reshaped).
        - apply per_task_scaling_rescale.
          apply (reshaped_has_target Daily_Report _ _ _ _ _ tables).
        - apply (reshaped_has_target Daily_Report _ _ _ _ _ tables).
        - exact Hq.
        - exact Hpos. }
      assert (Hne : Curve.total (Curve.of_task (Baseline.task_code b) final)
                    <> 0%Qc).
      { rewrite Htotal. apply (target_nonzero b); [|exact Hrel].
        pose proof (st_valid _ _ _ _ _ tables) as Hv.
        rewrite Forall_forall in Hv. now apply Hv. }
      destruct (total_nonzero _ Hne) as (r2 & Hr2 & Hm2).
      assert (Hd1 : In (Daily.Date x)
                       (map Curve.Date
                          (Curve.of_task (Baseline.task_code b) final))).
      { rewrite Hdates. now apply Hrecord. }
      apply in_map_iff in Hd1. destruct Hd1 as (r1 & Hd1 & Hr1).
      exists r1, r2. split; [exact Hr1|]. split; [exact Hr2|].
      apply of_task_In in Hr1 as Hr1'. destruct Hr1' as [Hin1 Ht1].
      rewrite (Hzero x Hx Ht Hp r1 Hin1 Ht1 Hd1).
      intros E. apply Hm2. now rewrite <- E.
Qed.

Lemma daily_zero_share_gives_zero_manpower_witness :
  exists final,
    adjusted_curve Daily_Report Scenario.mon_sat Scenario.baseline_df
      Scenario.task_progress_df Scenario.weekly_df Scenario.daily_df_shift
    = Ok final /\
    is_working Scenario.mon_sat (Scenario.jan 7) = false /\
    (forall r, In r final -> Curve.Task r = "BLK"%string ->
               Curve.Date r = Scenario.jan 7 -> Curve.Manpower r = 0%Qc) /\
    (exists r1 r2,
       In r1 (Curve.of_task "BLK" final) /\
       In r2 (Curve.of_task "BLK" final) /\
       Curve.Manpower r1 <> Curve.Manpower r2).
Proof.
  destruct (daily_zero_share_gives_zero_manpower Scenario.mon_sat
              Scenario.baseline_df Scenario.task_progress_df
              Scenario.weekly_df Scenario.daily_df_shift
              Scenario.blk_baseline scenario_tables_shift
              (or_introl eq_refl))
    as (reshaped & final & HA & HB & _ & _ & Hzero & Hnonuniform).
  - vm_compute. discriminate.
  - assert (Hx : In {| Daily.Task := "BLK"; Daily.Date := Scenario.jan 7;
                       Daily.Progress := 0%Qc |} Scenario.daily_df_shift)
      by (vm_compute; do 6 right; left; reflexivity).
    exists final. split; [exact HB|]. split; [reflexivity|]. split.
    + intros r Hr Ht Hd.
      exact (proj2 (Hzero _ Hx eq_refl eq_refl) r Hr Ht Hd).
    + apply (Hnonuniform _ Hx eq_refl eq_refl).
      vm_compute in HA. injection HA as <-. reflexivity.
Defined.

(** ** Multiplying the actual shares of a task by a constant *)

Section Invariance.

Local Open Scope Qc_scope.

Variable report_type : ReportType.
Variable wd : list Z.
Variable bdf : list Baseline.row.
Variable tp : list TaskProgress.row.
Variable wdf : list Weekly.row.
Variable ddf : list Daily.row.
Hypothesis tables : session_tables wd bdf tp wdf ddf.



End Invariance.




(** ** Defaults: the tables before any edit *)

Section Defaults.

Local Open Scope Qc_scope.

Lemma round_half_even_nonneg (q : Q) :
  (0 <= q)%Q -> (0 <= Num.round_half_even q)%Z.
Proof.
  intros Hq. unfold Num.round_half_even.
  assert (Hf : (0 <= Qfloor q)%Z).
  { change 0%Z with (Qfloor 0). now apply Qfloor_resp_le. }
  destruct (Qcompare (q - inject_Z (Qfloor q)) (1 # 2)); [|lia|lia].
  destruct (Z.even (Qfloor q)); lia.
Qed.

Lemma round2_nonneg (x : Qc) : 0 <= x -> 0 <= Num.round2 x.
Proof.
  intros Hx. unfold Num.round2. apply Qcle_Q.
  rewrite (Qc_this_eq (inject_Z _ / 100)).
  change (this 0) with 0%Q.
  assert (Hz : (0 <= Num.round_half_even (this x * 100))%Z).
  { apply round_half_even_nonneg. apply Qcle_Q in Hx.
    change (this 0) with 0%Q in Hx.
    apply Qmult_le_0_compat; [exact Hx | discriminate]. }
  unfold Qdiv. apply Qmult_le_0_compat; [|discriminate].
  unfold Qle. simpl. lia.
Qed.

Lemma planned_percent_le_hundred n : planned_percent n <= Num.hundred.
Proof.
  unfold planned_percent. destruct (0 <? n)%nat eqn:E.
  - apply Nat.ltb_lt in E.
    apply Qcle_Q. rewrite this_div. unfold Num.hundred, Num.of_nat.
    rewrite !this_of_Z.
    apply Qle_shift_div_r.
    + change 0%Q with (inject_Z 0). rewrite <- Zlt_Qlt. lia.
    + rewrite <- inject_Z_mult, <- Zle_Qle. lia.
  - discriminate.
Qed.

Lemma auto_percent_range n :
  0 <= auto_percent n /\ auto_percent n <= Num.of_Z 300.
Proof.
  unfold auto_percent. destruct (0 <? n)%nat eqn:E.
  - apply Nat.ltb_lt in E. split.
    + apply round2_nonneg. apply Qclt_le_weak.
      apply Qcdiv_pos; [apply hundred_pos | now apply of_nat_pos].
    + destruct (round2_bound (Num.hundred / Num.of_nat n)) as [H _].
      pose proof (planned_percent_le_hundred n) as Hp.
      unfold planned_percent in Hp.
      replace (0 <? n)%nat with true in Hp
        by (symmetry; now apply Nat.ltb_lt).
      assert (HQ : (this (Num.round2 (Num.hundred / Num.of_nat n))
                    - this (Num.hundred / Num.of_nat n) <= 1 # 200)%Q).
      { rewrite <- this_minus, <- (Qc_this_eq (1 # 200)). exact H. }
      assert (HP : (this (Num.hundred / Num.of_nat n) <= 100 # 1)%Q).
      { change (100 # 1)%Q with (inject_Z 100).
        rewrite <- (this_of_Z 100). exact Hp. }
      apply Qcle_Q. rewrite this_of_Z.
      change (inject_Z 300) with (300 # 1)%Q.
      revert HQ HP.
      generalize (this (Num.round2 (Num.hundred / Num.of_nat n)))
                 (this (Num.hundred / Num.of_nat n)).
      intros qy qx HQ HP. lra.
  - split; [apply Qcle_refl | discriminate].
Qed.

Lemma set_daily_progress_id x : set_daily_progress (Daily.Progress x) x = x.
Proof. now destruct x. Qed.

Lemma set_weekly_progress_id w :
  set_weekly_progress (Weekly.Progress w) w = w.
Proof. now destruct w. Qed.

Lemma set_task_progress_id p :
  set_task_progress (TaskProgress.Progress p) p = p.
Proof. now destruct p. Qed.

Lemma edited_refl {R} (set : Qc -> R -> R) (get : R -> Qc) lo hi l :
  (forall r, set (get r) r = r) ->
  (forall r, In r l -> lo <= get r /\ get r <= hi) ->
  edited set lo hi l l.
Proof.
  intros Hid Hrange. unfold edited.
  induction l as [|r l IH]; constructor.
  - exists (get r). destruct (Hrange r (or_introl eq_refl)).
    repeat split; try assumption. symmetry. apply Hid.
  - apply IH. intros. apply Hrange. now right.
Qed.

(** The tables of a session in which nothing was edited. *)
Lemma default_tables wd bdf :
  Forall baseline_valid bdf ->
  NoDup (map Baseline.task_code bdf) ->
  session_tables wd bdf
    (map recalculate (map task_progress_default bdf))
    (weekly_rows wd bdf) (daily_rows wd bdf).
Proof.
  intros Hv Hnd. constructor; try assumption.
  - exists (map task_progress_default bdf). split; [|reflexivity].
    apply (edited_refl _ TaskProgress.Progress).
    + apply set_task_progress_id.
    + intros p Hp. apply in_map_iff in Hp. destruct Hp as (b & <- & _).
      simpl. split; vm_compute; discriminate.
  - apply (edited_refl _ Weekly.Progress).
    + apply set_weekly_progress_id.
    + intros w Hw. unfold weekly_rows in Hw. apply in_flat_map in Hw.
      destruct Hw as (b & _ & Hw).
      apply weekly_rows_of_Progress in Hw. destruct Hw as [_ ->].
      apply auto_percent_range.
  - apply (edited_refl _ Daily.Progress).
    + apply set_daily_progress_id.
    + intros x Hx. unfold daily_rows in Hx. apply in_flat_map in Hx.
      destruct Hx as (b & _ & Hx).
      apply daily_rows_of_In in Hx. destruct Hx as (_ & _ & ->).
      destruct (is_working wd (Daily.Date x)).
      * apply auto_percent_range.
      * split; [apply Qcle_refl | vm_compute; discriminate].
Qed.

Lemma weekly_row_of_task wd bdf b w :
  NoDup (map Baseline.task_code bdf) -> In b bdf ->
  In w (weekly_rows wd bdf) -> Weekly.Task w = Baseline.task_code b ->
  In w (weekly_rows_of wd b).
Proof.
  intros Hnd Hb Hw Ht. unfold weekly_rows in Hw. apply in_flat_map in Hw.
  destruct Hw as (b' & Hb' & Hw).
  pose proof (weekly_rows_of_Progress _ _ _ Hw) as [Ht' _].
  rewrite Ht in Ht'.
  now rewrite (task_code_inj _ _ _ Hnd Hb Hb' Ht').
Qed.

Lemma daily_row_of_task wd bdf b x :
  NoDup (map Baseline.task_code bdf) -> In b bdf ->
  In x (daily_rows wd bdf) -> Daily.Task x = Baseline.task_code b ->
  In x (daily_rows_of wd b).
Proof.
  intros Hnd Hb Hx Ht. unfold daily_rows in Hx. apply in_flat_map in Hx.
  destruct Hx as (b' & Hb' & Hx).
  pose proof (daily_rows_of_In _ _ _ Hx) as (Ht' & _).
  rewrite Ht in Ht'.
  now rewrite (task_code_inj _ _ _ Hnd Hb Hb' Ht').
Qed.

(** The uniform curve of a task sums to its adjusted man-days. *)
Lemma total_uniform_curve tp b :
  (Baseline.start_date b <= Baseline.end_date b)%Z ->
  Curve.total (uniform_curve tp b)
  = target_of tp (Baseline.task_code b).
Proof.
  intros Hd. unfold Curve.total.
  rewrite (sum_const _ (target_of tp (Baseline.task_code b)
                        / Num.of_nat (List.length (task_dates b)))).
  - unfold uniform_curve, expand_row. rewrite length_map.
    cbn [fst snd]. field.
    apply of_nat_neq. unfold task_dates. rewrite date_range_length. lia.
  - intros r Hr. unfold uniform_curve in *.
    now rewrite (expand_row_Manpower _ _ Hr).
Qed.

End Defaults.

(** ** Defaults: Phase A factors and the final curve *)

Section DefaultCurve.

Local Open Scope Qc_scope.

Variable report_type : ReportType.
Variable wd : list Z.
Variable bdf : list Baseline.row.
Variable tp : list TaskProgress.row.
Variable wdf : list Weekly.row.
Variable ddf : list Daily.row.
Hypothesis tables : session_tables wd bdf tp wdf ddf.

(** When Phase A multiplies every row of a task by the same factor, 1 or
    positive with a positive target, Phase B restores the uniform curve. *)
Lemma final_rows_uniform b f :
  In b bdf ->
  (forall r, In r (uniform_curve tp b) ->
     refinement_multiplier report_type wd bdf wdf ddf r = f) ->
  f = 1 \/ (0 < f /\ 0 < target_of tp (Baseline.task_code b)) ->
  forall r,
    In r (Curve.of_task (Baseline.task_code b)
            (final_curve report_type wd bdf tp wdf ddf)) ->
    Curve.Manpower r
    = target_of tp (Baseline.task_code b)
      / Num.of_nat (List.length (task_dates b)).
Proof.
  intros Hb Hmult Hf r Hr.
  assert (Hvalid : baseline_valid b).
  { pose proof (st_valid _ _ _ _ _ tables) as Hv.
    rewrite Forall_forall in Hv. now apply Hv. }
  destruct Hvalid as (_ & _ & Hdates & _).
  assert (Hlen : Num.of_nat (List.length (task_dates b)) <> 0).
  { apply of_nat_neq. unfold task_dates. rewrite date_range_length. lia. }
  unfold final_curve in Hr. rewrite of_task_rescale in Hr.
  rewrite (of_task_reshaped report_type _ _ _ _ _ tables b Hb) in Hr.
  unfold Curve.rescale in Hr. rewrite map_map in Hr.
  apply in_map_iff in Hr. destruct Hr as (r0 & <- & Hr0).
  unfold Curve.scale. cbn [Curve.Manpower Curve.Task].
  rewrite (Hmult r0 Hr0), (uniform_curve_Task tp b r0 Hr0).
  unfold uniform_curve in Hr0.
  rewrite (expand_row_Manpower _ _ Hr0). cbn [fst snd].
  set (T := target_of tp (Baseline.task_code b)) in *.
  set (n := Num.of_nat (List.length (task_dates b))) in *.
  assert (Htotal : Curve.total
                     (Curve.of_task (Baseline.task_code b)
                        (reshaped_curve report_type wd bdf tp wdf ddf))
                   = T * f).
  { rewrite (of_task_reshaped report_type _ _ _ _ _ tables b Hb).
    rewrite (total_rescale_const _ f) by exact Hmult.
    now rewrite (total_uniform_curve tp b Hdates). }
  destruct (merge_has_partner _ _ _ _ _ tables b Hb)
    as (p & _ & _ & Hq & _).
  assert (HT : T = TaskProgress.Adjusted_Man_Days p).
  { unfold T, target_of. now rewrite Hq. }
  unfold task_scale. rewrite Hq, Htotal, <- HT.
  destruct Hf as [->|[Hfpos HTpos]].
  - destruct (Num.ltb 0 (T * 1)) eqn:E.
    + apply ltb_lt in E. rewrite Qcmult_1_r in E.
      pose proof (Qcpos_neq _ E) as HT0.
      field. repeat split; assumption.
    + field. exact Hlen.
  - replace (Num.ltb 0 (T * f)) with true
      by (symmetry; apply ltb_lt; now apply Qcmult_pos).
    assert (HfT : f <> 0 /\ T <> 0) by (split; now apply Qcpos_neq).
    destruct HfT as [Hf0 HT0].
    field. repeat split; assumption.
Qed.

End DefaultCurve.

Section DefaultFactors.

Local Open Scope Qc_scope.

Variable wd : list Z.
Variable bdf : list Baseline.row.
Hypothesis valid : Forall baseline_valid bdf.
Hypothesis unique : NoDup (map Baseline.task_code bdf).

Local Abbreviation tp := (map recalculate (map task_progress_default bdf)).
Local Abbreviation wdf := (weekly_rows wd bdf).
Local Abbreviation ddf := (daily_rows wd bdf).

Lemma of_nat_duration b :
  baseline_valid b ->
  Num.of_nat (List.length (task_dates b))
  = Num.of_Z (Baseline.duration_days b).
Proof.
  intros (_ & _ & Hd & _ & -> & _). unfold task_dates, Num.of_nat.
  rewrite date_range_length. f_equal. lia.
Qed.

Lemma default_target b :
  In b bdf -> target_of tp (Baseline.task_code b) = Baseline.man_days b.
Proof.
  intros Hb.
  destruct (merge_has_partner _ _ _ _ _ (default_tables wd bdf valid unique)
              b Hb) as (p & Hp & Hrel & Hq & _).
  unfold target_of. rewrite Hq.
  destruct Hrel as (_ & _ & _ & _ & _ & _ & ->).
  apply in_map_iff in Hp. destruct Hp as (p0 & <- & Hp0).
  apply in_map_iff in Hp0. destruct Hp0 as (b0 & <- & _).
  simpl. field. split; [apply hundred_neq | exact Q_apart_0_1].
Qed.

Lemma default_weekly_factor b w r :
  In b bdf -> In w wdf -> Weekly.Task w = Baseline.task_code b ->
  let buckets := List.length (group_weeks (task_working_days wd b)) in
  (0 < buckets)%nat /\
  Weekly.Progress w = auto_percent buckets /\
  weekly_factor wd bdf w r
  = if weekly_mask w r
    then auto_percent buckets / planned_percent buckets else 1.
Proof.
  intros Hb Hw Ht. cbv zeta.
  pose proof (weekly_row_of_task _ _ _ _ unique Hb Hw Ht) as Hwb.
  assert (Hn : (0 < List.length
                      (group_weeks (task_working_days wd b)))%nat).
  { rewrite <- weekly_rows_of_length.
    destruct (weekly_rows_of wd b); [contradiction | simpl; lia]. }
  pose proof (weekly_rows_of_Progress _ _ _ Hwb) as [_ Hp].
  split; [exact Hn|]. split; [exact Hp|].
  unfold weekly_factor, Refine.factor, weekly_plan.
  rewrite Ht, (task_row_of_unique _ _ unique Hb).
  unfold planned_weekly.
  replace (Num.ltb 0 (planned_percent
                        (List.length
                           (group_weeks (task_working_days wd b)))))
    with true by (symmetry; apply ltb_lt; now apply planned_percent_pos).
  simpl. now rewrite Hp.
Qed.

Lemma default_daily_factor b x r :
  In b bdf -> In x ddf -> Daily.Task x = Baseline.task_code b ->
  let working := List.length (task_working_days wd b) in
  (0 < working)%nat ->
  Daily.Progress x
  = (if is_working wd (Daily.Date x) then auto_percent working else 0) /\
  daily_factor wd bdf x r
  = if daily_mask x r
    then (if is_working wd (Daily.Date x)
          then auto_percent working / planned_percent working else 0)
    else 1.
Proof.
  intros Hb Hx Ht. cbv zeta. intros Hn.
  pose proof (daily_row_of_task _ _ _ _ unique Hb Hx Ht) as Hxb.
  pose proof (daily_rows_of_In _ _ _ Hxb) as (_ & _ & Hp).
  split; [exact Hp|].
  unfold daily_factor, Refine.factor, daily_plan.
  rewrite Ht, (task_row_of_unique _ _ unique Hb).
  unfold planned_daily.
  replace (Num.ltb 0 (planned_percent
                        (List.length (task_working_days wd b))))
    with true by (symmetry; apply ltb_lt; now apply planned_percent_pos).
  simpl. destruct (daily_mask x r); [|reflexivity].
  rewrite Hp. destruct (is_working wd (Daily.Date x)); [reflexivity|].
  apply Qcdiv_zero_l.
Qed.

Lemma factor_one_iff n :
  (0 < n)%nat ->
  (auto_percent n / planned_percent n = 1
   <-> auto_percent n = planned_percent n).
Proof.
  intros Hn. pose proof (Qcpos_neq _ (planned_percent_pos n Hn)) as Hne.
  split; intros H.
  - rewrite <- (Qcmult_1_l (planned_percent n)), <- H. field. exact Hne.
  - rewrite H. field. exact Hne.
Qed.

End DefaultFactors.

(** C6 fails as stated.  With every record at its default and task-level
    Progress% = 100, the scenario task (9 working dates, one Sunday) has
    daily Phase A factor 11.11 / (100 / 9) = 0.9999 on a working date, not
    1, and its final Daily curve is 1500 / 9 on working dates and 0 on the
    Sunday, not the baseline 150. *)
Lemma defaults_do_not_reproduce_the_baseline :
  let x := {| Daily.Task := "BLK"; Daily.Date := Scenario.jan 1;
              Daily.Progress := Q2Qc (1111 # 100) |} in
  let r := {| Curve.Task := "BLK"; Curve.Trade := "Mason";
              Curve.Date := Scenario.jan 1;
              Curve.Manpower := Num.of_Z 150 |} in
  Scenario.task_progress_df
  = map recalculate (map task_progress_default Scenario.baseline_df) /\
  Forall (fun p => TaskProgress.Progress p = Num.hundred)
         Scenario.task_progress_df /\
  Scenario.daily_df = daily_rows Scenario.mon_sat Scenario.baseline_df /\
  In x Scenario.daily_df /\
  In (Curve.key r)
     (map Curve.key
        (adjusted_rows
           (merge_adjusted_man_days Scenario.baseline_df
              Scenario.task_progress_df))) /\
  daily_factor Scenario.mon_sat Scenario.baseline_df x r
  = Q2Qc (9999 # 10000) /\
  exists final,
    adjusted_curve Daily_Report Scenario.mon_sat Scenario.baseline_df
      Scenario.task_progress_df Scenario.weekly_df Scenario.daily_df
    = Ok final /\
    map Curve.Manpower final
    = repeat (Q2Qc (1500 # 9)) 6 ++ [0%Qc] ++ repeat (Q2Qc (1500 # 9)) 3 /\
    (Baseline.man_days Scenario.blk_baseline
     / Num.of_Z (Baseline.duration_days Scenario.blk_baseline))%Qc
    = Num.of_Z 150.
Proof.
  cbv zeta. split; [reflexivity|]. split; [repeat constructor|].
  split; [reflexivity|]. split; [vm_compute; left; reflexivity|].
  split; [vm_compute; left; reflexivity|]. split; [canon|].
  eexists. split; [vm_compute; reflexivity|]. split; [canon_list | canon].
Qed.

(** C6, amended.  With every weekly and daily record at its auto-divided
    default and task-level Progress% = 100 (validated baseline, unique task
    codes): the Phase A factor of a weekly bucket or of a working date of a
    task is round2(100 / n) / (100 / n), n being the task's bucket or
    working-day count, which is 1 exactly when round2(100 / n) = 100 / n;
    the daily factor of a non-working date is 0.  The final adjusted curve
    equals the uniform baseline curve, man_days / duration_days on every
    date of the range, in Weekly mode when the task has no bucket or
    round2(100 / n) = 100 / n, and in Daily mode when the rate is positive,
    every date of the range is a working date and the default share is not
    0. *)
Theorem defaults_and_the_baseline_curve
    (selected_weekdays : list Z) (baseline_df : list Baseline.row)
    (b : Baseline.row) :
  Forall baseline_valid baseline_df ->
  NoDup (map Baseline.task_code baseline_df) ->
  In b baseline_df ->
  let task_progress_df :=
    map recalculate (map task_progress_default baseline_df) in
  let weekly_df := weekly_rows selected_weekdays baseline_df in
  let daily_df := daily_rows selected_weekdays baseline_df in
  let buckets :=
    List.length (group_weeks (task_working_days selected_weekdays b)) in
  let working := List.length (task_working_days selected_weekdays b) in
  let baseline_value :=
    (Baseline.man_days b / Num.of_Z (Baseline.duration_days b))%Qc in
  (forall w r, In w weekly_df ->
     Weekly.Task w = Baseline.task_code b -> weekly_mask w r = true ->
     weekly_factor selected_weekdays baseline_df w r
     = (auto_percent buckets / planned_percent buckets)%Qc) /\
  (forall x r, In x daily_df ->
     Daily.Task x = Baseline.task_code b -> daily_mask x r = true ->
     (0 < working)%nat ->
     daily_factor selected_weekdays baseline_df x r
     = if is_working selected_weekdays (Daily.Date x)
       then (auto_percent working / planned_percent working)%Qc
       else 0%Qc) /\
  (forall n, (0 < n)%nat ->
     ((auto_percent n / planned_percent n)%Qc = 1%Qc
      <-> Num.round2 (Num.hundred / Num.of_nat n)%Qc
          = (Num.hundred / Num.of_nat n)%Qc)) /\
  exists final_weekly final_daily,
    adjusted_curve Weekly_Report selected_weekdays baseline_df
      task_progress_df weekly_df daily_df = Ok final_weekly /\
    adjusted_curve Daily_Report selected_weekdays baseline_df
      task_progress_df weekly_df daily_df = Ok final_daily /\
    map Curve.Date (Curve.of_task (Baseline.task_code b) final_weekly)
    = task_dates b /\
    map Curve.Date (Curve.of_task (Baseline.task_code b) final_daily)
    = task_dates b /\
    (buckets = 0%nat \/ auto_percent buckets = planned_percent buckets ->
     forall r, In r (Curve.of_task (Baseline.task_code b) final_weekly) ->
               Curve.Manpower r = baseline_value) /\
    ((forall d, In d (task_dates b) ->
                is_working selected_weekdays d = true) ->
     (0 < auto_percent working)%Qc ->
     (0 < Baseline.rate b)%Qc ->
     forall r, In r (Curve.of_task (Baseline.task_code b) final_daily) ->
               Curve.Manpower r = baseline_value).
Proof.
  intros Hvalid Hunique Hb. cbv zeta.
  pose proof (default_tables selected_weekdays baseline_df Hvalid Hunique)
    as tables.
  assert (Hbv : baseline_valid b)
    by (rewrite Forall_forall in Hvalid; now apply Hvalid).
  split; [|split; [|split]].
  - intros w r Hw Ht Hm.
    destruct (default_weekly_factor selected_weekdays baseline_df Hunique
                b w r Hb Hw Ht) as (_ & _ & ->).
    now rewrite Hm.
  - intros x r Hx Ht Hm Hn.
    destruct (default_daily_factor selected_weekdays baseline_df Hunique
                b x r Hb Hx Ht Hn) as (_ & ->).
    now rewrite Hm.
  - intros n Hn. rewrite (factor_one_iff n Hn).
    rewrite (auto_percent_pos n Hn). unfold planned_percent.
    replace (0 <? n)%nat with true by (symmetry; now apply Nat.ltb_lt).
    reflexivity.
  - exists (final_curve Weekly_Report selected_weekdays baseline_df
              (map recalculate (map task_progress_default baseline_df))
              (weekly_rows selected_weekdays baseline_df)
              (daily_rows selected_weekdays baseline_df)),
           (final_curve Daily_Report selected_weekdays baseline_df
              (map recalculate (map task_progress_default baseline_df))
              (weekly_rows selected_weekdays baseline_df)
              (daily_rows selected_weekdays baseline_df)).
    split; [apply (adjusted_curve_rescale Weekly_Report _ _ _ _ _ tables)|].
    split; [apply (adjusted_curve_rescale Daily_Report _ _ _ _ _ tables)|].
    assert (Hdates : forall rt,
              map Curve.Date
                (Curve.of_task (Baseline.task_code b)
                   (final_curve rt selected_weekdays baseline_df
                      (map recalculate
                         (map task_progress_default baseline_df))
                      (weekly_rows selected_weekdays baseline_df)
                      (daily_rows selected_weekdays baseline_df)))
              = task_dates b).
    { intros rt. unfold final_curve.
      rewrite of_task_rescale, rescale_Date.
      rewrite (of_task_reshaped rt _ _ _ _ _ tables b Hb).
      rewrite rescale_Date. apply expand_row_Date. }
    split; [exact (Hdates Weekly_Report)|].
    split; [exact (Hdates Daily_Report)|].
    assert (Hvalue : (target_of
                        (map recalculate
                           (map task_progress_default baseline_df))
                        (Baseline.task_code b)
                      / Num.of_nat (List.length (task_dates b)))%Qc
                     = (Baseline.man_days b
                        / Num.of_Z (Baseline.duration_days b))%Qc).
    { rewrite (default_target selected_weekdays baseline_df Hvalid Hunique
                 b Hb).
      now rewrite (of_nat_duration b Hbv). }
    split.
    + intros Hbuckets r Hr. rewrite <- Hvalue.
      apply (final_rows_uniform Weekly_Report _ _ _ _ _ tables b 1%Qc Hb);
        [|now left|exact Hr].
      intros r0 Hr0. simpl. unfold weekly_multiplier.
      apply multiplier_one. intros w Hw.
      destruct (weekly_mask w r0) eqn:Hm.
      * assert (Ht : Weekly.Task w = Baseline.task_code b).
        { unfold weekly_mask in Hm.
          apply andb_prop in Hm. destruct Hm as [Hm _].
          apply andb_prop in Hm. destruct Hm as [Hm _].
          apply String.eqb_eq in Hm. rewrite <- Hm.
          exact (uniform_curve_Task _ b r0 Hr0). }
        destruct (default_weekly_factor selected_weekdays baseline_df
                    Hunique b w r0 Hb Hw Ht) as (Hn & _ & Hf).
        unfold weekly_factor in Hf. rewrite Hf, Hm.
        destruct Hbuckets as [H0|Heq]; [lia|].
        now apply factor_one_iff.
      * unfold Refine.factor. rewrite Hm.
        destruct (weekly_plan selected_weekdays baseline_df w);
          [now rewrite andb_false_r | reflexivity].
    + intros Hall Hauto Hrate r Hr. rewrite <- Hvalue.
      assert (Hn : (0 < List.length
                         (task_working_days selected_weekdays b))%nat).
      { destruct Hbv as (_ & _ & Hd & _).
        pose proof (date_range_nonempty _ _ Hd) as Hne.
        fold (task_dates b) in Hne.
        destruct (task_dates b) as [|d ds] eqn:Ed; [congruence|].
        assert (Hin : In d (task_working_days selected_weekdays b)).
        { unfold task_working_days. rewrite Ed.
          apply working_days_In. split; [now left|].
          apply Hall. now left. }
        destruct (task_working_days selected_weekdays b);
          [contradiction | simpl; lia]. }
      apply (final_rows_uniform Daily_Report _ _ _ _ _ tables b
               (auto_percent
                  (List.length (task_working_days selected_weekdays b))
                / planned_percent
                    (List.length (task_working_days selected_weekdays b)))%Qc
               Hb); [| |exact Hr].
      * intros r0 Hr0. simpl.
        destruct (daily_multiplier_of_row _ _ _ _ _ tables b r0 Hb Hr0)
          as (x & Hx & Ht & Hd & -> & _).
        unfold planned_daily.
        replace (Num.ltb 0 (planned_percent
                              (List.length
                                 (task_working_days selected_weekdays b))))
          with true
          by (symmetry; apply ltb_lt; now apply planned_percent_pos).
        destruct (default_daily_factor selected_weekdays baseline_df
                    Hunique b x r0 Hb Hx Ht Hn) as (-> & _).
        replace (is_working selected_weekdays (Daily.Date x)) with true;
          [reflexivity|].
        symmetry. apply Hall. rewrite Hd.
        apply (in_map Curve.Date) in Hr0. unfold uniform_curve in Hr0.
        rewrite expand_row_Date in Hr0. exact Hr0.
      * right. split.
        -- apply Qcdiv_pos; [exact Hauto | now apply planned_percent_pos].
        -- rewrite (default_target selected_weekdays baseline_df Hvalid
                      Hunique b Hb).
           destruct Hbv as (Hboq & _ & _ & -> & _).
           now apply Qcdiv_pos.
Qed.

Lemma all_days_working (d : date) : is_working Scenario31.all_days d = true.
Proof.
  unfold is_working. apply existsb_exists.
  exists (weekday d). split; [|apply Z.eqb_refl].
  unfold weekday, Scenario31.all_days.
  pose proof (Z.mod_pos_bound (d + 6) 7 ltac:(lia)). simpl. lia.
Qed.

Lemma january_valid : Forall baseline_valid [Scenario31.january].
Proof.
  constructor; [|constructor]. unfold baseline_valid. simpl.
  split; [reflexivity|]. split; [discriminate|].
  split; [vm_compute; discriminate|]. split; [canon|].
  split; [reflexivity | canon].
Qed.

Lemma defaults_and_the_baseline_curve_witness :
  exists final_weekly final_daily,
    adjusted_curve Weekly_Report Scenario31.all_days [Scenario31.january]
      (map recalculate (map task_progress_default [Scenario31.january]))
      (weekly_rows Scenario31.all_days [Scenario31.january])
      (daily_rows Scenario31.all_days [Scenario31.january])
    = Ok final_weekly /\
    adjusted_curve Daily_Report Scenario31.all_days [Scenario31.january]
      (map recalculate (map task_progress_default [Scenario31.january]))
      (weekly_rows Scenario31.all_days [Scenario31.january])
      (daily_rows Scenario31.all_days [Scenario31.january])
    = Ok final_daily /\
    List.length (Curve.of_task "BLK" final_daily) = 31%nat /\
    (auto_percent 31 / planned_percent 31)%Qc <> 1%Qc /\
    (forall r, In r (Curve.of_task "BLK" final_weekly) ->
               Curve.Manpower r = Num.of_Z 50) /\
    (forall r, In r (Curve.of_task "BLK" final_daily) ->
               Curve.Manpower r = Num.of_Z 50).
Proof.
  destruct (defaults_and_the_baseline_curve Scenario31.all_days
              [Scenario31.january] Scenario31.january january_valid)
    as (_ & _ & _ & final_weekly & final_daily & Hw & Hd & _ & Hdates
        & Hweekly & Hdaily).
  - repeat constructor. simpl. tauto.
  - now left.
  - exists final_weekly, final_daily.
    split; [exact Hw|]. split; [exact Hd|]. split.
    + change "BLK"%string with (Baseline.task_code Scenario31.january).
      rewrite <- (length_map Curve.Date), Hdates. reflexivity.
    + split.
      * intros E. apply Qceq_Q in E. vm_compute in E. discriminate.
      * assert (Hvalue : (Baseline.man_days Scenario31.january
                          / Num.of_Z
                              (Baseline.duration_days Scenario31.january))%Qc
                         = Num.of_Z 50) by canon.
        split.
        -- intros r Hr. rewrite <- Hvalue. apply Hweekly; [|exact Hr].
           right. canon.
        -- intros r Hr. rewrite <- Hvalue. apply Hdaily; [| | |exact Hr].
           ++ intros d _. apply all_days_working.
           ++ vm_compute. reflexivity.
           ++ reflexivity.
Defined.

(** ** From the script run to the tables of a session *)

(** Section 2 leaves in the session the tables the final report reads. *)
Lemma progress_adjustment_session ui s bdf wd :
  ss_baseline_df (session_state s) = Some bdf ->
  ss_working_days (session_state s) = Some wd ->
  bdf <> [] ->
  weekly_rows wd bdf <> [] ->
  button_generate_final ui = true ->
  exists s',
    progress_adjustment ui s = (Ok tt, s') /\
    session_state s'
    = final_session (radio_report_type ui) wd bdf
        (map recalculate
           (edit_task_progress ui (map task_progress_default bdf)))
        (edit_weekly ui (weekly_rows wd bdf))
        (edit_daily ui (daily_rows wd bdf)).
Proof.
  intros Hb Hw Hne Hrows Hbutton.
  destruct s as [ss results timeline adjusted final_tp].
  cbn [session_state] in Hb, Hw.
  unfold progress_adjustment, bind, get, require, ret, stop, modify_session.
  cbn [session_state]. rewrite Hb, Hw.
  destruct bdf as [|b rest]; [congruence|].
  destruct (weekly_rows wd (b :: rest)) as [|w rows] eqn:E; [congruence|].
  rewrite Hbutton.
  eexists. split; [reflexivity|].
  unfold final_session, store_final_request, store_daily, store_weekly,
    store_task_progress.
  cbn. rewrite Hb, Hw. reflexivity.
Qed.

(** With editors that respect their column configuration, the tables left
    by Sections 1 and 2 are the tables of a session. *)
Lemma script_session_tables ui rows wd :
  Forall input_ok rows ->
  NoDup (map Input.task_code rows) ->
  task_progress_edited
    (map task_progress_default (map baseline_of rows))
    (edit_task_progress ui
       (map task_progress_default (map baseline_of rows))) ->
  weekly_edited (weekly_rows wd (map baseline_of rows))
    (edit_weekly ui (weekly_rows wd (map baseline_of rows))) ->
  daily_edited (daily_rows wd (map baseline_of rows))
    (edit_daily ui (daily_rows wd (map baseline_of rows))) ->
  session_tables wd (map baseline_of rows)
    (map recalculate
       (edit_task_progress ui
          (map task_progress_default (map baseline_of rows))))
    (edit_weekly ui (weekly_rows wd (map baseline_of rows)))
    (edit_daily ui (daily_rows wd (map baseline_of rows))).
Proof.
  intros Hall Hnd Ht Hw Hd. constructor.
  - apply Forall_forall. intros b Hb. apply in_map_iff in Hb.
    destruct Hb as (r & <- & Hr). apply baseline_of_valid.
    rewrite Forall_forall in Hall. now apply Hall.
  - rewrite map_map. exact Hnd.
  - eexists. split; [exact Ht | reflexivity].
  - exact Hw.
  - exact Hd.
Qed.

(** * Further properties of the script *)

(** ** The shape of the adjusted curve *)

Lemma map_flat_map {A B C} (f : B -> C) (g : A -> list B) (l : list A) :
  map f (flat_map g l) = flat_map (fun x => map f (g x)) l.
Proof.
  induction l as [|a l IH]; simpl; [reflexivity|].
  now rewrite map_app, IH.
Qed.

Lemma round_curve_key df : map Curve.key (round_curve df) = map Curve.key df.
Proof. unfold round_curve. rewrite map_map. reflexivity. Qed.

Lemma round_curve_Trade df :
  map Curve.Trade (round_curve df) = map Curve.Trade df.
Proof. unfold round_curve. rewrite map_map. reflexivity. Qed.

Lemma rescale_Trade g df :
  map Curve.Trade (Curve.rescale g df) = map Curve.Trade df.
Proof. unfold Curve.rescale. rewrite map_map. reflexivity. Qed.

Lemma base_keys tp bdf :
  map Curve.key (flat_map (uniform_curve tp) bdf) = session_keys bdf.
Proof.
  rewrite map_flat_map. unfold session_keys. apply flat_map_ext_In.
  intros b _. apply uniform_curve_keys.
Qed.

(** X1. On the tables of a session, for either report type, the
    adjustment returns a curve with exactly one point per task and date of
    the task's range, in the order of the baseline table: Phase A, Phase B
    and the rounding change the "Manpower" column only. *)
Theorem adjusted_curve_has_one_point_per_task_and_date
    (report_type : ReportType) (selected_weekdays : list Z)
    (baseline_df : list Baseline.row)
    (task_progress_df : list TaskProgress.row)
    (weekly_df : list Weekly.row) (daily_df : list Daily.row) :
  session_tables selected_weekdays baseline_df task_progress_df weekly_df
                 daily_df ->
  exists final,
    adjusted_curve report_type selected_weekdays baseline_df
      task_progress_df weekly_df daily_df = Ok final /\
    map Curve.key final = session_keys baseline_df /\
    map Curve.key (round_curve final) = session_keys baseline_df /\
    NoDup (map Curve.key final) /\
    map Curve.Trade (round_curve final)
    = map Curve.Trade
        (adjusted_rows
           (merge_adjusted_man_days baseline_df task_progress_df)).
Proof.
  intros tables.
  pose proof (adjusted_curve_rescale report_type _ _ _ _ _ tables) as HB.
  eexists. split; [exact HB|].
  assert (Hkeys : map Curve.key
                    (final_curve report_type selected_weekdays baseline_df
                       task_progress_df weekly_df daily_df)
                  = session_keys baseline_df).
  { unfold final_curve, reshaped_curve.
    rewrite !rescale_key. apply base_keys. }
  unfold final_curve in Hkeys.
  split; [exact Hkeys|]. split; [now rewrite round_curve_key|].
  split.
  - rewrite Hkeys. apply session_keys_NoDup, (st_unique _ _ _ _ _ tables).
  - rewrite round_curve_Trade. unfold reshaped_curve.
    rewrite !rescale_Trade.
    now rewrite (adjusted_rows_uniform _ _ _ _ _ tables).
Qed.

Lemma adjusted_curve_has_one_point_per_task_and_date_witness :
  exists final,
    adjusted_curve Weekly_Report Scenario.mon_sat Scenario.baseline_df
      Scenario.task_progress_df Scenario.weekly_df_140 Scenario.daily_df
    = Ok final /\
    map Curve.key final
    = map (fun d => ("BLK"%string, d))
          (date_range (Scenario.jan 1) (Scenario.jan 10)).
Proof.
  destruct (adjusted_curve_has_one_point_per_task_and_date Weekly_Report
              Scenario.mon_sat Scenario.baseline_df
              Scenario.task_progress_df Scenario.weekly_df_140
              Scenario.daily_df scenario_tables_weekly)
    as (final & H & Hkeys & _).
  exists final. split; [exact H|]. rewrite Hkeys. reflexivity.
Defined.

(** ** The display rounding *)

Section Rounding.

Local Open Scope Qc_scope.

Lemma Qcle_plus_compat a b c d : a <= b -> c <= d -> a + c <= b + d.
Proof. apply Qcplus_le_compat. Qed.

Lemma of_task_round_curve task df :
  Curve.of_task task (round_curve df)
  = round_curve (Curve.of_task task df).
Proof.
  unfold Curve.of_task, round_curve.
  induction df as [|r df IH]; simpl; [reflexivity|].
  destruct (String.eqb (Curve.Task r) task); simpl; now rewrite IH.
Qed.

(** Rounding [n] values moves their sum by at most [n] half hundredths. *)
Lemma total_round_curve df :
  within (Num.of_nat (List.length df) * half_cent)
         (Curve.total (round_curve df)) (Curve.total df).
Proof.
  unfold within, Curve.total, round_curve, half_cent.
  induction df as [|r df IH].
  - simpl. split; vm_compute; discriminate.
  - rewrite map_map in *. cbn [map List.length Num.sum fold_right].
    cbn [Curve.Manpower].
    rewrite of_nat_S.
    destruct IH as [IH1 IH2].
    destruct (round2_bound (Curve.Manpower r)) as [H1 H2].
    set (a := Num.round2 (Curve.Manpower r)) in *.
    set (b := Curve.Manpower r) in *.
    set (sa := fold_right Qcplus 0 _) in *.
    set (sb := fold_right Qcplus 0 (map Curve.Manpower df)) in *.
    split.
    + replace (a + sa - (b + sb)) with ((sa - sb) + (a - b)) by ring.
      replace ((Num.of_nat (List.length df) + 1) * Q2Qc (1 # 200))
        with (Num.of_nat (List.length df) * Q2Qc (1 # 200) + Q2Qc (1 # 200))
        by ring.
      now apply Qcplus_le_compat.
    + replace (b + sb - (a + sa)) with ((sb - sa) + (b - a)) by ring.
      replace ((Num.of_nat (List.length df) + 1) * Q2Qc (1 # 200))
        with (Num.of_nat (List.length df) * Q2Qc (1 # 200) + Q2Qc (1 # 200))
        by ring.
      now apply Qcplus_le_compat.
Qed.

End Rounding.

(** X2. Conservation drift of the display rounding: on the tables of a
    session, for a task whose curve total after Phase A is positive, the
    rounded final curve values of the task sum to its Adjusted Man-Days
    within half a hundredth per date of its range. *)
Theorem rounded_curve_total_drift
    (report_type : ReportType) (selected_weekdays : list Z)
    (baseline_df : list Baseline.row)
    (task_progress_df : list TaskProgress.row)
    (weekly_df : list Weekly.row) (daily_df : list Daily.row)
    (b : Baseline.row) (reshaped : list Curve.row) :
  session_tables selected_weekdays baseline_df task_progress_df weekly_df
                 daily_df ->
  In b baseline_df ->
  refinement report_type selected_weekdays baseline_df weekly_df daily_df
    (adjusted_rows (merge_adjusted_man_days baseline_df task_progress_df))
  = Ok reshaped ->
  (0 < Curve.total (Curve.of_task (Baseline.task_code b) reshaped))%Qc ->
  exists final,
    adjusted_curve report_type selected_weekdays baseline_df
      task_progress_df weekly_df daily_df = Ok final /\
    within (Num.of_Z (Baseline.duration_days b) * half_cent)%Qc
      (Curve.total
         (Curve.of_task (Baseline.task_code b) (round_curve final)))
      (target_of task_progress_df (Baseline.task_code b)).
Proof.
  intros tables Hb HA Hpos.
  rewrite (refinement_reshaped report_type _ _ _ _ _ tables) in HA.
  injection HA as <-.
  pose proof (adjusted_curve_rescale report_type _ _ _ _ _ tables) as HB.
  eexists. split; [exact HB|].
  destruct (merge_has_partner _ _ _ _ _ tables b Hb)
    as (p & _ & _ & Hq & _).
  set (final := Curve.rescale _ _) in *.
  assert (Htotal : Curve.total (Curve.of_task (Baseline.task_code b) final)
                   = target_of task_progress_df (Baseline.task_code b)).
  { unfold target_of. rewrite Hq.
    apply (total_after_scaling task_progress_df
             (reshaped_curve report_type selected_weekdays baseline_df
                task_progress_df weekly_df daily_df)).
    - apply per_task_scaling_rescale.
      apply (reshaped_has_target report_type _ _ _ _ _ tables).
    - apply (reshaped_has_target report_type _ _ _ _ _ tables).
    - exact Hq.
    - exact Hpos. }
  rewrite of_task_round_curve, <- Htotal.
  assert (Hlen : Num.of_nat
                   (List.length
                      (Curve.of_task (Baseline.task_code b) final))
                 = Num.of_Z (Baseline.duration_days b)).
  { rewrite <- (length_map Curve.Date). unfold final.
    rewrite of_task_rescale, rescale_Date.
    rewrite (of_task_reshaped report_type _ _ _ _ _ tables b Hb).
    rewrite rescale_Date. unfold uniform_curve.
    rewrite expand_row_Date. cbn [fst].
    apply of_nat_duration.
    pose proof (st_valid _ _ _ _ _ tables) as Hv.
    rewrite Forall_forall in Hv. now apply Hv. }
  rewrite <- Hlen. apply total_round_curve.
Qed.

Lemma rounded_curve_total_drift_witness :
  exists final,
    adjusted_curve Daily_Report Scenario.mon_sat Scenario.baseline_df
      Scenario.task_progress_df Scenario.weekly_df Scenario.daily_df_shift
    = Ok final /\
    within (Q2Qc (5 # 100))
      (Curve.total (Curve.of_task "BLK" (round_curve final)))
      (Num.of_Z 1500) /\
    Curve.total (Curve.of_task "BLK" (round_curve final))
    = Q2Qc (150002 # 100).
Proof.
  destruct (rounded_curve_total_drift Daily_Report Scenario.mon_sat
              Scenario.baseline_df Scenario.task_progress_df
              Scenario.weekly_df Scenario.daily_df_shift
              Scenario.blk_baseline _ scenario_tables_shift
              (or_introl eq_refl)
              (refinement_reshaped Daily_Report _ _ _ _ _
                 scenario_tables_shift))
    as (final & H & Hw).
  - reflexivity.
  - exists final. split; [exact H|]. split.
    + replace (Q2Qc (5 # 100))
        with (Num.of_Z (Baseline.duration_days Scenario.blk_baseline)
              * half_cent)%Qc by canon.
      replace (Num.of_Z 1500)
        with (target_of Scenario.task_progress_df
                (Baseline.task_code Scenario.blk_baseline)) by canon.
      exact Hw.
    + vm_compute in H. injection H as <-. canon.
Defined.

(** ** Phase B: the degenerate branch and idempotence *)

Section PhaseBMore.

Local Open Scope Qc_scope.

Variable task_progress_df : list TaskProgress.row.

Lemma task_scale_not_positive df task :
  Curve.total (Curve.of_task task df) <= 0 ->
  task_scale task_progress_df df task = 1.
Proof.
  intros H. unfold task_scale.
  destruct (required_total_of task_progress_df task); [|reflexivity].
  replace (Num.ltb 0 (Curve.total (Curve.of_task task df))) with false;
    [reflexivity|].
  symmetry. now apply ltb_ge.
Qed.

Lemma of_task_final df task :
  Curve.of_task task
    (Curve.rescale
       (fun r => task_scale task_progress_df df (Curve.Task r)) df)
  = Curve.rescale (fun _ => task_scale task_progress_df df task)
                  (Curve.of_task task df).
Proof.
  rewrite of_task_rescale. apply rescale_ext_in.
  intros r Hr. apply of_task_In in Hr. now destruct Hr as [_ ->].
Qed.

(** After Phase B no task needs rescaling any more. *)
Lemma task_scale_after_scaling df task :
  task_scale task_progress_df
    (Curve.rescale
       (fun r => task_scale task_progress_df df (Curve.Task r)) df) task
  = 1.
Proof.
  unfold task_scale at 1. rewrite of_task_final.
  rewrite (total_rescale_const _ (task_scale task_progress_df df task))
    by reflexivity.
  unfold task_scale.
  destruct (required_total_of task_progress_df task) as [q|]; [|reflexivity].
  destruct (Num.ltb 0 (Curve.total (Curve.of_task task df))) eqn:E.
  - apply ltb_lt in E. pose proof (Qcpos_neq _ E) as Hne.
    replace (Curve.total (Curve.of_task task df)
             * (q / Curve.total (Curve.of_task task df)))
      with q by (field; exact Hne).
    destruct (Num.ltb 0 q) eqn:Eq; [|reflexivity].
    apply ltb_lt in Eq. field. now apply Qcpos_neq.
  - rewrite Qcmult_1_r, E. reflexivity.
Qed.

End PhaseBMore.

(** X4. Phase B is idempotent: when every task of the table has a row in
    [task_progress_df], the per-task scaling returns, and running it again
    on its own result changes nothing. *)
Theorem per_task_scaling_idempotent
    (task_progress_df : list TaskProgress.row) (df : list Curve.row) :
  (forall r, In r df -> has_target task_progress_df (Curve.Task r)) ->
  exists final,
    per_task_scaling task_progress_df df = Ok final /\
    per_task_scaling task_progress_df final = Ok final.
Proof.
  intros Hall. eexists.
  split; [now apply per_task_scaling_rescale|].
  rewrite per_task_scaling_rescale.
  - f_equal. apply total_rescale_id. intros r _.
    apply task_scale_after_scaling.
  - intros r Hr. unfold Curve.rescale in Hr. apply in_map_iff in Hr.
    destruct Hr as (r0 & <- & Hr0). rewrite scale_Task. now apply Hall.
Qed.

Lemma per_task_scaling_idempotent_witness :
  exists final,
    per_task_scaling Scenario.task_progress_df
      (adjusted_rows
         (merge_adjusted_man_days Scenario.baseline_df
            Scenario.task_progress_df)) = Ok final /\
    per_task_scaling Scenario.task_progress_df final = Ok final /\
    List.length final = 10%nat.
Proof.
  destruct (per_task_scaling_idempotent Scenario.task_progress_df
              (adjusted_rows
                 (merge_adjusted_man_days Scenario.baseline_df
                    Scenario.task_progress_df)))
    as (final & H1 & H2).
  - intros r Hr. exists (Num.of_Z 1500).
    vm_compute in Hr.
    repeat (destruct Hr as [<-|Hr]; [canon_target|]); contradiction.
  - exists final. split; [exact H1|]. split; [exact H2|].
    vm_compute in H1. injection H1 as <-. reflexivity.
Defined.

(** ** The adjusted curve is never negative *)

Section NonNegative.

Local Open Scope Qc_scope.

Lemma Qcmult_nonneg (x y : Qc) : 0 <= x -> 0 <= y -> 0 <= x * y.
Proof.
  intros Hx Hy. replace 0 with (0 * y) by ring.
  now apply Qcmult_le_compat_r.
Qed.

Lemma Qcdiv_nonneg (x y : Qc) : 0 <= x -> 0 < y -> 0 <= x / y.
Proof.
  intros Hx Hy. apply Qcmult_nonneg; [exact Hx|].
  apply Qclt_le_weak. now apply Qcinv_pos.
Qed.

Lemma Qcle_0_1 : 0 <= 1.
Proof. vm_compute. discriminate. Qed.

Context {R : Type}.
Variable plan : R -> outcome Qc.
Variable mask : R -> Curve.row -> bool.
Variable actual : R -> Qc.

Lemma factor_nonneg x r :
  0 <= actual x -> 0 <= Refine.factor plan mask actual x r.
Proof.
  intros Ha. unfold Refine.factor.
  destruct (plan x) as [p|]; [|apply Qcle_0_1].
  destruct (Num.ltb 0 p) eqn:E; simpl; [|apply Qcle_0_1].
  destruct (mask x r); [|apply Qcle_0_1].
  apply Qcdiv_nonneg; [exact Ha | now apply ltb_lt].
Qed.

Lemma multiplier_nonneg rows r :
  (forall x, In x rows -> 0 <= actual x) ->
  0 <= Refine.multiplier plan mask actual rows r.
Proof.
  induction rows as [|x rows IH]; simpl; intros H; [apply Qcle_0_1|].
  apply Qcmult_nonneg.
  - apply factor_nonneg, H. now left.
  - apply IH. intros. apply H. now right.
Qed.

End NonNegative.

Lemma weekly_edited_range shown returned w :
  weekly_edited shown returned -> In w returned ->
  (0 <= Weekly.Progress w)%Qc /\ (Weekly.Progress w <= Num.of_Z 300)%Qc.
Proof.
  intros H Hw. destruct (Forall2_In_right _ _ _ _ H Hw)
    as (w0 & _ & p & Hlo & Hhi & ->).
  simpl. tauto.
Qed.

Lemma daily_edited_range shown returned x :
  daily_edited shown returned -> In x returned ->
  (0 <= Daily.Progress x)%Qc /\ (Daily.Progress x <= Num.of_Z 300)%Qc.
Proof.
  intros H Hx. destruct (Forall2_In_right _ _ _ _ H Hx)
    as (x0 & _ & p & Hlo & Hhi & ->).
  simpl. tauto.
Qed.

Section NonNegativeCurve.

Local Open Scope Qc_scope.

Lemma task_scale_nonneg tp df task q :
  required_total_of tp task = Ok q -> 0 <= q ->
  0 <= task_scale tp df task.
Proof.
  intros Hq Hpos. unfold task_scale. rewrite Hq.
  destruct (Num.ltb 0 (Curve.total (Curve.of_task task df))) eqn:E;
    [|apply Qcle_0_1].
  apply Qcdiv_nonneg; [exact Hpos | now apply ltb_lt].
Qed.

End NonNegativeCurve.

(** X5. On the tables of a session, for either report type, the final
    adjusted curve of a task with a positive rate is never negative, before
    and after the rounding: the editors keep every share at or above 0, so
    every Phase A factor and the Phase B scale are non-negative. *)
Theorem adjusted_curve_is_not_negative
    (report_type : ReportType) (selected_weekdays : list Z)
    (baseline_df : list Baseline.row)
    (task_progress_df : list TaskProgress.row)
    (weekly_df : list Weekly.row) (daily_df : list Daily.row)
    (b : Baseline.row) :
  session_tables selected_weekdays baseline_df task_progress_df weekly_df
                 daily_df ->
  In b baseline_df ->
  (0 < Baseline.rate b)%Qc ->
  exists final,
    adjusted_curve report_type selected_weekdays baseline_df
      task_progress_df weekly_df daily_df = Ok final /\
    (forall r, In r (Curve.of_task (Baseline.task_code b) final) ->
               (0 <= Curve.Manpower r)%Qc) /\
    (forall r, In r (Curve.of_task (Baseline.task_code b)
                       (round_curve final)) ->
               (0 <= Curve.Manpower r)%Qc).
Proof.
  intros tables Hb Hrate.
  pose proof (adjusted_curve_rescale report_type _ _ _ _ _ tables) as HB.
  eexists. split; [exact HB|].
  set (reshaped := reshaped_curve report_type selected_weekdays baseline_df
                     task_progress_df weekly_df daily_df) in *.
  destruct (merge_has_partner _ _ _ _ _ tables b Hb)
    as (p & _ & Hrel & Hq & _).
  assert (Hbv : baseline_valid b).
  { pose proof (st_valid _ _ _ _ _ tables) as Hv.
    rewrite Forall_forall in Hv. now apply Hv. }
  assert (Htarget : (0 < TaskProgress.Adjusted_Man_Days p)%Qc).
  { destruct Hrel as (_ & _ & _ & _ & Hlo & _ & ->).
    destruct Hbv as (Hboq & _ & _ & -> & _).
    apply Qcdiv_pos; [now apply Qcdiv_pos|].
    apply Qcdiv_pos; [|apply hundred_pos].
    apply Qclt_le_trans with 1%Qc; [reflexivity | exact Hlo]. }
  assert (Hmain : forall r,
            In r (Curve.of_task (Baseline.task_code b)
                    (Curve.rescale
                       (fun r => task_scale task_progress_df reshaped
                                   (Curve.Task r)) reshaped)) ->
            (0 <= Curve.Manpower r)%Qc).
  { intros r Hr. rewrite of_task_final in Hr.
    unfold reshaped in Hr at 2.
    rewrite (of_task_reshaped report_type _ _ _ _ _ tables b Hb) in Hr.
    unfold Curve.rescale in Hr. rewrite map_map in Hr.
    apply in_map_iff in Hr. destruct Hr as (r0 & <- & Hr0).
    unfold Curve.scale. cbn [Curve.Manpower].
    apply Qcmult_nonneg; [apply Qcmult_nonneg|].
    - unfold uniform_curve in Hr0.
      rewrite (expand_row_Manpower _ _ Hr0). cbn [fst snd].
      unfold target_of. rewrite Hq.
      apply Qcdiv_nonneg; [now apply Qclt_le_weak|].
      apply of_nat_pos. unfold task_dates. rewrite date_range_length.
      destruct Hbv as (_ & _ & Hd & _). lia.
    - destruct report_type; simpl.
      + apply multiplier_nonneg. intros x Hx.
        apply (daily_edited_range _ _ _ (st_daily _ _ _ _ _ tables) Hx).
      + apply multiplier_nonneg. intros w Hw.
        apply (weekly_edited_range _ _ _ (st_weekly _ _ _ _ _ tables) Hw).
    - apply (task_scale_nonneg _ _ _ _ Hq). now apply Qclt_le_weak. }
  split; [exact Hmain|].
  intros r Hr. rewrite of_task_round_curve in Hr.
  unfold round_curve in Hr. apply in_map_iff in Hr.
  destruct Hr as (r0 & <- & Hr0). cbn [Curve.Manpower].
  apply round2_nonneg. now apply Hmain.
Qed.

Lemma adjusted_curve_is_not_negative_witness :
  exists final,
    adjusted_curve Weekly_Report Scenario.mon_sat Scenario.baseline_df
      Scenario.task_progress_df Scenario.weekly_df_140 Scenario.daily_df
    = Ok final /\
    (forall r, In r (Curve.of_task "BLK" final) ->
               (0 <= Curve.Manpower r)%Qc).
Proof.
  destruct (adjusted_curve_is_not_negative Weekly_Report Scenario.mon_sat
              Scenario.baseline_df Scenario.task_progress_df
              Scenario.weekly_df_140 Scenario.daily_df Scenario.blk_baseline
              scenario_tables_weekly (or_introl eq_refl))
    as (final & H & Hpos & _).
  - reflexivity.
  - exists final. split; [exact H | exact Hpos].
Defined.

(** ** Daily mode within the cap *)

Section DailySuccess.

Local Open Scope Qc_scope.

Lemma sum_nonneg (l : list Qc) :
  (forall v, In v l -> 0 <= v) -> 0 <= Num.sum l.
Proof.
  induction l as [|a l IH]; simpl; intros H; [apply Qcle_refl|].
  replace 0 with (0 + 0) by ring.
  apply Qcplus_le_compat; [apply H; now left|].
  apply IH. intros. apply H. now right.
Qed.

Lemma task_sum_nonneg rows task :
  (forall kv, In kv rows -> 0 <= snd kv) -> 0 <= task_sum rows task.
Proof.
  intros H. unfold task_sum. apply sum_nonneg.
  intros v Hv. apply in_map_iff in Hv. destruct Hv as (kv & <- & Hkv).
  apply filter_In in Hkv. now apply H.
Qed.

Lemma share_bounds (total : Qc) :
  0 <= total -> total <= Num.hundred ->
  0 <= 1 - total / Num.hundred /\ 1 - total / Num.hundred <= 1.
Proof.
  intros Hlo Hhi.
  assert (Hlo' : (0 <= this total)%Q) by exact Hlo.
  assert (Hhi' : (this total <= 100 # 1)%Q).
  { unfold Qcle, Num.hundred in Hhi. rewrite this_of_Z in Hhi. exact Hhi. }
  assert (E : (this (1 - total / Num.hundred) == 1 - this total * (1 # 100))%Q).
  { rewrite this_minus, this_div. unfold Num.hundred. rewrite this_of_Z.
    reflexivity. }
  split; apply Qcle_Q; rewrite E; change (this 0) with 0%Q;
    change (this 1) with 1%Q; revert Hlo' Hhi'; generalize (this total);
    intros q Hlo' Hhi'; lra.
Qed.

Lemma balance_bounds (boq total : Qc) :
  0 < boq -> 0 <= total -> total <= Num.hundred ->
  0 <= boq * (1 - total / Num.hundred)
  /\ boq * (1 - total / Num.hundred) <= boq.
Proof.
  intros Hb Hlo Hhi. destruct (share_bounds total Hlo Hhi) as [H0 H1].
  split.
  - apply Qcmult_nonneg; [now apply Qclt_le_weak | exact H0].
  - rewrite Qcmult_comm.
    replace boq with (1 * boq) at 2 by ring.
    apply Qcmult_le_compat_r; [exact H1 | now apply Qclt_le_weak].
Qed.

End DailySuccess.

(** Every task of the baseline has a daily record. *)
Lemma task_has_daily_record wd bdf tp wdf ddf b :
  session_tables wd bdf tp wdf ddf -> In b bdf ->
  In (Baseline.task_code b) (map Daily.Task ddf).
Proof.
  intros tables Hb.
  assert (Hv : baseline_valid b).
  { pose proof (st_valid _ _ _ _ _ tables) as Hv.
    rewrite Forall_forall in Hv. now apply Hv. }
  destruct Hv as (_ & _ & Hd & _).
  assert (Hk : In (Baseline.task_code b, Baseline.start_date b)
                  (map daily_key ddf)).
  { rewrite (daily_df_keys _ _ _ _ _ tables). apply session_keys_In;
      [exact Hb|]. apply date_range_In. lia. }
  apply in_map_iff in Hk. destruct Hk as (x & E & Hx).
  unfold daily_key in E. injection E as E _. rewrite <- E.
  now apply in_map.
Qed.

(** ** The weeks of a task *)

Section Weeks.

Local Abbreviation add_day :=
  (fun (weeks : weeks_dict) (d : date) => dict_append (iso_week d) d weeks).

Lemma dict_append_keys k d weeks x :
  In x (map fst (dict_append k d weeks)) <-> x = k \/ In x (map fst weeks).
Proof.
  induction weeks as [|[k' [d0 ds]] rest IH]; simpl.
  - intuition.
  - destruct (Z.eqb_spec k k') as [->|Hne]; simpl.
    + intuition.
    + rewrite IH. intuition.
Qed.

Lemma dict_append_NoDup k d weeks :
  NoDup (map fst weeks) -> NoDup (map fst (dict_append k d weeks)).
Proof.
  induction weeks as [|[k' [d0 ds]] rest IH]; simpl; intros H.
  - constructor; [intros []|constructor].
  - inversion H as [|? ? Hin Hnd]; subst.
    destruct (Z.eqb_spec k k') as [->|Hne]; simpl.
    + now constructor.
    + constructor; [|now apply IH].
      rewrite dict_append_keys. intros [E|Hc]; [congruence|contradiction].
Qed.

Lemma dict_append_week_days k d weeks x :
  week_days x (dict_append k d weeks)
  = if x =? k then week_days x weeks ++ [d] else week_days x weeks.
Proof.
  unfold week_days.
  induction weeks as [|[k' [d0 ds]] rest IH]; simpl.
  - rewrite (Z.eqb_sym k x). destruct (x =? k); reflexivity.
  - destruct (Z.eqb_spec k k') as [->|Hne]; simpl.
    + destruct (Z.eqb_spec k' x) as [->|Hx].
      * rewrite Z.eqb_refl. reflexivity.
      * destruct (Z.eqb_spec x k'); [congruence|reflexivity].
    + destruct (Z.eqb_spec k' x) as [<-|Hx].
      * destruct (Z.eqb_spec k' k); [congruence|reflexivity].
      * exact IH.
Qed.

Lemma dict_append_dates_held k d weeks :
  dates_held (dict_append k d weeks) = S (dates_held weeks).
Proof.
  unfold dates_held.
  induction weeks as [|[k' [d0 ds]] rest IH]; simpl in *.
  - reflexivity.
  - destruct (k =? k'); simpl in *.
    + rewrite length_app. simpl. lia.
    + rewrite IH. lia.
Qed.

Lemma week_days_In k b weeks :
  NoDup (map fst weeks) -> In (k, b) weeks -> week_days k weeks = bucket_days b.
Proof.
  unfold week_days.
  induction weeks as [|[k' b'] rest IH]; simpl; intros Hnd Hin; [contradiction|].
  inversion Hnd as [|? ? Hnotin Hnd']; subst.
  destruct Hin as [E|Hin].
  - injection E as -> ->. now rewrite Z.eqb_refl.
  - destruct (Z.eqb_spec k' k) as [->|Hne].
    + exfalso. apply Hnotin. change k with (fst (k, b)). now apply in_map.
    + now apply IH.
Qed.

Lemma fold_weeks_keys l : forall acc x,
  In x (map fst (fold_left add_day l acc))
  <-> In x (map iso_week l) \/ In x (map fst acc).
Proof.
  induction l as [|d l IH]; simpl; intros acc x; [tauto|].
  rewrite IH, dict_append_keys. intuition.
Qed.

Lemma fold_weeks_NoDup l : forall acc,
  NoDup (map fst acc) -> NoDup (map fst (fold_left add_day l acc)).
Proof.
  induction l as [|d l IH]; simpl; intros acc H; [exact H|].
  apply IH. now apply dict_append_NoDup.
Qed.

Lemma fold_weeks_days l : forall acc x,
  week_days x (fold_left add_day l acc)
  = week_days x acc ++ filter (fun d => iso_week d =? x) l.
Proof.
  induction l as [|d l IH]; simpl; intros acc x.
  - now rewrite app_nil_r.
  - rewrite IH, dict_append_week_days, (Z.eqb_sym (iso_week d) x).
    destruct (x =? iso_week d); [now rewrite <- app_assoc | reflexivity].
Qed.

Lemma fold_weeks_dates_held l : forall acc,
  dates_held (fold_left add_day l acc) = (dates_held acc + List.length l)%nat.
Proof.
  induction l as [|d l IH]; simpl; intros acc; [lia|].
  rewrite IH, dict_append_dates_held. lia.
Qed.

Lemma group_weeks_NoDup l : NoDup (map fst (group_weeks l)).
Proof. apply fold_weeks_NoDup. constructor. Qed.

Lemma group_weeks_bucket l k b :
  In (k, b) (group_weeks l) ->
  bucket_days b = filter (fun d => iso_week d =? k) l.
Proof.
  intros Hin. rewrite <- (week_days_In k b _ (group_weeks_NoDup l) Hin).
  unfold group_weeks. now rewrite fold_weeks_days.
Qed.

Lemma group_weeks_keys l k :
  In k (map fst (group_weeks l)) <-> In k (map iso_week l).
Proof. unfold group_weeks. rewrite fold_weeks_keys. simpl. tauto. Qed.

Lemma group_weeks_nil l : group_weeks l = [] <-> l = [].
Proof.
  split; [|now intros ->].
  intros E. destruct l as [|d l]; [reflexivity|].
  assert (H : In (iso_week d) (map fst (group_weeks (d :: l)))).
  { apply group_weeks_keys. now left. }
  rewrite E in H. contradiction.
Qed.

Lemma fold_min_In l : forall a, In (fold_left Z.min l a) (a :: l).
Proof.
  induction l as [|x l IH]; simpl; intros a; [now left|].
  destruct (IH (Z.min a x)) as [E|Hin].
  - rewrite <- E. destruct (Z.min_spec a x) as [[_ ->]|[_ ->]]; tauto.
  - tauto.
Qed.

Lemma fold_max_In l : forall a, In (fold_left Z.max l a) (a :: l).
Proof.
  induction l as [|x l IH]; simpl; intros a; [now left|].
  destruct (IH (Z.max a x)) as [E|Hin].
  - rewrite <- E. destruct (Z.max_spec a x) as [[_ ->]|[_ ->]]; tauto.
  - tauto.
Qed.

Lemma fold_min_le l : forall a x, In x (a :: l) -> fold_left Z.min l a <= x.
Proof.
  induction l as [|y l IH]; simpl; intros a x Hx.
  - destruct Hx as [->|[]]. lia.
  - destruct Hx as [<-|[<-|Hx]].
    + etransitivity; [apply IH; now left | lia].
    + etransitivity; [apply IH; now left | lia].
    + apply IH. now right.
Qed.

Lemma fold_max_ge l : forall a x, In x (a :: l) -> x <= fold_left Z.max l a.
Proof.
  induction l as [|y l IH]; simpl; intros a x Hx.
  - destruct Hx as [->|[]]. lia.
  - destruct Hx as [<-|[<-|Hx]].
    + etransitivity; [|apply IH; now left]. lia.
    + etransitivity; [|apply IH; now left]. lia.
    + apply IH. now right.
Qed.

End Weeks.

(** X8. The [weeks] dictionary of a task groups its working days by ISO
    week number and by nothing else: the keys are distinct, the bucket of a
    key holds exactly the working days with that week number, in their
    order, and every working day is in the bucket of its week number. *)
Theorem weeks_group_working_days_by_week_number (working_days : list date) :
  NoDup (map fst (group_weeks working_days)) /\
  (forall week_key bucket,
     In (week_key, bucket) (group_weeks working_days) ->
     bucket_days bucket
     = filter (fun d => iso_week d =? week_key) working_days) /\
  (forall d, In d working_days ->
     exists bucket,
       In (iso_week d, bucket) (group_weeks working_days) /\
       In d (bucket_days bucket)) /\
  dates_held (group_weeks working_days) = List.length working_days.
Proof.
  split; [apply group_weeks_NoDup|].
  split; [apply group_weeks_bucket|].
  split.
  - intros d Hd.
    assert (Hk : In (iso_week d) (map fst (group_weeks working_days))).
    { apply group_weeks_keys. now apply in_map. }
    apply in_map_iff in Hk. destruct Hk as ([k b] & E & Hin).
    simpl in E. subst k. exists b. split; [exact Hin|].
    rewrite (group_weeks_bucket _ _ _ Hin). apply filter_In.
    split; [exact Hd | apply Z.eqb_refl].
  - unfold group_weeks. now rewrite fold_weeks_dates_held.
Qed.

(** X9. The weekly rows of a task: every row carries the task's code, its
    "Week Start" and "Week End" are working days of the task with the same
    ISO week number, "Week Start" is not after "Week End", "Working Days"
    counts the task's working days with that week number and is at least 1;
    the rows have distinct week numbers and their "Working Days" add up to
    the number of working days of the task. *)
Theorem weekly_rows_of_a_task (selected_weekdays : list Z)
    (row : Baseline.row) :
  let working_days := task_working_days selected_weekdays row in
  let rows := weekly_rows_of selected_weekdays row in
  (forall w, In w rows ->
     Weekly.Task w = Baseline.task_code row /\
     In (Weekly.Week_Start w) working_days /\
     In (Weekly.Week_End w) working_days /\
     Weekly.Week_Start w <= Weekly.Week_End w /\
     iso_week (Weekly.Week_Start w) = iso_week (Weekly.Week_End w) /\
     Weekly.Working_Days w
     = List.length
         (filter (fun d => iso_week d =? iso_week (Weekly.Week_Start w))
                 working_days) /\
     (1 <= Weekly.Working_Days w)%nat) /\
  NoDup (map (fun w => iso_week (Weekly.Week_Start w)) rows) /\
  list_sum (map Weekly.Working_Days rows) = List.length working_days.
Proof.
  cbv zeta.
  set (working := task_working_days selected_weekdays row).
  assert (Hbucket : forall k b, In (k, b) (group_weeks working) ->
            forall d, In d (bucket_days b) ->
                      In d working /\ iso_week d = k).
  { intros k b Hin d Hd. rewrite (group_weeks_bucket _ _ _ Hin) in Hd.
    apply filter_In in Hd. destruct Hd as [Hd E].
    apply Z.eqb_eq in E. tauto. }
  assert (Hstart : forall k b, In (k, b) (group_weeks working) ->
            iso_week (bucket_min b) = k).
  { intros k b Hin. apply (Hbucket k b Hin). apply fold_min_In. }
  split; [|split].
  - intros w Hw. unfold weekly_rows_of in Hw. fold working in Hw.
    apply in_map_iff in Hw. destruct Hw as ([k b] & <- & Hin).
    cbn [Weekly.Task Weekly.Week_Start Weekly.Week_End Weekly.Working_Days
         snd].
    pose proof (Hbucket k b Hin) as Hb.
    destruct (Hb _ (fold_min_In (snd b) (fst b))) as [Hmin Hkmin].
    destruct (Hb _ (fold_max_In (snd b) (fst b))) as [Hmax Hkmax].
    split; [reflexivity|]. split; [exact Hmin|]. split; [exact Hmax|].
    split.
    { etransitivity; [apply fold_min_le | apply fold_max_ge]; now left. }
    split; [unfold bucket_min, bucket_max; congruence|].
    split.
    { unfold bucket_min. rewrite Hkmin.
      now rewrite (group_weeks_bucket _ _ _ Hin). }
    unfold bucket_days. simpl. lia.
  - unfold weekly_rows_of. fold working. rewrite map_map.
    cbn [Weekly.Week_Start].
    rewrite (map_ext_in _ fst); [apply group_weeks_NoDup|].
    intros [k b] Hin. simpl. now apply Hstart.
  - unfold weekly_rows_of. fold working. rewrite map_map.
    cbn [Weekly.Working_Days].
    change (dates_held (group_weeks working) = List.length working).
    unfold group_weeks. now rewrite fold_weeks_dates_held.
Qed.

(** No weekly row at all: no task has a working day. *)
Lemma weekly_rows_nil wd bdf :
  weekly_rows wd bdf = []
  <-> forall b, In b bdf -> task_working_days wd b = [].
Proof.
  unfold weekly_rows. split.
  - intros E b Hin. apply group_weeks_nil.
    destruct (group_weeks (task_working_days wd b)) as [|kv rest] eqn:Eg;
      [reflexivity|].
    exfalso.
    assert (Hin' : exists w, In w (weekly_rows_of wd b)).
    { unfold weekly_rows_of. rewrite Eg. simpl. eexists. now left. }
    destruct Hin' as (w & Hw').
    assert (Hc : In w (flat_map (weekly_rows_of wd) bdf)).
    { apply in_flat_map. exists b. tauto. }
    rewrite E in Hc. contradiction.
  - intros H. induction bdf as [|b rest IH]; [reflexivity|].
    simpl. unfold weekly_rows_of at 1. rewrite (H b (or_introl eq_refl)).
    simpl. apply IH. intros x Hx. apply H. now right.
Qed.

(** X7. Section 2 needs a working day: with a non-empty baseline in the
    session, the section stops with an uncaught [KeyError] exactly when no
    task has a working day in its date range (for instance when no weekday
    is selected); the task table has then been stored, the weekly and daily
    tables and the report request are left as they were. *)
Theorem progress_adjustment_without_working_days (ui : UI) (s : Script)
    (baseline_df : list Baseline.row) (selected_weekdays : list Z) :
  ss_baseline_df (session_state s) = Some baseline_df ->
  ss_working_days (session_state s) = Some selected_weekdays ->
  baseline_df <> [] ->
  ((forall b, In b baseline_df ->
              task_working_days selected_weekdays b = [])
   <-> exists s', progress_adjustment ui s = (Stop KeyError, s')) /\
  (forall s', progress_adjustment ui s = (Stop KeyError, s') ->
     session_state s'
     = store_task_progress
         (map recalculate
            (edit_task_progress ui (map task_progress_default baseline_df)))
         (session_state s)).
Proof.
  intros Hb Hw Hne.
  pose proof (weekly_rows_nil selected_weekdays baseline_df) as Hrows.
  destruct s as [ss results timeline adjusted final_tp].
  cbn [session_state] in Hb, Hw |- *.
  unfold progress_adjustment, bind, get, require, ret, stop, modify_session.
  cbn [session_state]. rewrite Hb, Hw.
  destruct baseline_df as [|b rest]; [congruence|].
  destruct (weekly_rows selected_weekdays (b :: rest)) as [|w rows] eqn:E.
  - split.
    + split; [intros _; eexists; reflexivity|].
      intros _. now apply Hrows.
    + intros s' Hs. injection Hs as <-. reflexivity.
  - split.
    + split.
      * intros H. apply Hrows in H. discriminate.
      * intros (s' & Hs). destruct (button_generate_final ui); discriminate.
    + intros s' Hs. destruct (button_generate_final ui); discriminate.
Qed.

Lemma progress_adjustment_without_working_days_witness :
  exists s',
    progress_adjustment
      {| edit_task_progress := fun df => df; edit_weekly := fun df => df;
         edit_daily := fun df => df; radio_report_type := Daily_Report;
         button_generate_final := true |}
      (fresh_run
         {| ss_baseline_df := Some Scenario.baseline_df;
            ss_working_days := Some [];
            ss_task_progress_df := None; ss_weekly_df := None;
            ss_daily_df := None; ss_generate_final := false;
            ss_report_type := None |})
    = (Stop KeyError, s').
Proof.
  destruct (progress_adjustment_without_working_days
              {| edit_task_progress := fun df => df;
                 edit_weekly := fun df => df;
                 edit_daily := fun df => df;
                 radio_report_type := Daily_Report;
                 button_generate_final := true |}
              (fresh_run
                 {| ss_baseline_df := Some Scenario.baseline_df;
                    ss_working_days := Some [];
                    ss_task_progress_df := None; ss_weekly_df := None;
                    ss_daily_df := None; ss_generate_final := false;
                    ss_report_type := None |})
              Scenario.baseline_df [] eq_refl eq_refl)
    as [[H _] _].
  - discriminate.
  - apply H. intros b Hin. destruct Hin as [<-|[]]. vm_compute. reflexivity.
Defined.

(** ** Untouched daily defaults *)

Section DefaultOverflow.

Local Open Scope Qc_scope.

Lemma task_sum_app rows1 rows2 t :
  task_sum (rows1 ++ rows2) t = task_sum rows1 t + task_sum rows2 t.
Proof. unfold task_sum. now rewrite filter_app, map_app, sum_app. Qed.

Lemma daily_total_app l1 l2 t :
  daily_total (l1 ++ l2) t = daily_total l1 t + daily_total l2 t.
Proof. unfold daily_total. now rewrite map_app, task_sum_app. Qed.

Lemma daily_total_other l t :
  (forall x, In x l -> Daily.Task x <> t) -> daily_total l t = 0.
Proof.
  intros H. unfold daily_total, task_sum. rewrite filter_none; [reflexivity|].
  intros kv Hkv. apply in_map_iff in Hkv. destruct Hkv as (x & <- & Hx).
  simpl. apply String.eqb_neq. now apply H.
Qed.

Lemma daily_total_all l t :
  (forall x, In x l -> Daily.Task x = t) ->
  daily_total l t = Num.sum (map Daily.Progress l).
Proof.
  intros H. unfold daily_total, task_sum.
  induction l as [|x l IH]; simpl; [reflexivity|].
  rewrite (H x (or_introl eq_refl)), String.eqb_refl. simpl.
  f_equal. apply IH. intros y Hy. apply H. now right.
Qed.

(** The default daily shares of a task add up to n * round(100 / n, 2). *)
Lemma daily_total_default wd bdf b :
  NoDup (map Baseline.task_code bdf) -> In b bdf ->
  daily_total (daily_rows wd bdf) (Baseline.task_code b)
  = Num.of_nat (List.length (task_working_days wd b))
    * auto_percent (List.length (task_working_days wd b)).
Proof.
  intros Hnd Hb. unfold daily_rows.
  induction bdf as [|b0 rest IH]; [contradiction|].
  simpl. rewrite daily_total_app.
  inversion Hnd as [|? ? Hnot Hnd']; subst.
  destruct Hb as [->|Hb].
  - rewrite daily_total_all.
    2:{ intros x Hx. now apply daily_rows_of_In in Hx. }
    rewrite daily_rows_of_sum.
    rewrite (daily_total_other (flat_map _ rest)); [ring|].
    intros x Hx E. apply in_flat_map in Hx. destruct Hx as (b' & Hb' & Hx).
    apply daily_rows_of_In in Hx. destruct Hx as (Ht & _).
    apply Hnot. rewrite <- E, Ht. now apply in_map.
  - rewrite daily_total_other.
    2:{ intros x Hx E. apply daily_rows_of_In in Hx. destruct Hx as (Ht & _).
        apply Hnot. rewrite <- Ht, E. now apply in_map. }
    rewrite (IH Hnd' Hb). ring.
Qed.

End DefaultOverflow.

(** X10. Untouched daily defaults can be rejected: when the daily table is
    the default one, the Daily Report stops with ProgressOverflow exactly
    when some task has a number n of working days for which
    n * round(100 / n, 2) exceeds 100 (n = 31 is one: 31 * 3.23 = 100.13). *)
Theorem untouched_daily_defaults_can_be_rejected (s : Script)
    (selected_weekdays : list Z) (baseline_df : list Baseline.row)
    (task_progress_df : list TaskProgress.row)
    (weekly_df : list Weekly.row) :
  session_tables selected_weekdays baseline_df task_progress_df weekly_df
    (daily_rows selected_weekdays baseline_df) ->
  session_state s
  = final_session Daily_Report selected_weekdays baseline_df
      task_progress_df weekly_df (daily_rows selected_weekdays baseline_df) ->
  (exists b,
     In b baseline_df /\
     let n := List.length (task_working_days selected_weekdays b) in
     (Num.hundred < Num.of_nat n * auto_percent n)%Qc)
  <-> (exists task total s',
         final_report s = (Stop (ProgressOverflow task total), s')).
Proof.
  intros tables Hs.
  pose proof (st_unique _ _ _ _ _ tables) as Hnd.
  rewrite (final_report_ready s Daily_Report _ _ _ _ _ tables Hs).
  unfold effective_progress_and_balance, bind.
  set (ddf := daily_rows selected_weekdays baseline_df).
  set (s1 := with_adjusted_df _ s).
  split.
  - intros (b & Hb & Hgt). cbv zeta in Hgt.
    rewrite <- (daily_total_default selected_weekdays _ _ Hnd Hb) in Hgt.
    fold ddf in Hgt.
    destruct (first_overflow (daily_effective_progress ddf))
      as [Hall|(pre & t & tot & post & E & Hpre & Htot)].
    + exfalso.
      assert (Hin : In (Baseline.task_code b, daily_total ddf
                                                (Baseline.task_code b))
                       (daily_effective_progress ddf)).
      { apply lookup_In. unfold daily_effective_progress.
        rewrite groupby_sum_lookup, map_map. simpl.
        replace (mem _ _) with true; [reflexivity|].
        symmetry. apply mem_In.
        apply (task_has_daily_record _ _ _ _ _ _ tables Hb). }
      rewrite Forall_forall in Hall. specialize (Hall _ Hin).
      unfold no_overflow in Hall. simpl in Hall.
      exact (Qclt_not_le _ _ Hgt Hall).
    + exists t, tot, s1. rewrite E.
      now rewrite (check_daily_overflow_stops pre t tot post s1 Hpre Htot).
  - intros (task & total & s' & Hrun).
    destruct (check_daily_overflow (daily_effective_progress ddf) s1)
      as [[[]|e1] s2] eqn:C; [discriminate|].
    apply check_daily_overflow_inv in C.
    destruct C as (_ & t & tot & _ & Hin & Hgt).
    apply groupby_sum_In in Hin. destruct Hin as [Hkey ->].
    rewrite map_map in Hkey. simpl in Hkey.
    apply in_map_iff in Hkey. destruct Hkey as (x & Ht & Hx).
    unfold ddf, daily_rows in Hx. apply in_flat_map in Hx.
    destruct Hx as (b & Hb & Hx).
    apply daily_rows_of_In in Hx. destruct Hx as (Hcode & _).
    exists b. split; [exact Hb|]. cbv zeta.
    rewrite <- (daily_total_default selected_weekdays _ _ Hnd Hb).
    fold ddf. unfold daily_total. now rewrite <- Hcode, Ht.
Qed.

Lemma untouched_daily_defaults_can_be_rejected_witness :
  exists task total s',
    final_report
      (fresh_run
         (final_session Daily_Report Scenario31.all_days
            [Scenario31.january]
            (map recalculate
               (map task_progress_default [Scenario31.january]))
            (weekly_rows Scenario31.all_days [Scenario31.january])
            (daily_rows Scenario31.all_days [Scenario31.january])))
    = (Stop (ProgressOverflow task total), s').
Proof.
  apply (proj1
           (untouched_daily_defaults_can_be_rejected
              (fresh_run
                 (final_session Daily_Report Scenario31.all_days
                    [Scenario31.january]
                    (map recalculate
                       (map task_progress_default [Scenario31.january]))
                    (weekly_rows Scenario31.all_days [Scenario31.january])
                    (daily_rows Scenario31.all_days [Scenario31.january])))
              _ _ _ _
              (default_tables Scenario31.all_days [Scenario31.january]
                 january_valid
                 ltac:(constructor; [intros []|constructor]))
              eq_refl)).
  exists Scenario31.january. split; [now left|].
  vm_compute. reflexivity.
Defined.

(** ** The report request across reruns *)

Section SessionSteps.

Context (R : Session -> Session -> Prop).
Hypothesis R_refl : forall ss, R ss ss.
Hypothesis R_trans : forall a b c, R a b -> R b c -> R a c.

Lemma step_bind {A B} (m : M A) (k : A -> M B) :
  session_step R m -> (forall a, session_step R (k a)) ->
  session_step R (bind m k).
Proof.
  intros Hm Hk s o s' Hrun. unfold bind in Hrun.
  destruct (m s) as [[a|e] s1] eqn:E.
  - exact (R_trans _ _ _ (Hm _ _ _ E) (Hk a _ _ _ Hrun)).
  - injection Hrun as <- <-. exact (Hm _ _ _ E).
Qed.

Lemma step_ret {A} (a : A) : session_step R (ret a).
Proof. intros s o s' H. injection H as <- <-. apply R_refl. Qed.

Lemma step_stop {A} e : session_step R (@stop A e).
Proof. intros s o s' H. injection H as <- <-. apply R_refl. Qed.

Lemma step_get : session_step R get.
Proof. intros s o s' H. injection H as <- <-. apply R_refl. Qed.

Lemma step_lift {A} (x : outcome A) : session_step R (lift x).
Proof. intros s o s' H. injection H as <- <-. apply R_refl. Qed.

Lemma step_require {A} (x : option A) : session_step R (require x).
Proof. destruct x; [apply step_ret | apply step_stop]. Qed.

Lemma step_set_baseline_results l : session_step R (set_baseline_results l).
Proof. intros s o s' H. injection H as <- <-. apply R_refl. Qed.

Lemma step_set_timeline_df l : session_step R (set_timeline_df l).
Proof. intros s o s' H. injection H as <- <-. apply R_refl. Qed.

Lemma step_set_adjusted_df l : session_step R (set_adjusted_df l).
Proof. intros s o s' H. injection H as <- <-. apply R_refl. Qed.

Lemma step_set_final_task_progress_df l :
  session_step R (set_final_task_progress_df l).
Proof. intros s o s' H. injection H as <- <-. apply R_refl. Qed.

Lemma step_modify_session f :
  (forall ss, R ss (f ss)) -> session_step R (modify_session f).
Proof. intros Hf s o s' H. injection H as <- <-. apply Hf. Qed.

Lemma step_baseline_step row : session_step R (baseline_step row).
Proof.
  unfold baseline_step.
  destruct (Num.leb (Input.BOQ row) 0); [apply step_stop|].
  destruct (Input.End_Date row <? Input.Start_Date row);
    [apply step_stop|].
  apply step_bind; [apply step_lift|]. intros [[man_days manpower] duration].
  apply step_bind; [apply step_get|]. intros s.
  apply step_set_baseline_results.
Qed.

Lemma step_baseline_loop rows : session_step R (baseline_loop rows).
Proof.
  induction rows as [|row rows IH]; simpl; [apply step_ret|].
  apply step_bind; [apply step_baseline_step | intros _; exact IH].
Qed.

Lemma step_check_daily_overflow groups :
  session_step R (check_daily_overflow groups).
Proof.
  induction groups as [|[t tot] rest IH]; simpl; [apply step_ret|].
  destruct (Num.ltb Num.hundred tot); [apply step_stop | exact IH].
Qed.

Lemma step_final_report : session_step R final_report.
Proof.
  unfold final_report.
  apply step_bind; [apply step_get|]. intros s.
  destruct (ss_generate_final (session_state s)); [|apply step_ret].
  repeat (apply step_bind; [apply step_require|]; intros ?).
  apply step_bind; [apply step_set_adjusted_df|]. intros _.
  apply step_bind; [apply step_get|]. intros s1.
  apply step_bind; [apply step_require|]. intros df1.
  apply step_bind; [apply step_lift|]. intros df2.
  apply step_bind; [apply step_set_adjusted_df|]. intros _.
  apply step_bind; [apply step_lift|]. intros df3.
  apply step_bind; [apply step_set_adjusted_df|]. intros _.
  apply step_bind; [apply step_set_adjusted_df|]. intros _.
  unfold effective_progress_and_balance.
  match goal with |- context [match ?rt with _ => _ end] => destruct rt end.
  - apply step_bind; [apply step_check_daily_overflow|]. intros _.
    apply step_set_final_task_progress_df.
  - apply step_set_final_task_progress_df.
Qed.

End SessionSteps.

Lemma request_kept_refl ui ss : request_kept ui ss ss.
Proof. split; [tauto|]. intros _. split; reflexivity. Qed.

Lemma request_kept_trans ui a b c :
  request_kept ui a b -> request_kept ui b c -> request_kept ui a c.
Proof.
  intros [H1 H2] [H3 H4]. split; [tauto|].
  intros Hb. destruct (H2 Hb) as [E1 E2]. destruct (H4 Hb) as [E3 E4].
  split; congruence.
Qed.

Lemma step_generate_initial_report ui rows wd :
  session_step (request_kept ui) (generate_initial_report rows wd).
Proof.
  pose proof (request_kept_refl ui) as Hr.
  pose proof (request_kept_trans ui) as Ht.
  unfold generate_initial_report.
  apply step_bind; [assumption | now apply step_set_baseline_results|].
  intros _.
  apply step_bind; [assumption | now apply step_baseline_loop|]. intros _.
  apply step_bind; [assumption | now apply step_get|]. intros s.
  apply step_bind; [assumption| |].
  - apply step_modify_session. intros ss. split; simpl; [tauto|].
    intros _. split; reflexivity.
  - intros _. destruct (baseline_results s);
      [now apply step_stop | now apply step_set_timeline_df].
Qed.

Lemma step_progress_adjustment ui :
  session_step (request_kept ui) (progress_adjustment ui).
Proof.
  pose proof (request_kept_refl ui) as Hr.
  pose proof (request_kept_trans ui) as Ht.
  assert (Hstore : forall f,
             (forall ss, ss_generate_final (f ss) = ss_generate_final ss
                         /\ ss_report_type (f ss) = ss_report_type ss) ->
             session_step (request_kept ui) (modify_session f)).
  { intros f Hf. apply step_modify_session. intros ss.
    destruct (Hf ss) as [E1 E2]. split; [congruence|].
    intros _. split; assumption. }
  unfold progress_adjustment.
  apply step_bind; [assumption | now apply step_get|]. intros s.
  destruct (ss_baseline_df (session_state s)) as [bdf|];
    [|now apply step_ret].
  apply step_bind; [assumption | now apply step_require|]. intros wd.
  destruct bdf as [|b rest]; [now apply step_stop|].
  apply step_bind; [assumption | apply Hstore; intros; split; reflexivity|].
  intros _.
  destruct (weekly_rows wd (b :: rest)) as [|w rows];
    [now apply step_stop|].
  apply step_bind; [assumption | apply Hstore; intros; split; reflexivity|].
  intros _.
  apply step_bind; [assumption | apply Hstore; intros; split; reflexivity|].
  intros _.
  destruct (button_generate_final ui) eqn:Hb; [|now apply step_ret].
  apply step_modify_session. intros ss. split; [reflexivity|].
  rewrite Hb. discriminate.
Qed.

(** A click that Section 2 completes is recorded. *)
Lemma progress_adjustment_click ui s s' :
  progress_adjustment ui s = (Ok tt, s') ->
  button_generate_final ui = true ->
  ss_baseline_df (session_state s) <> None ->
  ss_generate_final (session_state s') = true /\
  ss_report_type (session_state s') = Some (radio_report_type ui).
Proof.
  intros Hrun Hb Hbase. destruct s as [ss results timeline adjusted final_tp].
  cbn [session_state] in Hbase.
  unfold progress_adjustment, bind, get, require, ret, stop, modify_session
    in Hrun.
  cbn [session_state] in Hrun.
  destruct (ss_baseline_df ss) as [bdf|]; [|congruence].
  destruct (ss_working_days ss) as [wd|]; [|discriminate].
  destruct bdf as [|b rest]; [discriminate|].
  destruct (weekly_rows wd (b :: rest)) as [|w rows]; [discriminate|].
  rewrite Hb in Hrun. injection Hrun as <-. split; reflexivity.
Qed.

(** Section 2 never replaces the baseline it reads. *)
Lemma step_progress_adjustment_baseline ui :
  session_step (fun a b => ss_baseline_df a = ss_baseline_df b)
    (progress_adjustment ui).
Proof.
  set (R := fun a b : Session => ss_baseline_df a = ss_baseline_df b).
  assert (Hr : forall ss, R ss ss) by reflexivity.
  assert (Ht : forall a b c, R a b -> R b c -> R a c)
    by (unfold R; intros; congruence).
  unfold progress_adjustment.
  apply step_bind; [assumption | now apply step_get|]. intros s.
  destruct (ss_baseline_df (session_state s)) as [bdf|];
    [|now apply step_ret].
  apply step_bind; [assumption | now apply step_require|]. intros wd.
  destruct bdf as [|b rest]; [now apply step_stop|].
  apply step_bind;
    [assumption | apply step_modify_session; reflexivity|].
  intros _.
  destruct (weekly_rows wd (b :: rest)) as [|w rows];
    [now apply step_stop|].
  apply step_bind;
    [assumption | apply step_modify_session; reflexivity|].
  intros _.
  apply step_bind;
    [assumption | apply step_modify_session; reflexivity|].
  intros _.
  destruct (button_generate_final ui); [|now apply step_ret].
  apply step_modify_session. reflexivity.
Qed.

(** X11. The report request across runs: no run of the script, completed
    or stopped, clears [generate_final]; a run without a click on "Generate
    Final Report" leaves [generate_final] and the stored [report_type] as
    they were, whatever the radio shows; and a run in which Section 1, if
    its button was clicked, completes with its line chart drawn and
    Section 2 runs to its end with a click stores the radio's report type,
    whether Section 3 then completes or stops. *)
Theorem report_request_is_never_withdrawn (edited_df : list Input.row)
    (selected_weekdays : list Z) (button_initial : bool) (ui : UI)
    (s : Script) (o : outcome unit) (s' : Script) :
  script_run edited_df selected_weekdays button_initial ui s = (o, s') ->
  (ss_generate_final (session_state s) = true ->
   ss_generate_final (session_state s') = true) /\
  (button_generate_final ui = false ->
   ss_generate_final (session_state s')
   = ss_generate_final (session_state s) /\
   ss_report_type (session_state s') = ss_report_type (session_state s)) /\
  (forall s1 s2,
     (if button_initial
      then generate_initial_report edited_df selected_weekdays
      else ret tt) s = (Ok tt, s1) ->
     (button_initial = true ->
      exists chart, baseline_chart (baseline_results s1) = inr chart) ->
     progress_adjustment ui s1 = (Ok tt, s2) ->
     ss_baseline_df (session_state s1) <> None ->
     button_generate_final ui = true ->
     ss_generate_final (session_state s') = true /\
     ss_report_type (session_state s') = Some (radio_report_type ui)).
Proof.
  intros Hrun.
  pose proof (request_kept_refl ui) as Hr.
  pose proof (request_kept_trans ui) as Ht.
  assert (Hinit : session_step (request_kept ui)
                    (if button_initial
                     then generate_initial_report edited_df selected_weekdays
                     else ret tt)).
  { destruct button_initial;
      [apply step_generate_initial_report | now apply step_ret]. }
  assert (Hall : session_step (request_kept ui)
                   (script_run edited_df selected_weekdays button_initial ui)).
  { unfold script_run.
    apply step_bind; [assumption | exact Hinit|]. intros _.
    apply step_bind; [assumption | apply step_progress_adjustment|].
    intros _. now apply step_final_report. }
  destruct (Hall _ _ _ Hrun) as [H1 H2].
  split; [exact H1|]. split; [exact H2|].
  intros s1 s2 E1 _ E2 Hbase Hb.
  unfold script_run, bind in Hrun. rewrite E1, E2 in Hrun.
  pose proof (step_final_report eq (@eq_refl _)
                (fun a b c H H' => eq_trans H H') _ _ _ Hrun) as E3.
  rewrite <- E3. exact (progress_adjustment_click ui s1 s2 E2 Hb Hbase).
Qed.

Lemma report_request_is_never_withdrawn_witness :
  exists total s',
    script_run [] Scenario.mon_sat false
      {| edit_task_progress := fun df => df; edit_weekly := fun df => df;
         edit_daily := fun df => map (set_daily_progress (Num.of_Z 25)) df;
         radio_report_type := Daily_Report;
         button_generate_final := true |}
      (fresh_run (final_session Weekly_Report Scenario.mon_sat
                    Scenario.baseline_df Scenario.task_progress_df
                    Scenario.weekly_df Scenario.daily_df))
    = (Stop (ProgressOverflow "BLK" total), s') /\
    ss_generate_final (session_state s') = true /\
    ss_report_type (session_state s') = Some Daily_Report.
Proof.
  assert (Hrun : exists total s',
             script_run [] Scenario.mon_sat false
               {| edit_task_progress := fun df => df;
                  edit_weekly := fun df => df;
                  edit_daily :=
                    fun df => map (set_daily_progress (Num.of_Z 25)) df;
                  radio_report_type := Daily_Report;
                  button_generate_final := true |}
               (fresh_run (final_session Weekly_Report Scenario.mon_sat
                             Scenario.baseline_df Scenario.task_progress_df
                             Scenario.weekly_df Scenario.daily_df))
             = (Stop (ProgressOverflow "BLK" total), s'))
    by (eexists; eexists; vm_compute; reflexivity).
  destruct Hrun as (total & s' & Hrun).
  exists total, s'. split; [exact Hrun|].
  destruct (report_request_is_never_withdrawn _ _ _ _ _ _ _ Hrun)
    as (_ & _ & Hclick).
  destruct (progress_adjustment
              {| edit_task_progress := fun df => df;
                 edit_weekly := fun df => df;
                 edit_daily :=
                   fun df => map (set_daily_progress (Num.of_Z 25)) df;
                 radio_report_type := Daily_Report;
                 button_generate_final := true |}
              (fresh_run (final_session Weekly_Report Scenario.mon_sat
                            Scenario.baseline_df Scenario.task_progress_df
                            Scenario.weekly_df Scenario.daily_df)))
    as [[[]|e] s2] eqn:E2; [|vm_compute in E2; discriminate].
  apply (Hclick _ s2 eq_refl); [discriminate | exact E2 | |reflexivity].
  discriminate.
Defined.

(** ** Tasks do not interact *)

Section Isolation.

Local Open Scope Qc_scope.

Lemma find_filter {A} (f : A -> bool) (l : list A) :
  find f l = hd_error (filter f l).
Proof.
  induction l as [|a l IH]; simpl; [reflexivity|].
  destruct (f a); [reflexivity | exact IH].
Qed.

Lemma required_total_filter tp tp' task :
  filter (fun p => String.eqb (TaskProgress.task_code p) task) tp
  = filter (fun p => String.eqb (TaskProgress.task_code p) task) tp' ->
  required_total_of tp task = required_total_of tp' task.
Proof.
  intros E. unfold required_total_of. now rewrite !find_filter, E.
Qed.

Context {R : Type}.
Variable plan : R -> outcome Qc.
Variable mask : R -> Curve.row -> bool.
Variable actual : R -> Qc.

(** Records whose mask cannot select a row do not count in its
    multiplier. *)
Lemma multiplier_filter (f : R -> bool) rows r :
  (forall x, f x = false -> mask x r = false) ->
  Refine.multiplier plan mask actual rows r
  = Refine.multiplier plan mask actual (filter f rows) r.
Proof.
  intros H. induction rows as [|x rows IH]; simpl; [reflexivity|].
  destruct (f x) eqn:E; simpl; rewrite IH; [reflexivity|].
  rewrite (factor_untouched plan mask actual x r); [ring|].
  unfold Refine.touches. destruct (plan x); [|reflexivity].
  rewrite (H x E). apply andb_false_r.
Qed.

End Isolation.

Lemma weekly_multiplier_of_task wd bdf wdf r :
  weekly_multiplier wd bdf wdf r
  = weekly_multiplier wd bdf
      (filter (fun w => String.eqb (Weekly.Task w) (Curve.Task r)) wdf) r.
Proof.
  apply multiplier_filter. intros w E. unfold weekly_mask.
  now rewrite String.eqb_sym, E.
Qed.

Lemma daily_multiplier_of_task wd bdf ddf r :
  daily_multiplier wd bdf ddf r
  = daily_multiplier wd bdf
      (filter (fun d => String.eqb (Daily.Task d) (Curve.Task r)) ddf) r.
Proof.
  apply multiplier_filter. intros d E. unfold daily_mask.
  now rewrite String.eqb_sym, E.
Qed.

(** X12. Tasks do not interact: on the tables of two sessions over the same
    baseline, when the rows of one task are the same in the three progress
    tables, the final adjusted curve of that task is the same, whatever
    was entered for the other tasks. *)
Theorem tasks_do_not_interact (report_type : ReportType)
    (selected_weekdays : list Z) (baseline_df : list Baseline.row)
    (task_progress_df task_progress_df' : list TaskProgress.row)
    (weekly_df weekly_df' : list Weekly.row)
    (daily_df daily_df' : list Daily.row) (b : Baseline.row) :
  session_tables selected_weekdays baseline_df task_progress_df weekly_df
                 daily_df ->
  session_tables selected_weekdays baseline_df task_progress_df' weekly_df'
                 daily_df' ->
  In b baseline_df ->
  filter (fun p => String.eqb (TaskProgress.task_code p)
                              (Baseline.task_code b)) task_progress_df
  = filter (fun p => String.eqb (TaskProgress.task_code p)
                                (Baseline.task_code b)) task_progress_df' ->
  filter (fun w => String.eqb (Weekly.Task w) (Baseline.task_code b))
         weekly_df
  = filter (fun w => String.eqb (Weekly.Task w) (Baseline.task_code b))
           weekly_df' ->
  filter (fun d => String.eqb (Daily.Task d) (Baseline.task_code b))
         daily_df
  = filter (fun d => String.eqb (Daily.Task d) (Baseline.task_code b))
           daily_df' ->
  exists curve curve',
    adjusted_curve report_type selected_weekdays baseline_df
      task_progress_df weekly_df daily_df = Ok curve /\
    adjusted_curve report_type selected_weekdays baseline_df
      task_progress_df' weekly_df' daily_df' = Ok curve' /\
    Curve.of_task (Baseline.task_code b) curve
    = Curve.of_task (Baseline.task_code b) curve'.
Proof.
  intros tables tables' Hb Etp Ew Ed.
  eexists. eexists.
  split; [apply (adjusted_curve_rescale report_type _ _ _ _ _ tables)|].
  split; [apply (adjusted_curve_rescale report_type _ _ _ _ _ tables')|].
  pose proof (required_total_filter _ _ _ Etp) as Ereq.
  assert (Euni : uniform_curve task_progress_df b
                 = uniform_curve task_progress_df' b).
  { unfold uniform_curve, target_of. now rewrite Ereq. }
  assert (Eres : Curve.of_task (Baseline.task_code b)
                   (reshaped_curve report_type selected_weekdays baseline_df
                      task_progress_df weekly_df daily_df)
                 = Curve.of_task (Baseline.task_code b)
                     (reshaped_curve report_type selected_weekdays
                        baseline_df task_progress_df' weekly_df' daily_df')).
  { rewrite (of_task_reshaped report_type _ _ _ _ _ tables b Hb).
    rewrite (of_task_reshaped report_type _ _ _ _ _ tables' b Hb).
    rewrite <- Euni. apply rescale_ext_in. intros r Hr.
    apply uniform_curve_Task in Hr.
    unfold refinement_multiplier. destruct report_type.
    - rewrite daily_multiplier_of_task,
        (daily_multiplier_of_task _ _ daily_df').
      now rewrite Hr, Ed.
    - rewrite weekly_multiplier_of_task,
        (weekly_multiplier_of_task _ _ weekly_df').
      now rewrite Hr, Ew. }
  rewrite !of_task_final, Eres. apply rescale_ext_in. intros r _.
  unfold task_scale. now rewrite Ereq, Eres.
Qed.

Lemma scenario2_valid : Forall baseline_valid Scenario2.baseline_df.
Proof.
  constructor; [|constructor; [|constructor]]; unfold baseline_valid; simpl;
    (split; [reflexivity|]; split; [discriminate|];
     split; [vm_compute; discriminate|]; split; [canon|];
     split; [reflexivity | canon]).
Qed.

Lemma scenario2_NoDup : NoDup (map Baseline.task_code Scenario2.baseline_df).
Proof.
  simpl. constructor; [|constructor; [intros []|constructor]].
  intros [E|[]]. discriminate.
Qed.

Lemma scenario2_tables :
  session_tables Scenario.mon_sat Scenario2.baseline_df
    Scenario2.task_progress_df Scenario2.weekly_df Scenario2.daily_df.
Proof. apply default_tables; [apply scenario2_valid | apply scenario2_NoDup]. Qed.

Lemma scenario2_tables_shu :
  session_tables Scenario.mon_sat Scenario2.baseline_df
    Scenario2.task_progress_df Scenario2.weekly_df Scenario2.daily_df_shu.
Proof.
  destruct scenario2_tables as [Hv Hn Ht Hw _].
  constructor; try assumption.
  unfold daily_edited, edited, Scenario2.daily_df_shu, Scenario2.daily_df.
  match goal with |- context [daily_rows ?a ?b] =>
    let l := fresh "l" in
    set (l := daily_rows a b); vm_compute in l; subst l end.
  simpl map. solve_edited.
Qed.

Lemma tasks_do_not_interact_witness :
  exists curve curve',
    adjusted_curve Daily_Report Scenario.mon_sat Scenario2.baseline_df
      Scenario2.task_progress_df Scenario2.weekly_df Scenario2.daily_df
    = Ok curve /\
    adjusted_curve Daily_Report Scenario.mon_sat Scenario2.baseline_df
      Scenario2.task_progress_df Scenario2.weekly_df Scenario2.daily_df_shu
    = Ok curve' /\
    Curve.of_task "BLK" curve = Curve.of_task "BLK" curve'.
Proof.
  apply (tasks_do_not_interact Daily_Report _ _ _ _ _ _ _ _
           Scenario.blk_baseline scenario2_tables scenario2_tables_shu).
  - now left.
  - reflexivity.
  - reflexivity.
  - vm_compute. reflexivity.
Defined.

(** ** The line charts *)

Section SortUniqueFacts.

Context {A : Type}.
Variable compare : A -> A -> comparison.
Hypothesis compare_eq : forall x y, compare x y = Eq -> x = y.
Hypothesis compare_trans :
  forall x y z, compare x y = Lt -> compare y z = Lt -> compare x z = Lt.
Hypothesis compare_gt : forall x y, compare x y = Gt -> compare y x = Lt.

Lemma insert_sorted_In x l y :
  In y (insert_sorted compare x l) <-> y = x \/ In y l.
Proof.
  induction l as [|a l IH]; simpl.
  - intuition.
  - destruct (compare x a) eqn:C; simpl.
    + apply compare_eq in C. subst a. intuition.
    + intuition.
    + rewrite IH. intuition.
Qed.

Lemma insert_sorted_increasing x l :
  increasing compare l -> increasing compare (insert_sorted compare x l).
Proof.
  induction l as [|a l IH]; simpl.
  - intros _. split; [constructor | exact I].
  - intros [Hall Hinc]. destruct (compare x a) eqn:C; simpl.
    + tauto.
    + split; [|tauto]. constructor; [exact C|].
      apply Forall_forall. intros y Hy. rewrite Forall_forall in Hall.
      exact (compare_trans _ _ _ C (Hall y Hy)).
    + split; [|now apply IH]. apply Forall_forall. intros y Hy.
      apply insert_sorted_In in Hy. destruct Hy as [->|Hy].
      * now apply compare_gt.
      * rewrite Forall_forall in Hall. now apply Hall.
Qed.

Lemma sort_unique_In l y : In y (sort_unique compare l) <-> In y l.
Proof.
  induction l as [|a l IH]; simpl; [tauto|].
  rewrite insert_sorted_In, IH. intuition.
Qed.

Lemma sort_unique_increasing l : increasing compare (sort_unique compare l).
Proof.
  induction l as [|a l IH]; simpl; [exact I|].
  now apply insert_sorted_increasing.
Qed.

End SortUniqueFacts.

Lemma Z_compare_gt x y : (x ?= y) = Gt -> (y ?= x) = Lt.
Proof. intros H. apply Z.compare_gt_iff in H. now apply Z.compare_lt_iff. Qed.

Lemma Z_compare_trans x y z :
  (x ?= y) = Lt -> (y ?= z) = Lt -> (x ?= z) = Lt.
Proof. rewrite !Z.compare_lt_iff. lia. Qed.

Lemma string_compare_eq x y : String.compare x y = Eq -> x = y.
Proof. apply String.compare_eq_iff. Qed.

Section IndexOf.

Context {A : Type}.
Variable eqb : A -> A -> bool.
Hypothesis eqb_eq : forall x y, eqb x y = true <-> x = y.

Lemma index_of_In x l :
  In x l ->
  exists n, index_of eqb x l = Some n /\ nth_error l n = Some x.
Proof.
  induction l as [|a l IH]; simpl; [tauto|].
  intros Hin. destruct (eqb a x) eqn:E.
  - apply eqb_eq in E. subst a. exists O. split; reflexivity.
  - destruct Hin as [->|Hin].
    + assert (H : eqb x x = true) by now apply eqb_eq. congruence.
    + destruct (IH Hin) as (n & -> & Hn). exists (S n).
      split; [reflexivity | exact Hn].
Qed.

End IndexOf.

Section NoDupFlatMap.

Context {A K : Type}.
Hypothesis K_dec : forall x y : K, {x = y} + {x <> y}.

Lemma NoDup_app_iff (l1 l2 : list K) :
  NoDup (l1 ++ l2)
  <-> NoDup l1 /\ NoDup l2 /\ forall x, In x l1 -> ~ In x l2.
Proof.
  induction l1 as [|a l1 IH]; simpl.
  - split; [intros H; repeat split; [constructor | exact H | tauto]|tauto].
  - split.
    + intros H. inversion H as [|? ? Hnot Hnd]; subst.
      apply IH in Hnd. destruct Hnd as (H1 & H2 & H3).
      split; [constructor; [|exact H1]|split; [exact H2|]].
      * intros Hin. apply Hnot, in_or_app. now left.
      * intros x [->|Hx]; [|now apply H3].
        intros Hin. apply Hnot, in_or_app. now right.
    + intros (H1 & H2 & H3). inversion H1 as [|? ? Hnot Hnd]; subst.
      constructor.
      * intros Hin. apply in_app_or in Hin. destruct Hin as [Hin|Hin];
          [tauto|]. exact (H3 a (or_introl eq_refl) Hin).
      * apply IH. split; [exact Hnd|]. split; [exact H2|].
        intros x Hx. apply H3. now right.
Qed.

Lemma common_element (l1 l2 : list K) :
  (forall x, In x l1 -> ~ In x l2) \/ exists x, In x l1 /\ In x l2.
Proof.
  induction l1 as [|a l1 IH]; [left; intros x []|].
  destruct (in_dec K_dec a l2) as [Hin|Hnot].
  - right. exists a. split; [now left | exact Hin].
  - destruct IH as [H|(x & H1 & H2)].
    + left. intros x [->|Hx]; [exact Hnot | now apply H].
    + right. exists x. split; [now right | exact H2].
Qed.

Variable f : A -> list K.
Hypothesis f_NoDup : forall a, NoDup (f a).

(** A label occurs twice in [flat_map f l] exactly when two elements of
    [l], at different positions, produce it. *)
Lemma flat_map_not_NoDup (l : list A) :
  ~ NoDup (flat_map f l)
  <-> exists pre a mid b post k,
        l = pre ++ a :: mid ++ b :: post /\ In k (f a) /\ In k (f b).
Proof.
  split.
  - induction l as [|a l IH]; simpl; intros Hnot.
    + exfalso. apply Hnot. constructor.
    + destruct (ListDec.NoDup_dec K_dec (flat_map f l)) as [Hnd|Hnd].
      * destruct (common_element (f a) (flat_map f l))
          as [Hdis|(k & Hk1 & Hk2)].
        -- exfalso. apply Hnot. apply NoDup_app_iff. auto.
        -- apply in_flat_map in Hk2. destruct Hk2 as (b & Hb & Hk2).
           apply in_split in Hb. destruct Hb as (mid & post & ->).
           exists [], a, mid, b, post, k. auto.
      * destruct (IH Hnd) as (pre & x & mid & y & post & k & -> & H1 & H2).
        exists (a :: pre), x, mid, y, post, k. auto.
  - intros (pre & a & mid & b & post & k & -> & H1 & H2) Hnd.
    rewrite flat_map_app in Hnd. apply NoDup_app_iff in Hnd.
    destruct Hnd as (_ & Hnd & _). simpl in Hnd.
    apply NoDup_app_iff in Hnd. destruct Hnd as (_ & _ & Hdis).
    apply (Hdis k H1). apply in_flat_map. exists b.
    split; [|exact H2]. apply in_or_app. right. now left.
Qed.

End NoDupFlatMap.

Section PivotFacts.

Local Open Scope Qc_scope.

Lemma label_dec (x y : Z * string) : {x = y} + {x <> y}.
Proof. decide equality; [apply string_dec | apply Z.eq_dec]. Qed.

Lemma at_label_true i c x :
  Pivot.at_label i c x = true <-> Pivot.label x = (i, c).
Proof.
  unfold Pivot.at_label. rewrite andb_true_iff, Z.eqb_eq, String.eqb_eq.
  destruct (Pivot.label x) as [i' c']. simpl. split.
  - intros [-> ->]. reflexivity.
  - intros E. injection E as -> ->. tauto.
Qed.

Lemma duplicate_entries_NoDup cells :
  Pivot.duplicate_entries cells = false <-> NoDup (map Pivot.label cells).
Proof.
  induction cells as [|x cells IH]; simpl.
  - split; [constructor | reflexivity].
  - rewrite orb_false_iff, IH. split.
    + intros [Hex Hnd]. constructor; [|exact Hnd].
      intros Hin. apply in_map_iff in Hin. destruct Hin as (y & E & Hy).
      apply not_true_iff_false in Hex. apply Hex.
      apply existsb_exists. exists y. split; [exact Hy|].
      apply at_label_true. rewrite E. now destruct (Pivot.label x).
    + intros H. inversion H as [|? ? Hnot Hnd]; subst.
      split; [|exact Hnd]. apply not_true_iff_false. intros Hex.
      apply existsb_exists in Hex. destruct Hex as (y & Hy & E).
      apply at_label_true in E. apply Hnot. apply in_map_iff.
      exists y. split; [|exact Hy]. rewrite E.
      now destruct (Pivot.label x).
Qed.

Lemma pivot_fails cells :
  Pivot.pivot_fillna cells = inl Pivot.DuplicateEntries
  <-> ~ NoDup (map Pivot.label cells).
Proof.
  unfold Pivot.pivot_fillna. destruct cells as [|x cells].
  - split; [discriminate|]. intros H. exfalso. apply H. constructor.
  - destruct (Pivot.duplicate_entries (x :: cells)) eqn:E.
    + split; [|reflexivity]. intros _ Hnd.
      apply duplicate_entries_NoDup in Hnd. congruence.
    + split; [discriminate|]. intros H. exfalso. apply H.
      now apply duplicate_entries_NoDup.
Qed.

Lemma entry_of_cell cells x :
  NoDup (map Pivot.label cells) -> In x cells ->
  Pivot.entry cells (fst (Pivot.label x)) (snd (Pivot.label x))
  = Pivot.value x.
Proof.
  intros Hnd Hin. unfold Pivot.entry.
  destruct (find _ cells) as [y|] eqn:F.
  - apply find_some in F. destruct F as [Hy E].
    apply at_label_true in E. rewrite <- surjective_pairing in E.
    f_equal. clear - Hnd Hin Hy E.
    induction cells as [|a cells IH]; [contradiction|].
    simpl in Hnd. inversion Hnd as [|? ? Hnot Hnd']; subst.
    destruct Hin as [->|Hin], Hy as [->|Hy]; try reflexivity.
    + exfalso. apply Hnot. rewrite <- E. now apply in_map.
    + exfalso. apply Hnot. rewrite E. now apply in_map.
    + now apply IH.
  - exfalso. pose proof (find_none _ _ F x Hin) as Hx.
    apply not_true_iff_false in Hx. apply Hx.
    apply at_label_true. apply surjective_pairing.
Qed.

Lemma entry_absent cells i c :
  ~ In (i, c) (map Pivot.label cells) -> Pivot.entry cells i c = 0.
Proof.
  intros Hnot. unfold Pivot.entry.
  destruct (find _ cells) as [y|] eqn:F; [|reflexivity].
  apply find_some in F. destruct F as [Hy E]. apply at_label_true in E.
  exfalso. apply Hnot. rewrite <- E. now apply in_map.
Qed.

(** What a successful pivot holds. *)
Lemma pivot_table_spec cells t :
  Pivot.pivot_fillna cells = inr t ->
  NoDup (map Pivot.label cells) /\
  increasing Z.compare (Pivot.index t) /\
  increasing String.compare (Pivot.columns t) /\
  (forall i, In i (Pivot.index t)
             <-> In i (map (fun x => fst (Pivot.label x)) cells)) /\
  (forall c, In c (Pivot.columns t)
             <-> In c (map (fun x => snd (Pivot.label x)) cells)) /\
  (forall i c, In i (Pivot.index t) -> In c (Pivot.columns t) ->
               Pivot.loc t i c = Some (Pivot.entry cells i c)).
Proof.
  unfold Pivot.pivot_fillna. destruct cells as [|x0 cells0]; [discriminate|].
  set (cells := x0 :: cells0).
  destruct (Pivot.duplicate_entries cells) eqn:E; [discriminate|].
  intros H. injection H as <-. cbn [Pivot.index Pivot.columns].
  set (index := map (fun x => fst (Pivot.label x)) cells).
  set (columns := map (fun x => snd (Pivot.label x)) cells).
  pose proof (sort_unique_increasing Z.compare Z.compare_eq Z_compare_trans
                Z_compare_gt index) as Hi_inc.
  pose proof (sort_unique_increasing String.compare string_compare_eq
                compare_lt_trans compare_gt_lt columns) as Hc_inc.
  pose proof (sort_unique_In Z.compare Z.compare_eq index) as Hi_in.
  pose proof (sort_unique_In String.compare string_compare_eq columns)
    as Hc_in.
  split; [now apply duplicate_entries_NoDup|].
  split; [exact Hi_inc|]. split; [exact Hc_inc|].
  split; [exact Hi_in|]. split; [exact Hc_in|].
  intros i c Hi Hc. unfold Pivot.loc.
  cbn [Pivot.index Pivot.columns Pivot.values].
  change (In i (sort_unique Z.compare index)) in Hi.
  change (In c (sort_unique String.compare columns)) in Hc.
  destruct (index_of_In Z.eqb Z.eqb_eq i _ Hi) as (row & Erow & Hrow).
  destruct (index_of_In String.eqb String.eqb_eq c _ Hc)
    as (col & Ecol & Hcol).
  change (match index_of Z.eqb i (sort_unique Z.compare index) with
          | Some row =>
              match index_of String.eqb c
                      (sort_unique String.compare columns) with
              | Some col =>
                  nth_error
                    (nth row
                       (map (fun i => map (Pivot.entry cells i)
                                          (sort_unique String.compare
                                             columns))
                            (sort_unique Z.compare index)) []) col
              | None => None
              end
          | None => None
          end = Some (Pivot.entry cells i c)).
  rewrite Erow, Ecol.
  rewrite (nth_error_nth _ _ _ (map_nth_error _ _ _ Hrow)).
  now apply map_nth_error.
Qed.

Lemma chart_labels_NoDup b : NoDup (chart_labels b).
Proof.
  unfold chart_labels. apply Injective_map_NoDup.
  - intros d1 d2 E. now injection E.
  - apply date_range_NoDup.
Qed.

Lemma chart_labels_In b d c :
  In (d, c) (chart_labels b)
  <-> (Baseline.start_date b <= d <= Baseline.end_date b)%Z
      /\ c = Baseline.trade_name b.
Proof.
  unfold chart_labels, task_dates. rewrite in_map_iff. split.
  - intros (d' & E & Hd). injection E as -> <-.
    apply date_range_In in Hd. tauto.
  - intros [Hd ->]. exists d. split; [reflexivity|].
    now apply date_range_In.
Qed.

Lemma chart_labels_overlap bdf :
  ~ NoDup (flat_map chart_labels bdf) <-> trade_overlap bdf.
Proof.
  rewrite (flat_map_not_NoDup label_dec chart_labels chart_labels_NoDup).
  unfold trade_overlap, share_a_date. split.
  - intros (pre & b1 & mid & b2 & post & [d c] & E & H1 & H2).
    apply chart_labels_In in H1, H2. destruct H1 as [H1 ->], H2 as [H2 E2].
    exists pre, b1, mid, b2, post. split; [exact E|].
    split; [exact E2|]. exists d. tauto.
  - intros (pre & b1 & mid & b2 & post & E & Et & d & H1 & H2).
    exists pre, b1, mid, b2, post, (d, Baseline.trade_name b1).
    split; [exact E|]. split; apply chart_labels_In; tauto.
Qed.

Lemma timeline_labels bdf :
  map Pivot.label
    (map (fun r => (Timeline.date_ r, Timeline.trade_name r,
                    Timeline.manpower r))
         (timeline_rows bdf))
  = flat_map chart_labels bdf.
Proof.
  rewrite map_map. unfold timeline_rows. rewrite map_flat_map.
  apply flat_map_ext_In. intros b _. unfold chart_labels, task_dates.
  rewrite map_map. reflexivity.
Qed.

End PivotFacts.

(** X13. The baseline line chart cannot be drawn when a trade has two tasks
    at work on the same day: [timeline_df.pivot] raises [ValueError] exactly
    when two rows of the baseline table, at different positions, have the
    same trade and a calendar date in common. *)
Theorem baseline_chart_fails_on_trade_overlap
    (baseline_df : list Baseline.row) :
  baseline_chart baseline_df = inl Pivot.DuplicateEntries
  <-> trade_overlap baseline_df.
Proof.
  unfold baseline_chart. rewrite pivot_fails, timeline_labels.
  apply chart_labels_overlap.
Qed.

Lemma timeline_cells_In bdf x :
  In x (map (fun r => (Timeline.date_ r, Timeline.trade_name r,
                       Timeline.manpower r))
            (timeline_rows bdf))
  <-> exists b d,
        In b bdf /\ Baseline.start_date b <= d <= Baseline.end_date b /\
        x = (d, Baseline.trade_name b, Baseline.manpower b).
Proof.
  rewrite in_map_iff. unfold timeline_rows. split.
  - intros (r & <- & Hr). apply in_flat_map in Hr.
    destruct Hr as (b & Hb & Hr). apply in_map_iff in Hr.
    destruct Hr as (d & <- & Hd). apply date_range_In in Hd.
    exists b, d. simpl. tauto.
  - intros (b & d & Hb & Hd & ->).
    exists {| Timeline.date_ := d;
              Timeline.trade_name := Baseline.trade_name b;
              Timeline.manpower := Baseline.manpower b |}.
    split; [reflexivity|]. apply in_flat_map. exists b.
    split; [exact Hb|]. apply in_map_iff. exists d.
    split; [reflexivity | now apply date_range_In].
Qed.

(** X14. The baseline line chart when it can be drawn: the dates and the
    trades are in increasing order without repetition; the dates are those
    on which some task is at work (working day or not) and the trades those
    of the tasks; the value for a trade on a date of one of its tasks is
    that task's manpower, and 0 (from [fillna]) on the dates on which the
    trade has no task. *)
Theorem baseline_chart_values (baseline_df : list Baseline.row)
    (chart : Pivot.table) :
  baseline_chart baseline_df = inr chart ->
  increasing Z.compare (Pivot.index chart) /\
  increasing String.compare (Pivot.columns chart) /\
  (forall d, In d (Pivot.index chart)
     <-> exists b, In b baseline_df /\
                   Baseline.start_date b <= d <= Baseline.end_date b) /\
  (forall c, In c (Pivot.columns chart)
     <-> exists b, In b baseline_df /\ Baseline.trade_name b = c /\
                   Baseline.start_date b <= Baseline.end_date b) /\
  (forall b d, In b baseline_df ->
     Baseline.start_date b <= d <= Baseline.end_date b ->
     Pivot.loc chart d (Baseline.trade_name b)
     = Some (Baseline.manpower b)) /\
  (forall d c, In d (Pivot.index chart) -> In c (Pivot.columns chart) ->
     (forall b, In b baseline_df -> Baseline.trade_name b = c ->
                ~ Baseline.start_date b <= d <= Baseline.end_date b) ->
     Pivot.loc chart d c = Some 0%Qc).
Proof.
  unfold baseline_chart. intros Hchart.
  set (cells := map (fun r => (Timeline.date_ r, Timeline.trade_name r,
                               Timeline.manpower r))
                    (timeline_rows baseline_df)) in *.
  destruct (pivot_table_spec cells chart Hchart)
    as (Hnd & Hinc_i & Hinc_c & Hindex & Hcolumns & Hloc).
  assert (Hdates : forall d, In d (Pivot.index chart)
            <-> exists b, In b baseline_df /\
                  Baseline.start_date b <= d <= Baseline.end_date b).
  { intros d. rewrite Hindex, in_map_iff. split.
    - intros (x & <- & Hx). apply timeline_cells_In in Hx.
      destruct Hx as (b & d & Hb & Hd & ->). exists b. simpl. tauto.
    - intros (b & Hb & Hd).
      exists (d, Baseline.trade_name b, Baseline.manpower b).
      split; [reflexivity|]. apply timeline_cells_In. exists b, d. tauto. }
  assert (Htrades : forall c, In c (Pivot.columns chart)
            <-> exists b, In b baseline_df /\ Baseline.trade_name b = c /\
                  Baseline.start_date b <= Baseline.end_date b).
  { intros c. rewrite Hcolumns, in_map_iff. split.
    - intros (x & <- & Hx). apply timeline_cells_In in Hx.
      destruct Hx as (b & d & Hb & Hd & ->). exists b. simpl.
      split; [exact Hb|]. split; [reflexivity | lia].
    - intros (b & Hb & <- & Hd).
      exists (Baseline.start_date b, Baseline.trade_name b,
              Baseline.manpower b).
      split; [reflexivity|]. apply timeline_cells_In.
      exists b, (Baseline.start_date b). split; [exact Hb|].
      split; [lia | reflexivity]. }
  split; [exact Hinc_i|]. split; [exact Hinc_c|].
  split; [exact Hdates|]. split; [exact Htrades|]. split.
  - intros b d Hb Hd. rewrite Hloc.
    + f_equal.
      apply (entry_of_cell cells
               (d, Baseline.trade_name b, Baseline.manpower b) Hnd).
      apply timeline_cells_In. exists b, d. tauto.
    + apply Hdates. exists b. tauto.
    + apply Htrades. exists b. split; [exact Hb|].
      split; [reflexivity | lia].
  - intros d c Hd Hc Hnone. rewrite (Hloc d c Hd Hc). f_equal.
    apply entry_absent. intros Hin. apply in_map_iff in Hin.
    destruct Hin as (x & E & Hx). apply timeline_cells_In in Hx.
    destruct Hx as (b & d' & Hb & Hd' & ->).
    unfold Pivot.label in E. simpl in E. injection E as -> E.
    exact (Hnone b Hb E Hd').
Qed.

Lemma baseline_chart_values_witness :
  exists chart,
    baseline_chart Scenario2.baseline_df = inr chart /\
    Pivot.loc chart (Scenario.jan 5) "Carpenter" = Some (Num.of_Z 50) /\
    Pivot.loc chart (Scenario.jan 11) "Mason" = Some 0%Qc.
Proof.
  destruct (baseline_chart Scenario2.baseline_df) as [e|chart] eqn:E;
    [vm_compute in E; discriminate|].
  exists chart. split; [reflexivity|].
  destruct (baseline_chart_values _ _ E)
    as (_ & _ & Hdates & Htrades & Hvalue & Hzero).
  split.
  - apply (Hvalue Scenario2.shu_baseline (Scenario.jan 5)).
    + right. now left.
    + vm_compute. split; discriminate.
  - apply Hzero.
    + apply Hdates. exists Scenario2.shu_baseline.
      split; [right; now left | vm_compute; split; discriminate].
    + apply Htrades. exists Scenario.blk_baseline.
      split; [now left|]. split; [reflexivity | vm_compute; discriminate].
    + intros b [<-|[<-|[]]] Et.
      * vm_compute. intros [_ H]. now apply H.
      * discriminate.
Defined.

Lemma check_daily_overflow_state groups s o s' :
  check_daily_overflow groups s = (o, s') -> s' = s.
Proof.
  induction groups as [|[t tot] rest IH]; simpl.
  - intros H. now injection H.
  - destruct (Num.ltb Num.hundred tot); [|exact IH].
    intros H. now injection H.
Qed.

Lemma curve_labels tp bdf g h :
  map Pivot.label
    (map (fun r => (Curve.Date r, Curve.Trade r, Curve.Manpower r))
         (round_curve
            (Curve.rescale g
               (Curve.rescale h (flat_map (uniform_curve tp) bdf)))))
  = flat_map chart_labels bdf.
Proof.
  unfold round_curve, Curve.rescale. rewrite !map_map.
  unfold Pivot.label. cbn [fst Curve.Date Curve.Trade Curve.scale].
  rewrite map_flat_map. apply flat_map_ext_In. intros b _.
  unfold uniform_curve, expand_row, chart_labels. rewrite map_map.
  reflexivity.
Qed.

(** X15. The final daily line chart has the same limit as the baseline
    one: on the tables of a session, when the Daily Report passes the
    100% check, [adjusted_df.pivot] raises [ValueError] exactly when two
    tasks of the same trade have a calendar date in common, whatever
    progress was entered. *)
Theorem final_daily_chart_fails_on_trade_overlap (s s' : Script)
    (selected_weekdays : list Z) (baseline_df : list Baseline.row)
    (task_progress_df : list TaskProgress.row)
    (weekly_df : list Weekly.row) (daily_df : list Daily.row) :
  session_tables selected_weekdays baseline_df task_progress_df weekly_df
                 daily_df ->
  session_state s
  = final_session Daily_Report selected_weekdays baseline_df
      task_progress_df weekly_df daily_df ->
  final_report s = (Ok tt, s') ->
  exists adjusted,
    adjusted_df s' = Some adjusted /\
    (final_daily_chart adjusted = inl Pivot.DuplicateEntries
     <-> trade_overlap baseline_df).
Proof.
  intros tables Hs Hrun.
  rewrite (final_report_ready s Daily_Report _ _ _ _ _ tables Hs) in Hrun.
  unfold effective_progress_and_balance, bind in Hrun.
  destruct (check_daily_overflow _ _) as [[[]|e] s1] eqn:C;
    [|discriminate].
  apply check_daily_overflow_state in C. subst s1.
  injection Hrun as <-.
  eexists. split; [reflexivity|].
  unfold final_daily_chart, final_curve, reshaped_curve.
  rewrite pivot_fails, curve_labels. apply chart_labels_overlap.
Qed.

Lemma scenario3_tables :
  session_tables Scenario.mon_sat Scenario3.baseline_df
    Scenario3.task_progress_df Scenario3.weekly_df Scenario3.daily_df.
Proof.
  apply default_tables.
  - constructor; [|constructor; [|constructor]]; unfold baseline_valid;
      simpl;
      (split; [reflexivity|]; split; [discriminate|];
       split; [vm_compute; discriminate|]; split; [canon|];
       split; [reflexivity | canon]).
  - simpl. constructor; [|constructor; [intros []|constructor]].
    intros [E|[]]. discriminate.
Qed.

Lemma final_daily_chart_fails_on_trade_overlap_witness :
  exists s' adjusted,
    final_report
      (fresh_run
         (final_session Daily_Report Scenario.mon_sat Scenario3.baseline_df
            Scenario3.task_progress_df Scenario3.weekly_df
            Scenario3.daily_df))
    = (Ok tt, s') /\
    adjusted_df s' = Some adjusted /\
    final_daily_chart adjusted = inl Pivot.DuplicateEntries.
Proof.
  destruct (final_report
              (fresh_run
                 (final_session Daily_Report Scenario.mon_sat
                    Scenario3.baseline_df Scenario3.task_progress_df
                    Scenario3.weekly_df Scenario3.daily_df)))
    as [[[]|e] s'] eqn:E; [|vm_compute in E; discriminate].
  destruct (final_daily_chart_fails_on_trade_overlap
              (fresh_run
                 (final_session Daily_Report Scenario.mon_sat
                    Scenario3.baseline_df Scenario3.task_progress_df
                    Scenario3.weekly_df Scenario3.daily_df))
              s' _ _ _ _ _ scenario3_tables eq_refl E)
    as (adjusted & Hadj & Hchart).
  exists s', adjusted. split; [reflexivity|]. split; [exact Hadj|].
  apply Hchart.
  exists [], Scenario.blk_baseline, [], Scenario3.pls_baseline, [].
  split; [reflexivity|]. split; [reflexivity|].
  exists (Scenario.jan 5). vm_compute. repeat split; discriminate.
Defined.

(** ** The trade summaries *)

Section TradeSummary.

Local Open Scope Qc_scope.

Lemma group_add_total k v groups :
  Num.sum (map snd (group_add k v groups)) = Num.sum (map snd groups) + v.
Proof.
  induction groups as [|[k' s] rest IH]; simpl; [ring|].
  destruct (String.compare k k'); simpl; [ring | ring |].
  rewrite IH. ring.
Qed.

Lemma groupby_sum_total rows :
  Num.sum (map snd (groupby_sum rows)) = Num.sum (map snd rows).
Proof.
  unfold groupby_sum.
  assert (H : forall acc,
             Num.sum (map snd (fold_left
                                 (fun groups kv =>
                                    group_add (fst kv) (snd kv) groups)
                                 rows acc))
             = Num.sum (map snd acc) + Num.sum (map snd rows)).
  { induction rows as [|kv rows IH]; simpl; intros acc; [ring|].
    rewrite IH, group_add_total. ring. }
  rewrite H. simpl. ring.
Qed.

Lemma task_sum_map {A} (key : A -> string) (val : A -> Qc) (l : list A) t :
  task_sum (map (fun a => (key a, val a)) l) t
  = Num.sum (map val (filter (fun a => String.eqb (key a) t) l)).
Proof.
  unfold task_sum. induction l as [|a l IH]; simpl; [reflexivity|].
  destruct (String.eqb (key a) t); simpl; now rewrite IH.
Qed.

Lemma groupby_sum_keys rows k :
  In k (map fst (groupby_sum rows)) <-> In k (map fst rows).
Proof.
  split.
  - intros H. apply in_map_iff in H. destruct H as ([k' s] & <- & Hin).
    now apply groupby_sum_In in Hin.
  - intros H. apply in_map_iff. exists (k, task_sum rows k).
    split; [reflexivity|]. apply lookup_In.
    rewrite groupby_sum_lookup.
    replace (mem k (map fst rows)) with true; [reflexivity|].
    symmetry. now apply mem_In.
Qed.

End TradeSummary.

(** X16. The baseline trade summary: one row per trade of the baseline
    table, in increasing order of the trade name; the value of a trade is
    the sum of the manpower of its tasks, whether or not they are at work
    at the same time; and the values of the summary add up to the sum of
    the manpower of all tasks. *)
Theorem trade_summary_adds_task_manpower (baseline_df : list Baseline.row) :
  sorted_groups (trade_summary baseline_df) /\
  (forall trade, In trade (map fst (trade_summary baseline_df))
     <-> exists b, In b baseline_df /\ Baseline.trade_name b = trade) /\
  (forall trade total, In (trade, total) (trade_summary baseline_df) ->
     total
     = Num.sum (map Baseline.manpower (tasks_of_trade trade baseline_df))) /\
  Num.sum (map snd (trade_summary baseline_df))
  = Num.sum (map Baseline.manpower baseline_df).
Proof.
  unfold trade_summary.
  split; [apply groupby_sum_sorted|]. split; [|split].
  - intros trade. rewrite groupby_sum_keys, map_map. simpl.
    rewrite in_map_iff. split; intros (b & H1 & H2); exists b; tauto.
  - intros trade total Hin. apply groupby_sum_In in Hin.
    destruct Hin as [_ ->]. apply task_sum_map.
  - rewrite groupby_sum_total, map_map. reflexivity.
Qed.

(** ** A whole run *)

Lemma baseline_chart_drawn bdf :
  bdf <> [] -> Forall baseline_valid bdf -> ~ trade_overlap bdf ->
  exists chart, baseline_chart bdf = inr chart.
Proof.
  intros Hne Hv Hno.
  destruct (baseline_chart bdf) as [[|]|chart] eqn:E.
  - exfalso. apply Hno. apply chart_labels_overlap.
    rewrite <- timeline_labels. now apply pivot_fails.
  - exfalso. unfold baseline_chart, Pivot.pivot_fillna in E.
    destruct bdf as [|b rest]; [congruence|].
    inversion Hv as [|? ? (_ & _ & Hd & _) _]; subst.
    assert (Hin : In (Baseline.start_date b, Baseline.trade_name b,
                      Baseline.manpower b)
                     (map (fun r => (Timeline.date_ r, Timeline.trade_name r,
                                     Timeline.manpower r))
                          (timeline_rows (b :: rest)))).
    { apply timeline_cells_In. exists b, (Baseline.start_date b).
      split; [now left|]. split; [lia | reflexivity]. }
    destruct (map _ (timeline_rows (b :: rest))) as [|x cells];
      [contradiction|].
    destruct (Pivot.duplicate_entries (x :: cells)); discriminate.
  - now exists chart.
Qed.

(** X17. A whole run: with rows that pass the checks and have a non-zero
    rate, distinct task codes, no two tasks of a trade at work on the same
    day, at least one working day, editors that respect their column
    configuration and (in Daily Report mode) no task above 100%, a run with
    both buttons clicked draws the baseline chart, leaves the baseline, the
    working days, the three progress tables and the report request in the
    session, and reaches the final outputs with the rounded adjusted curve
    and the task table carrying the effective progress of the selected
    report type. *)
Theorem a_whole_run_reaches_the_final_outputs (edited_df : list Input.row)
    (selected_weekdays : list Z) (ui : UI) (ss : Session) :
  let baseline_df := map baseline_of edited_df in
  let task_progress_df :=
    map recalculate
        (edit_task_progress ui (map task_progress_default baseline_df)) in
  let weekly_df :=
    edit_weekly ui (weekly_rows selected_weekdays baseline_df) in
  let daily_df := edit_daily ui (daily_rows selected_weekdays baseline_df) in
  let report_type := radio_report_type ui in
  Forall input_ok edited_df ->
  NoDup (map Input.task_code edited_df) ->
  ~ trade_overlap baseline_df ->
  (exists b, In b baseline_df
             /\ task_working_days selected_weekdays b <> []) ->
  task_progress_edited (map task_progress_default baseline_df)
    (edit_task_progress ui (map task_progress_default baseline_df)) ->
  weekly_edited (weekly_rows selected_weekdays baseline_df) weekly_df ->
  daily_edited (daily_rows selected_weekdays baseline_df) daily_df ->
  button_generate_final ui = true ->
  (report_type = Daily_Report ->
   forall task, In task (map Daily.Task daily_df) ->
                (daily_total daily_df task <= Num.hundred)%Qc) ->
  exists s' chart final,
    script_run edited_df selected_weekdays true ui (fresh_run ss)
    = (Ok tt, s') /\
    baseline_chart baseline_df = inr chart /\
    session_state s'
    = final_session report_type selected_weekdays baseline_df
        task_progress_df weekly_df daily_df /\
    adjusted_curve report_type selected_weekdays baseline_df
      task_progress_df weekly_df daily_df = Ok final /\
    adjusted_df s' = Some (round_curve final) /\
    final_task_progress_df s'
    = Some (map (merge_effective
                   (match report_type with
                    | Daily_Report => daily_effective_progress daily_df
                    | Weekly_Report => weekly_effective_progress weekly_df
                    end))
                task_progress_df).
Proof.
  cbv zeta. intros Hall Hnd Hno (b0 & Hb0 & Hwork) Ht Hw Hd Hbutton Hcap.
  set (bdf := map baseline_of edited_df) in *.
  assert (Hne : edited_df <> []).
  { intros ->. destruct Hb0. }
  assert (Hne' : bdf <> []).
  { intros E. unfold bdf in E. apply map_eq_nil in E. contradiction. }
  assert (Hrows : weekly_rows selected_weekdays bdf <> []).
  { intros E. apply Hwork. now apply (proj1 (weekly_rows_nil _ _) E). }
  destruct (generate_initial_report_ok edited_df selected_weekdays ss
              Hall Hne) as (s1 & E1 & Hb & Hwd & _ & Hv).
  fold bdf in Hb, Hv.
  destruct (progress_adjustment_session ui s1 bdf selected_weekdays
              Hb Hwd Hne' Hrows Hbutton) as (s2 & E2 & Hs2).
  pose proof (script_session_tables ui edited_df selected_weekdays
                Hall Hnd Ht Hw Hd) as tables.
  fold bdf in tables.
  destruct (baseline_chart_drawn bdf Hne' Hv Hno) as (chart & Hchart).
  unfold script_run, bind. rewrite E1, E2.
  rewrite (final_report_ready s2 _ _ _ _ _ _ tables Hs2).
  pose proof (adjusted_curve_rescale (radio_report_type ui) _ _ _ _ _ tables)
    as Hcurve.
  unfold effective_progress_and_balance.
  destruct (radio_report_type ui) eqn:Ert.
  - unfold bind. rewrite check_daily_overflow_ok.
    + eexists. exists chart. eexists. split; [reflexivity|].
      split; [exact Hchart|]. split; [exact Hs2|].
      split; [exact Hcurve|]. split; reflexivity.
    + apply Forall_forall. intros [t tot] Hin.
      apply groupby_sum_In in Hin. destruct Hin as [Hin ->].
      unfold no_overflow. simpl. apply (Hcap eq_refl).
      now rewrite map_map in Hin.
  - eexists. exists chart. eexists. split; [reflexivity|].
    split; [exact Hchart|]. split; [exact Hs2|].
    split; [exact Hcurve|]. split; reflexivity.
Qed.

Lemma a_whole_run_reaches_the_final_outputs_witness :
  exists s' final,
    script_run Scenario2.edited_df Scenario.mon_sat true
      {| edit_task_progress := fun df => df; edit_weekly := fun df => df;
         edit_daily := fun df => df; radio_report_type := Weekly_Report;
         button_generate_final := true |}
      (fresh_run empty_session)
    = (Ok tt, s') /\
    adjusted_df s' = Some (round_curve final) /\
    List.length final = 20%nat.
Proof.
  assert (Hok : Forall input_ok Scenario2.edited_df).
  { repeat constructor; try (vm_compute; discriminate). }
  assert (Hbase : map baseline_of Scenario2.edited_df
                  = Scenario2.baseline_df).
  { unfold Scenario2.baseline_df, Scenario2.edited_df. simpl.
    f_equal; [|f_equal].
    - unfold baseline_of, Scenario.blk_baseline. simpl. f_equal; canon.
    - unfold baseline_of, Scenario2.shu_baseline. simpl. f_equal; canon. }
  destruct (a_whole_run_reaches_the_final_outputs Scenario2.edited_df
              Scenario.mon_sat
              {| edit_task_progress := fun df => df;
                 edit_weekly := fun df => df;
                 edit_daily := fun df => df;
                 radio_report_type := Weekly_Report;
                 button_generate_final := true |}
              empty_session Hok)
    as (s' & chart & final & Hrun & _ & _ & Hcurve & Hadj & _).
  - simpl. constructor; [|constructor; [intros []|constructor]].
    intros [E|[]]. discriminate.
  - rewrite Hbase. intros Hover. apply chart_labels_overlap in Hover.
    apply Hover. rewrite <- timeline_labels.
    apply duplicate_entries_NoDup. vm_compute. reflexivity.
  - exists (baseline_of Scenario.blk). split; [now left|].
    vm_compute. discriminate.
  - rewrite Hbase. cbn [edit_task_progress].
    apply (edited_refl _ TaskProgress.Progress).
    + apply set_task_progress_id.
    + intros p Hp. apply in_map_iff in Hp. destruct Hp as (b & <- & _).
      simpl. split; vm_compute; discriminate.
  - rewrite Hbase. exact (st_weekly _ _ _ _ _ scenario2_tables).
  - rewrite Hbase. exact (st_daily _ _ _ _ _ scenario2_tables).
  - reflexivity.
  - discriminate.
  - exists s', final. split; [exact Hrun|]. split; [exact Hadj|].
    cbn [radio_report_type edit_task_progress edit_weekly edit_daily]
      in Hcurve.
    rewrite Hbase in Hcurve.
    assert (F : match adjusted_curve Weekly_Report Scenario.mon_sat
                        Scenario2.baseline_df
                        (map recalculate
                           (map task_progress_default
                              Scenario2.baseline_df))
                        (weekly_rows Scenario.mon_sat Scenario2.baseline_df)
                        (daily_rows Scenario.mon_sat Scenario2.baseline_df)
                with
                | Ok c => List.length c
                | Stop _ => O
                end = 20%nat)
      by (vm_compute; reflexivity).
    rewrite Hcurve in F. exact F.
Defined.

(** ** The final trade summary *)

Section TradeFinal.

Local Open Scope Qc_scope.

Lemma within_div n e x y :
  0 < n -> within (n * e) x y -> within e (x / n) (y / n).
Proof.
  intros Hn [H1 H2]. pose proof (Qcpos_neq _ Hn) as Hne.
  pose proof (Qclt_le_weak _ _ (Qcinv_pos _ Hn)) as Hinv.
  unfold within. split.
  - replace (x / n - y / n) with ((x - y) * / n) by (field; exact Hne).
    replace e with ((n * e) * / n) by (field; exact Hne).
    now apply Qcmult_le_compat_r.
  - replace (y / n - x / n) with ((y - x) * / n) by (field; exact Hne).
    replace e with ((n * e) * / n) by (field; exact Hne).
    now apply Qcmult_le_compat_r.
Qed.

Local Abbreviation of_trade trade :=
  (filter (fun r => String.eqb (Curve.Trade r) trade)).

Lemma of_trade_rescale trade g df :
  of_trade trade (Curve.rescale g df) = Curve.rescale g (of_trade trade df).
Proof.
  unfold Curve.rescale. induction df as [|r df IH]; simpl; [reflexivity|].
  destruct (String.eqb (Curve.Trade r) trade); simpl; now rewrite IH.
Qed.

Lemma of_trade_round_curve trade df :
  of_trade trade (round_curve df) = round_curve (of_trade trade df).
Proof.
  unfold round_curve. induction df as [|r df IH]; simpl; [reflexivity|].
  destruct (String.eqb (Curve.Trade r) trade); simpl; now rewrite IH.
Qed.

Lemma filter_all {A} (f : A -> bool) (l : list A) :
  (forall y, In y l -> f y = true) -> filter f l = l.
Proof.
  induction l as [|a l IH]; simpl; intros H; [reflexivity|].
  rewrite H by now left. f_equal. apply IH. intros. apply H. now right.
Qed.

Lemma of_trade_uniform trade tp bdf :
  of_trade trade (flat_map (uniform_curve tp) bdf)
  = flat_map (uniform_curve tp) (tasks_of_trade trade bdf).
Proof.
  unfold tasks_of_trade.
  induction bdf as [|b bdf IH]; simpl; [reflexivity|].
  rewrite filter_app, IH.
  destruct (String.eqb (Baseline.trade_name b) trade) eqn:E; simpl.
  - f_equal. apply filter_all.
    intros r Hr. unfold uniform_curve, expand_row in Hr.
    apply in_map_iff in Hr. destruct Hr as (d & <- & _). exact E.
  - rewrite filter_none; [reflexivity|].
    intros r Hr. unfold uniform_curve, expand_row in Hr.
    apply in_map_iff in Hr. destruct Hr as (d & <- & _). exact E.
Qed.

Lemma rescale_flat_map {A} g (f : A -> list Curve.row) l :
  Curve.rescale g (flat_map f l)
  = flat_map (fun a => Curve.rescale g (f a)) l.
Proof. unfold Curve.rescale. apply map_flat_map. Qed.

Lemma total_app df1 df2 :
  Curve.total (df1 ++ df2) = Curve.total df1 + Curve.total df2.
Proof. unfold Curve.total. now rewrite map_app, sum_app. Qed.

Lemma total_flat_map {A} (f : A -> list Curve.row) l :
  Curve.total (flat_map f l) = Num.sum (map (fun a => Curve.total (f a)) l).
Proof.
  induction l as [|a l IH]; simpl; [reflexivity|].
  now rewrite total_app, IH.
Qed.

Lemma of_nat_add a b : Num.of_nat (a + b) = Num.of_nat a + Num.of_nat b.
Proof.
  induction a as [|a IH]; simpl.
  - replace (Num.of_nat 0) with 0 by (apply Qc_is_canon; reflexivity). ring.
  - rewrite !of_nat_S, IH. ring.
Qed.

Lemma length_flat_map_sum {A B} (f : A -> list B) l :
  Num.of_nat (List.length (flat_map f l))
  = Num.sum (map (fun a => Num.of_nat (List.length (f a))) l).
Proof.
  induction l as [|a l IH]; simpl.
  - apply Qc_is_canon. reflexivity.
  - now rewrite length_app, of_nat_add, IH.
Qed.

Lemma sum_map_ext_in {A} (f g : A -> Qc) l :
  (forall a, In a l -> f a = g a) -> Num.sum (map f l) = Num.sum (map g l).
Proof. intros H. f_equal. now apply map_ext_in. Qed.

Lemma groupby_mean_In rows k :
  In k (map fst rows) ->
  In (k, task_sum rows k
         / Num.of_nat
             (List.length (filter (fun r => String.eqb (fst r) k) rows)))
     (groupby_mean rows).
Proof.
  intros Hk. unfold groupby_mean. apply in_map_iff.
  exists (k, task_sum rows k). split; [reflexivity|].
  apply lookup_In. rewrite groupby_sum_lookup.
  replace (mem k (map fst rows)) with true; [reflexivity|].
  symmetry. now apply mem_In.
Qed.

End TradeFinal.

Section TradeAverage.

Local Open Scope Qc_scope.

Variable report_type : ReportType.
Variable wd : list Z.
Variable bdf : list Baseline.row.
Variable tp : list TaskProgress.row.
Variable wdf : list Weekly.row.
Variable ddf : list Daily.row.
Hypothesis tables : session_tables wd bdf tp wdf ddf.

Local Abbreviation reshaped := (reshaped_curve report_type wd bdf tp wdf ddf).
Local Abbreviation final := (final_curve report_type wd bdf tp wdf ddf).

Lemma tasks_of_trade_In trade b :
  In b (tasks_of_trade trade bdf)
  <-> In b bdf /\ Baseline.trade_name b = trade.
Proof.
  unfold tasks_of_trade. rewrite filter_In, String.eqb_eq. reflexivity.
Qed.

Lemma reshaped_of_trade trade :
  filter (fun r => String.eqb (Curve.Trade r) trade) reshaped
  = flat_map
      (fun b =>
         Curve.rescale
           (refinement_multiplier report_type wd bdf wdf ddf)
           (uniform_curve tp b))
      (tasks_of_trade trade bdf).
Proof.
  unfold reshaped_curve.
  now rewrite of_trade_rescale, of_trade_uniform, rescale_flat_map.
Qed.

(** The rows of a trade in the final curve are the final curves of its
    tasks, one after the other. *)
Lemma final_of_trade trade :
  filter (fun r => String.eqb (Curve.Trade r) trade) final
  = flat_map (fun b => Curve.of_task (Baseline.task_code b) final)
             (tasks_of_trade trade bdf).
Proof.
  unfold final_curve.
  rewrite of_trade_rescale, reshaped_of_trade, rescale_flat_map.
  apply flat_map_ext_In. intros b Hb. apply tasks_of_trade_In in Hb.
  rewrite of_task_rescale.
  now rewrite (of_task_reshaped report_type _ _ _ _ _ tables b) by tauto.
Qed.

Lemma final_total_of_task b :
  In b bdf ->
  0 < Curve.total (Curve.of_task (Baseline.task_code b) reshaped) ->
  Curve.total (Curve.of_task (Baseline.task_code b) final)
  = target_of tp (Baseline.task_code b).
Proof.
  intros Hb Hpos.
  destruct (merge_has_partner _ _ _ _ _ tables b Hb)
    as (p & _ & _ & Hq & _).
  unfold target_of. rewrite Hq.
  apply (total_after_scaling tp reshaped).
  - apply per_task_scaling_rescale.
    apply (reshaped_has_target report_type _ _ _ _ _ tables).
  - apply (reshaped_has_target report_type _ _ _ _ _ tables).
  - exact Hq.
  - exact Hpos.
Qed.

Lemma final_length_of_task b :
  In b bdf ->
  Num.of_nat (List.length (Curve.of_task (Baseline.task_code b) final))
  = Num.of_Z (Baseline.duration_days b).
Proof.
  intros Hb. rewrite <- (length_map Curve.Date). unfold final_curve.
  rewrite of_task_rescale, rescale_Date.
  rewrite (of_task_reshaped report_type _ _ _ _ _ tables b Hb).
  rewrite rescale_Date. unfold uniform_curve.
  rewrite expand_row_Date. cbn [fst].
  apply of_nat_duration.
  pose proof (st_valid _ _ _ _ _ tables) as Hv.
  rewrite Forall_forall in Hv. now apply Hv.
Qed.

End TradeAverage.

(** X18. The "Average Manpower" of a trade in the final summary is an
    average per task and day, not a head count: for a trade all of whose
    tasks have a positive curve total after Phase A it is, within half a
    hundredth, the adjusted man-days of the trade's tasks, added up, over
    the days of their date ranges, added up (so two tasks of a trade at
    work side by side, which only the Weekly Report lets through, do not
    add). *)
Theorem final_trade_average (report_type : ReportType)
    (selected_weekdays : list Z) (baseline_df : list Baseline.row)
    (task_progress_df : list TaskProgress.row)
    (weekly_df : list Weekly.row) (daily_df : list Daily.row)
    (trade : string) (reshaped : list Curve.row) :
  session_tables selected_weekdays baseline_df task_progress_df weekly_df
                 daily_df ->
  tasks_of_trade trade baseline_df <> [] ->
  refinement report_type selected_weekdays baseline_df weekly_df daily_df
    (adjusted_rows (merge_adjusted_man_days baseline_df task_progress_df))
  = Ok reshaped ->
  (forall b, In b (tasks_of_trade trade baseline_df) ->
     (0 < Curve.total (Curve.of_task (Baseline.task_code b) reshaped))%Qc) ->
  exists final average,
    adjusted_curve report_type selected_weekdays baseline_df
      task_progress_df weekly_df daily_df = Ok final /\
    In (trade, average) (trade_final (round_curve final)) /\
    within half_cent average
      (trade_man_days task_progress_df trade baseline_df
       / trade_task_days trade baseline_df)%Qc.
Proof.
  intros tables Hne HA Hpos.
  rewrite (refinement_reshaped report_type _ _ _ _ _ tables) in HA.
  injection HA as <-.
  pose proof (adjusted_curve_rescale report_type _ _ _ _ _ tables) as HB.
  fold (final_curve report_type selected_weekdays baseline_df
          task_progress_df weekly_df daily_df) in HB.
  set (final := final_curve report_type selected_weekdays baseline_df
                  task_progress_df weekly_df daily_df) in *.
  set (of_trade := filter (fun r => String.eqb (Curve.Trade r) trade)).
  set (rows := map (fun r => (Curve.Trade r, Curve.Manpower r))
                   (round_curve final)).
  assert (Hsum : task_sum rows trade
                 = Curve.total (round_curve (of_trade final))).
  { unfold rows. rewrite task_sum_map. unfold of_trade.
    now rewrite <- of_trade_round_curve. }
  assert (Hcount : List.length
                     (filter (fun r => String.eqb (fst r) trade) rows)
                   = List.length (of_trade final)).
  { unfold rows, of_trade, round_curve. rewrite map_map. simpl.
    clear. induction final as [|r df IH]; simpl; [reflexivity|].
    destruct (String.eqb (Curve.Trade r) trade); simpl; now rewrite IH. }
  assert (Htasks : forall b, In b (tasks_of_trade trade baseline_df) ->
                             In b baseline_df).
  { intros b Hb. now apply tasks_of_trade_In in Hb. }
  assert (Htotal : Curve.total (of_trade final)
                   = trade_man_days task_progress_df trade baseline_df).
  { unfold of_trade, final.
    rewrite (final_of_trade report_type _ _ _ _ _ tables).
    rewrite total_flat_map. unfold trade_man_days.
    apply sum_map_ext_in. intros b Hb.
    apply (final_total_of_task report_type _ _ _ _ _ tables);
      [now apply Htasks | now apply Hpos]. }
  assert (Hdays : Num.of_nat (List.length (of_trade final))
                  = trade_task_days trade baseline_df).
  { unfold of_trade, final.
    rewrite (final_of_trade report_type _ _ _ _ _ tables).
    rewrite length_flat_map_sum. unfold trade_task_days.
    apply sum_map_ext_in. intros b Hb.
    apply (final_length_of_task report_type _ _ _ _ _ tables).
    now apply Htasks. }
  assert (Hsome : of_trade final <> []).
  { assert (Hex : exists b0, In b0 (tasks_of_trade trade baseline_df)).
    { destruct (tasks_of_trade trade baseline_df) as [|b0 rest];
        [congruence|]. exists b0. now left. }
    destruct Hex as (b0 & Hb0).
    pose proof (final_length_of_task report_type _ _ _ _ _ tables b0
                  (Htasks b0 Hb0)) as Hlen.
    fold final in Hlen.
    assert (Hin : forall r,
               In r (Curve.of_task (Baseline.task_code b0) final) ->
               In r (of_trade final)).
    { intros r Hr. unfold of_trade, final.
      rewrite (final_of_trade report_type _ _ _ _ _ tables).
      apply in_flat_map. exists b0. split; assumption. }
    intros Enil.
    destruct (Curve.of_task (Baseline.task_code b0) final) as [|r l].
    - simpl in Hlen.
      pose proof (st_valid _ _ _ _ _ tables) as Hv.
      rewrite Forall_forall in Hv.
      destruct (Hv b0 (Htasks b0 Hb0)) as (_ & _ & Hd & _ & Hdur & _).
      assert (Hp : (0 < Num.of_Z (Baseline.duration_days b0))%Qc)
        by (apply of_Z_pos; lia).
      rewrite <- Hlen in Hp. revert Hp. vm_compute. discriminate.
    - specialize (Hin r (or_introl eq_refl)). rewrite Enil in Hin.
      contradiction. }
  exists final.
  exists (task_sum rows trade
          / Num.of_nat
              (List.length
                 (filter (fun r => String.eqb (fst r) trade) rows)))%Qc.
  split; [exact HB|]. split.
  - apply groupby_mean_In. unfold rows. rewrite map_map. simpl.
    destruct (of_trade final) as [|r l] eqn:E; [congruence|].
    assert (Hr : In r (of_trade final)) by (rewrite E; now left).
    unfold of_trade in Hr. apply filter_In in Hr. destruct Hr as [Hr Et].
    apply String.eqb_eq in Et. rewrite <- Et.
    apply in_map_iff. exists {| Curve.Task := Curve.Task r;
                                Curve.Trade := Curve.Trade r;
                                Curve.Date := Curve.Date r;
                                Curve.Manpower :=
                                  Num.round2 (Curve.Manpower r) |}.
    split; [reflexivity|]. unfold round_curve. apply in_map_iff.
    exists r. split; [reflexivity | exact Hr].
  - rewrite Hsum, Hcount, <- Htotal, <- Hdays.
    apply within_div.
    + apply of_nat_pos. destruct (of_trade final); [congruence|].
      simpl. lia.
    + rewrite <- (length_map (fun r => r) (of_trade final)), map_id.
      apply total_round_curve.
Qed.

Lemma final_trade_average_witness :
  exists final average,
    adjusted_curve Weekly_Report Scenario.mon_sat Scenario3.baseline_df
      Scenario3.task_progress_df Scenario3.weekly_df Scenario3.daily_df
    = Ok final /\
    In ("Mason"%string, average) (trade_final (round_curve final)) /\
    within half_cent average (Num.of_Z 85).
Proof.
  destruct (final_trade_average Weekly_Report Scenario.mon_sat
              Scenario3.baseline_df Scenario3.task_progress_df
              Scenario3.weekly_df Scenario3.daily_df "Mason"
              (reshaped_curve Weekly_Report Scenario.mon_sat
                 Scenario3.baseline_df Scenario3.task_progress_df
                 Scenario3.weekly_df Scenario3.daily_df)
              scenario3_tables)
    as (final & average & H & Hin & Hw).
  - vm_compute. discriminate.
  - apply (refinement_reshaped Weekly_Report _ _ _ _ _ scenario3_tables).
  - intros b Hb.
    change (In b [Scenario.blk_baseline; Scenario3.pls_baseline]) in Hb.
    destruct Hb as [<-|[<-|[]]]; vm_compute; reflexivity.
  - exists final, average. split; [exact H|]. split; [exact Hin|].
    replace (Num.of_Z 85)
      with (trade_man_days Scenario3.task_progress_df "Mason"
              Scenario3.baseline_df
            / trade_task_days "Mason" Scenario3.baseline_df)%Qc by canon.
    exact Hw.
Defined.

(** ** The Daily Report within the cap *)

Lemma final_daily_chart_drawn tp bdf g h :
  bdf <> [] -> Forall baseline_valid bdf -> ~ trade_overlap bdf ->
  exists chart,
    final_daily_chart
      (round_curve
         (Curve.rescale g
            (Curve.rescale h (flat_map (uniform_curve tp) bdf))))
    = inr chart.
Proof.
  intros Hne Hv Hno.
  pose proof (curve_labels tp bdf g h) as Hl.
  unfold final_daily_chart.
  set (cells := map (fun r => (Curve.Date r, Curve.Trade r,
                               Curve.Manpower r)) _) in *.
  destruct (Pivot.pivot_fillna cells) as [[|]|chart] eqn:E.
  - exfalso. apply Hno. apply chart_labels_overlap.
    rewrite <- Hl. now apply pivot_fails.
  - exfalso. unfold Pivot.pivot_fillna in E.
    destruct bdf as [|b rest]; [congruence|].
    inversion Hv as [|? ? (_ & _ & Hd & _) _]; subst.
    assert (Hin : In (Baseline.start_date b, Baseline.trade_name b)
                     (flat_map chart_labels (b :: rest))).
    { simpl. apply in_or_app. left. apply chart_labels_In.
      split; [lia | reflexivity]. }
    rewrite <- Hl in Hin.
    destruct cells as [|x cells']; [contradiction|].
    destruct (Pivot.duplicate_entries (x :: cells')); discriminate.
  - now exists chart.
Qed.

(** X6. Daily Report mode within the cap: on the tables of a session over
    a non-empty baseline in which no two tasks of a trade have a date in
    common, when no task's daily Progress% values sum to more than 100 the
    final report passes the check and its daily line chart can be drawn;
    the session state is untouched, the rounded adjusted curve is held, and
    every task gets Effective Progress = the sum of its daily Progress% and
    Balance BOQ = boq * (1 - effective / 100), which lies between 0 and
    boq. *)
Theorem daily_report_within_the_cap (s : Script)
    (selected_weekdays : list Z) (baseline_df : list Baseline.row)
    (task_progress_df : list TaskProgress.row)
    (weekly_df : list Weekly.row) (daily_df : list Daily.row) :
  session_tables selected_weekdays baseline_df task_progress_df weekly_df
                 daily_df ->
  session_state s
  = final_session Daily_Report selected_weekdays baseline_df
      task_progress_df weekly_df daily_df ->
  baseline_df <> [] ->
  ~ trade_overlap baseline_df ->
  (forall task, In task (map Daily.Task daily_df) ->
                (daily_total daily_df task <= Num.hundred)%Qc) ->
  exists s' final chart,
    final_report s = (Ok tt, s') /\
    adjusted_curve Daily_Report selected_weekdays baseline_df
      task_progress_df weekly_df daily_df = Ok final /\
    adjusted_df s' = Some (round_curve final) /\
    final_daily_chart (round_curve final) = inr chart /\
    session_state s' = session_state s /\
    final_task_progress_df s'
    = Some (map (merge_effective (daily_effective_progress daily_df))
                task_progress_df) /\
    forall p, In p task_progress_df ->
      let p' := merge_effective (daily_effective_progress daily_df) p in
      let total := daily_total daily_df (TaskProgress.task_code p) in
      TaskProgress.Effective_Progress p' = Some total /\
      TaskProgress.Balance_BOQ p'
      = Some (TaskProgress.boq p * (1 - total / Num.hundred))%Qc /\
      (0 <= TaskProgress.boq p * (1 - total / Num.hundred))%Qc /\
      (TaskProgress.boq p * (1 - total / Num.hundred)
       <= TaskProgress.boq p)%Qc.
Proof.
  intros tables Hs Hne Hno Hcap.
  rewrite (final_report_ready s Daily_Report _ _ _ _ _ tables Hs).
  unfold effective_progress_and_balance, bind.
  set (rows := map (fun d => (Daily.Task d, Daily.Progress d)) daily_df).
  assert (Hkeys : map fst rows = map Daily.Task daily_df).
  { unfold rows. rewrite map_map. reflexivity. }
  rewrite check_daily_overflow_ok.
  2:{ apply Forall_forall. intros [t tot] Hin.
      apply groupby_sum_In in Hin. fold rows in Hin.
      destruct Hin as [Hin ->]. unfold no_overflow. simpl.
      apply Hcap. now rewrite <- Hkeys. }
  destruct (final_daily_chart_drawn task_progress_df baseline_df
              (fun r => task_scale task_progress_df
                          (reshaped_curve Daily_Report selected_weekdays
                             baseline_df task_progress_df weekly_df
                             daily_df) (Curve.Task r))
              (refinement_multiplier Daily_Report selected_weekdays
                 baseline_df weekly_df daily_df)
              Hne (st_valid _ _ _ _ _ tables) Hno) as (chart & Hchart).
  eexists. eexists. exists chart. split; [reflexivity|].
  split; [apply (adjusted_curve_rescale Daily_Report _ _ _ _ _ tables)|].
  split; [reflexivity|]. split; [exact Hchart|].
  split; [reflexivity|]. split; [reflexivity|].
  intros p Hp. cbv zeta.
  destruct (Forall2_In_right _ _ _ _
              (task_progress_rows _ _ _ _ _ tables) Hp)
    as (b & Hb & Hrel).
  assert (Hcode : TaskProgress.task_code p = Baseline.task_code b)
    by apply Hrel.
  assert (Hin : In (TaskProgress.task_code p) (map Daily.Task daily_df)).
  { rewrite Hcode. now apply (task_has_daily_record _ _ _ _ _ _ tables). }
  destruct (merge_effective_fields (daily_effective_progress daily_df) p)
    as (_ & -> & ->).
  unfold daily_effective_progress. fold rows.
  rewrite groupby_sum_lookup, Hkeys.
  replace (mem (TaskProgress.task_code p) (map Daily.Task daily_df))
    with true by (symmetry; now apply mem_In).
  split; [reflexivity|]. split; [reflexivity|].
  apply balance_bounds.
  - destruct Hrel as (_ & _ & _ & -> & _).
    pose proof (st_valid _ _ _ _ _ tables) as Hv.
    rewrite Forall_forall in Hv. apply (Hv b Hb).
  - apply task_sum_nonneg. intros kv Hkv. unfold rows in Hkv.
    apply in_map_iff in Hkv. destruct Hkv as (x & <- & Hx). simpl.
    apply (daily_edited_range _ _ _ (st_daily _ _ _ _ _ tables) Hx).
  - now apply Hcap.
Qed.

Lemma daily_report_within_the_cap_witness :
  exists s' final chart,
    final_report
      (fresh_run (final_session Daily_Report Scenario.mon_sat
                    Scenario2.baseline_df Scenario2.task_progress_df
                    Scenario2.weekly_df Scenario2.daily_df))
    = (Ok tt, s') /\
    adjusted_df s' = Some (round_curve final) /\
    final_daily_chart (round_curve final) = inr chart /\
    option_map
      (map (fun p => option_map this (TaskProgress.Balance_BOQ p)))
      (final_task_progress_df s')
    = Some [Some (6 # 5)%Q; Some (3 # 10)%Q].
Proof.
  destruct (daily_report_within_the_cap
              (fresh_run (final_session Daily_Report Scenario.mon_sat
                            Scenario2.baseline_df Scenario2.task_progress_df
                            Scenario2.weekly_df Scenario2.daily_df))
              _ _ _ _ _ scenario2_tables eq_refl)
    as (s' & final & chart & Hrun & _ & Hadj & Hchart & _ & Htp & _).
  - discriminate.
  - intros Hover. apply chart_labels_overlap in Hover.
    apply Hover. rewrite <- timeline_labels.
    apply duplicate_entries_NoDup. vm_compute. reflexivity.
  - intros task Hin.
    assert (Hall : forallb
                     (fun t => Num.leb (daily_total Scenario2.daily_df t)
                                       Num.hundred)
                     (map Daily.Task Scenario2.daily_df) = true)
      by (vm_compute; reflexivity).
    rewrite forallb_forall in Hall. apply leb_le. now apply Hall.
  - exists s', final, chart. split; [exact Hrun|]. split; [exact Hadj|].
    split; [exact Hchart|]. rewrite Htp. vm_compute. reflexivity.
Defined.

(** ** A task that Phase A has zeroed *)

Section ZeroedTask.

Local Open Scope Qc_scope.

Lemma sum_zero_all (l : list Qc) :
  (forall v, In v l -> 0 <= v) -> Num.sum l <= 0 ->
  forall v, In v l -> v = 0.
Proof.
  induction l as [|a l IH]; simpl; intros Hpos Hsum v Hv; [contradiction|].
  assert (Ha : 0 <= a) by (apply Hpos; now left).
  assert (Hl : 0 <= Num.sum l).
  { apply sum_nonneg. intros. apply Hpos. now right. }
  assert (Ha0 : a <= 0).
  { apply Qcle_trans with (a + Num.sum l); [|exact Hsum].
    replace a with (a + 0) at 1 by ring.
    apply Qcplus_le_compat; [apply Qcle_refl | exact Hl]. }
  assert (Hl0 : Num.sum l <= 0).
  { apply Qcle_trans with (a + Num.sum l); [|exact Hsum].
    replace (Num.sum l) with (0 + Num.sum l) at 1 by ring.
    apply Qcplus_le_compat; [exact Ha | apply Qcle_refl]. }
  destruct Hv as [<-|Hv].
  - now apply Qcle_antisym.
  - apply IH; try assumption. intros. apply Hpos. now right.
Qed.

Variable report_type : ReportType.
Variable wd : list Z.
Variable bdf : list Baseline.row.
Variable tp : list TaskProgress.row.
Variable wdf : list Weekly.row.
Variable ddf : list Daily.row.
Hypothesis tables : session_tables wd bdf tp wdf ddf.

Lemma target_positive b :
  In b bdf -> 0 < Baseline.rate b ->
  0 < target_of tp (Baseline.task_code b).
Proof.
  intros Hb Hrate.
  destruct (merge_has_partner _ _ _ _ _ tables b Hb)
    as (p & _ & Hrel & Hq & _).
  pose proof (st_valid _ _ _ _ _ tables) as Hv.
  rewrite Forall_forall in Hv.
  destruct (Hv b Hb) as (Hboq & _ & _ & Hmd & _).
  unfold target_of. rewrite Hq.
  destruct Hrel as (_ & _ & _ & _ & Hlo & _ & ->). rewrite Hmd.
  apply Qcdiv_pos; [now apply Qcdiv_pos|].
  apply Qcdiv_pos; [|apply hundred_pos].
  apply Qclt_le_trans with 1; [reflexivity | exact Hlo].
Qed.

(** After Phase A no point of a task with a positive rate is negative. *)
Lemma reshaped_task_nonneg b r :
  In b bdf -> 0 < Baseline.rate b ->
  In r (Curve.of_task (Baseline.task_code b)
          (reshaped_curve report_type wd bdf tp wdf ddf)) ->
  0 <= Curve.Manpower r.
Proof.
  intros Hb Hrate Hr.
  rewrite (of_task_reshaped report_type _ _ _ _ _ tables b Hb) in Hr.
  unfold Curve.rescale in Hr. apply in_map_iff in Hr.
  destruct Hr as (r0 & <- & Hr0).
  unfold Curve.scale. cbn [Curve.Manpower].
  apply Qcmult_nonneg.
  - unfold uniform_curve in Hr0.
    rewrite (expand_row_Manpower _ _ Hr0). cbn [fst snd].
    apply Qcdiv_nonneg.
    + apply Qclt_le_weak. now apply target_positive.
    + apply of_nat_pos. unfold task_dates. rewrite date_range_length.
      pose proof (st_valid _ _ _ _ _ tables) as Hv.
      rewrite Forall_forall in Hv.
      destruct (Hv b Hb) as (_ & _ & Hd & _). lia.
  - destruct report_type; simpl.
    + apply multiplier_nonneg. intros x Hx.
      apply (daily_edited_range _ _ _ (st_daily _ _ _ _ _ tables) Hx).
    + apply multiplier_nonneg. intros w Hw.
      apply (weekly_edited_range _ _ _ (st_weekly _ _ _ _ _ tables) Hw).
Qed.

End ZeroedTask.

(** X3. Where Phase B cannot restore a task: on the tables of a session, a
    task with a positive rate has positive Adjusted Man-Days and a curve
    total after Phase A that is not negative, and Phase B brings the task's
    total to its Adjusted Man-Days exactly when that total is positive.
    When it is 0 (every share that reaches the task's curve was set to 0)
    the scale is 1.0, the task's points stay as Phase A left them, all 0,
    and the Adjusted Man-Days are not reached. *)
Theorem conservation_fails_exactly_for_a_zeroed_task
    (report_type : ReportType) (selected_weekdays : list Z)
    (baseline_df : list Baseline.row)
    (task_progress_df : list TaskProgress.row)
    (weekly_df : list Weekly.row) (daily_df : list Daily.row)
    (b : Baseline.row) (reshaped : list Curve.row) :
  session_tables selected_weekdays baseline_df task_progress_df weekly_df
                 daily_df ->
  In b baseline_df ->
  (0 < Baseline.rate b)%Qc ->
  refinement report_type selected_weekdays baseline_df weekly_df daily_df
    (adjusted_rows (merge_adjusted_man_days baseline_df task_progress_df))
  = Ok reshaped ->
  exists final,
    adjusted_curve report_type selected_weekdays baseline_df
      task_progress_df weekly_df daily_df = Ok final /\
    (0 < target_of task_progress_df (Baseline.task_code b))%Qc /\
    (0 <= Curve.total (Curve.of_task (Baseline.task_code b) reshaped))%Qc /\
    (Curve.total (Curve.of_task (Baseline.task_code b) final)
     = target_of task_progress_df (Baseline.task_code b)
     <-> (0 < Curve.total
                (Curve.of_task (Baseline.task_code b) reshaped))%Qc) /\
    (Curve.total (Curve.of_task (Baseline.task_code b) reshaped) = 0%Qc ->
     Curve.of_task (Baseline.task_code b) final
     = Curve.of_task (Baseline.task_code b) reshaped /\
     forall r, In r (Curve.of_task (Baseline.task_code b) final) ->
               Curve.Manpower r = 0%Qc).
Proof.
  intros tables Hb Hrate HA.
  rewrite (refinement_reshaped report_type _ _ _ _ _ tables) in HA.
  injection HA as <-.
  pose proof (adjusted_curve_rescale report_type _ _ _ _ _ tables) as HB.
  fold (final_curve report_type selected_weekdays baseline_df
          task_progress_df weekly_df daily_df) in HB.
  set (final := final_curve report_type selected_weekdays baseline_df
                  task_progress_df weekly_df daily_df) in *.
  set (reshaped := reshaped_curve report_type selected_weekdays baseline_df
                     task_progress_df weekly_df daily_df).
  pose proof (target_positive _ _ _ _ _ tables b Hb Hrate) as Htarget.
  assert (Hnonneg : forall r,
             In r (Curve.of_task (Baseline.task_code b) reshaped) ->
             (0 <= Curve.Manpower r)%Qc).
  { intros r Hr.
    exact (reshaped_task_nonneg report_type _ _ _ _ _ tables b r
             Hb Hrate Hr). }
  assert (Htotal : (0 <= Curve.total
                          (Curve.of_task (Baseline.task_code b) reshaped))%Qc).
  { unfold Curve.total. apply sum_nonneg. intros v Hv.
    apply in_map_iff in Hv. destruct Hv as (r & <- & Hr). now apply Hnonneg. }
  assert (Hsame : (Curve.total
                     (Curve.of_task (Baseline.task_code b) reshaped)
                   <= 0)%Qc ->
                  Curve.of_task (Baseline.task_code b) final
                  = Curve.of_task (Baseline.task_code b) reshaped).
  { intros Hle. unfold final, final_curve. fold reshaped.
    rewrite of_task_final.
    rewrite (task_scale_not_positive _ _ _ Hle).
    now apply total_rescale_id. }
  exists final. split; [exact HB|]. split; [exact Htarget|].
  split; [exact Htotal|]. split; [split|].
  - intros E.
    destruct (Qclt_le_dec 0
                (Curve.total
                   (Curve.of_task (Baseline.task_code b) reshaped)))
      as [Hpos|Hle]; [exact Hpos|].
    exfalso. rewrite (Hsame Hle) in E. rewrite E in Hle.
    exact (Qclt_not_le _ _ Htarget Hle).
  - intros Hpos.
    exact (final_total_of_task report_type _ _ _ _ _ tables b Hb Hpos).
  - intros E0.
    assert (Hle : (Curve.total
                     (Curve.of_task (Baseline.task_code b) reshaped)
                   <= 0)%Qc) by (rewrite E0; apply Qcle_refl).
    split; [exact (Hsame Hle)|].
    intros r Hr. rewrite (Hsame Hle) in Hr.
    apply (sum_zero_all
             (map Curve.Manpower
                  (Curve.of_task (Baseline.task_code b) reshaped))).
    + intros v Hv. apply in_map_iff in Hv.
      destruct Hv as (r' & <- & Hr'). now apply Hnonneg.
    + exact Hle.
    + now apply in_map.
Qed.

Lemma conservation_fails_exactly_for_a_zeroed_task_witness :
  exists final,
    adjusted_curve Daily_Report Scenario.mon_sat Scenario.baseline_df
      Scenario.task_progress_df Scenario.weekly_df Scenario.daily_df_zero
    = Ok final /\
    Curve.total (Curve.of_task "BLK" final) = 0%Qc /\
    target_of Scenario.task_progress_df "BLK" = Num.of_Z 1500.
Proof.
  destruct (conservation_fails_exactly_for_a_zeroed_task Daily_Report
              Scenario.mon_sat Scenario.baseline_df
              Scenario.task_progress_df Scenario.weekly_df
              Scenario.daily_df_zero Scenario.blk_baseline
              (reshaped_curve Daily_Report Scenario.mon_sat
                 Scenario.baseline_df Scenario.task_progress_df
                 Scenario.weekly_df Scenario.daily_df_zero)
              scenario_tables_zero (or_introl eq_refl))
    as (final & H & _ & _ & _ & Hzero).
  - reflexivity.
  - apply (refinement_reshaped Daily_Report _ _ _ _ _ scenario_tables_zero).
  - exists final. split; [exact H|]. split; [|canon].
    destruct Hzero as [Hrows _]; [canon|].
    change "BLK"%string with (Baseline.task_code Scenario.blk_baseline).
    rewrite Hrows. canon.
Defined.
